(** * ROCm monitor: collection-and-retention engine

    A shallow embedding of the Go sources of the monitor
    ([rocm_data.go]: parser, CPU usage, validation; the collector file:
    history store and scheduler; [main.go]: the windowed read of
    [statsHandler]) together with the properties of the specification
    that were checked against them.

    Conventions of the embedding:
    - a Go [string] is a sequence of bytes: [string] of [ascii]; the
      degree sign of the temperature pattern is its two UTF-8 bytes;
    - [float64] is IEEE 754 binary64, modelled by [spec_float] with the
      operations of [SpecFloat] at precision 53 and maximal exponent 1024
      (NaN payloads are not distinguished);
    - [int] is the 64-bit Go integer, carried by [Z];
    - [map[int]T] is a [gmap Z T]; a [range] over it visits the entries in
      an order the language leaves unspecified, supplied here by a
      [MapOrder];
    - the outside world of one collection round (command outputs, clock,
      [/proc/stat]) is an explicit [World] value. *)

From Stdlib Require Import ZArith String Ascii List Bool Lia Sorted SpecFloat DecimalString.
From stdpp Require Import gmap strings list sorting.
Import ListNotations.

Local Open Scope Z_scope.

(** ** float64 *)

Module Float64.

Definition prec : Z := 53.
Definition emax : Z := 1024.

Definition t := spec_float.

Definition zero : t := S754_zero false.

(** Conversion of an integer, rounded to nearest even (Go's [float64(n)]
    and untyped constants such as [150] in a float comparison). *)
Definition of_Z (n : Z) : t := binary_normalize prec emax n 0 false.

Definition add : t -> t -> t := SFadd prec emax.
Definition sub : t -> t -> t := SFsub prec emax.
Definition mul : t -> t -> t := SFmul prec emax.
Definition div : t -> t -> t := SFdiv prec emax.

Definition ltb : t -> t -> bool := SFltb.
Definition leb : t -> t -> bool := SFleb.
Definition eqb : t -> t -> bool := SFeqb.
(** Go's [x > y]. *)
Definition gtb (x y : t) : bool := SFltb y x.

Definition is_nan (x : t) : bool :=
  match x with S754_nan => true | _ => false end.

(** The correctly rounded quotient of two positive integers: the value
    of a decimal literal [m / 10^k]. [SFdiv] rounds the exact quotient
    of the two (unnormalised) operands once. *)
Definition of_ratio (num den : positive) : t :=
  div (S754_finite false num 0) (S754_finite false den 0).

End Float64.

Abbreviation float64 := Float64.t.

(** ** Bytes and character classes *)

Definition is_digit (c : ascii) : bool :=
  let n := nat_of_ascii c in (48 <=? n)%nat && (n <=? 57)%nat.

(** RE2's [\s]: tab, newline, form feed, carriage return, space. *)
Definition is_space (c : ascii) : bool :=
  let n := nat_of_ascii c in
  (n =? 9)%nat || (n =? 10)%nat || (n =? 12)%nat || (n =? 13)%nat || (n =? 32)%nat.

Definition digit_val (c : ascii) : Z := Z.of_nat (nat_of_ascii c) - 48.

(** ** strconv *)

Module Strconv.

(** Value of a run of decimal digits read left to right on top of
    [acc]; [None] at the first byte that is not a digit. *)
Fixpoint digits (acc : Z) (s : string) : option Z :=
  match s with
  | EmptyString => Some acc
  | String c s' =>
      if is_digit c then digits (10 * acc + digit_val c) s' else None
  end.

Definition maxInt64 : Z := 2 ^ 63 - 1.
Definition minInt64 : Z := - 2 ^ 63.

Definition unsigned (s : string) : option Z :=
  match s with
  | EmptyString => None
  | _ => digits 0 s
  end.

(** [strconv.Atoi] on a 64-bit platform, as [(value, ok)]: an optional
    sign and decimal digits; a syntax error gives 0, a value out of
    range gives the nearest bound; [ok] is false in both cases. *)
Definition Atoi (s : string) : Z * bool :=
  let '(neg, body) :=
    match s with
    | String "-" s' => (true, s')
    | String "+" s' => (false, s')
    | _ => (false, s)
    end in
  match unsigned body with
  | None => (0, false)
  | Some n =>
      if neg then
        if 2 ^ 63 <? n then (minInt64, false) else (- n, true)
      else
        if maxInt64 <? n then (maxInt64, false) else (n, true)
  end.

(** Integer part, fraction digits read so far and their count, for the
    decimal syntax [digits] or [digits.digits] (either side of the
    point may be empty, not both). *)
Fixpoint fraction (m : Z) (k : nat) (s : string) : option (Z * nat) :=
  match s with
  | EmptyString => Some (m, k)
  | String c s' =>
      if is_digit c then fraction (10 * m + digit_val c) (S k) s' else None
  end.

Fixpoint mantissa (m : Z) (seen : bool) (s : string) : option (Z * nat) :=
  match s with
  | EmptyString => if seen then Some (m, 0%nat) else None
  | String c s' =>
      if is_digit c then mantissa (10 * m + digit_val c) true s'
      else if Ascii.eqb c "." then
        match s' with
        | EmptyString => if seen then Some (m, 0%nat) else None
        | _ => fraction m 0 s'
        end
      else None
  end.

(** [strconv.ParseFloat(s, 64)] on the plain decimal syntax, which is
    all that the capture groups [\d+\.?\d*] and [\d+] of the parser can
    hand to it: the nearest binary64 value (ties to even), an infinity
    when the literal is out of range, and 0 on a syntax error. The
    second component tells whether Go reports no error. Signs,
    exponents, hexadecimal literals and the names of infinities and NaN
    are outside this model and count as syntax errors here. *)
Definition ParseFloat (s : string) : float64 * bool :=
  match mantissa 0 false s with
  | None => (Float64.zero, false)
  | Some (m, k) =>
      match m with
      | Zpos p =>
          let v := Float64.of_ratio p (Z.to_pos (10 ^ Z.of_nat k)) in
          (v, match v with S754_infinity _ => false | _ => true end)
      | _ => (Float64.zero, true)
      end
  end.

(** [fmt.Sprintf("%d", n)]. *)
Definition Itoa (n : Z) : string := NilZero.string_of_int (Z.to_int n).

End Strconv.

(** ** regexp

    The patterns of the parser are concatenations of literal bytes,
    the classes [\d] and [\s] under [?], [*] and [+], capture groups that
    are not themselves repeated, and the anchors [^] and [$]. [exec] is
    the backtracking reading of such a pattern: every repetition is
    greedy, and the first way to match in that preference order is the
    one Go's leftmost-first semantics selects. *)

Module Regexp.

Inductive cls :=
| Digit                (* \d *)
| Space                (* \s *)
| Byte (c : ascii).    (* a literal byte *)

Definition cls_matches (k : cls) (c : ascii) : bool :=
  match k with
  | Digit => is_digit c
  | Space => is_space c
  | Byte b => Ascii.eqb b c
  end.

Inductive item :=
| One (k : cls)
| Opt (k : cls)        (* k? *)
| Star (k : cls)       (* k* *)
| Open (g : nat)       (* opening parenthesis of group g *)
| Close (g : nat)      (* closing parenthesis of group g *)
| Bol                  (* ^ without the m flag: start of text *)
| Eol.                 (* $ without the m flag: end of text *)

Definition regex := list item.

Fixpoint lit (s : string) : regex :=
  match s with
  | EmptyString => []
  | String c s' => One (Byte c) :: lit s'
  end.

(** [k+] is [k k*]. *)
Definition plus (k : cls) : regex := [One k; Star k].

(** Spans of the groups closed so far, most recent first. *)
Definition spans := list (nat * (nat * nat)).

Definition start_of (g : nat) (opens : list (nat * nat)) : nat :=
  match List.find (fun o => Nat.eqb (fst o) g) opens with
  | Some o => snd o
  | None => 0%nat
  end.

(** [exec r pos s opens caps]: match [r] against the text whose
    unread part is [s], [pos] bytes having been read; the result is the
    end position and the group spans. *)
Fixpoint exec (r : regex) (pos : nat) (s : string)
    (opens : list (nat * nat)) (caps : spans) {struct r} : option (nat * spans) :=
  match r with
  | [] => Some (pos, caps)
  | One k :: r' =>
      match s with
      | String c s' =>
          if cls_matches k c then exec r' (S pos) s' opens caps else None
      | EmptyString => None
      end
  | Opt k :: r' =>
      match s with
      | String c s' =>
          if cls_matches k c then
            match exec r' (S pos) s' opens caps with
            | Some m => Some m
            | None => exec r' pos s opens caps
            end
          else exec r' pos s opens caps
      | EmptyString => exec r' pos s opens caps
      end
  | Star k :: r' =>
      (fix star (pos : nat) (s : string) {struct s} : option (nat * spans) :=
         match s with
         | String c s' =>
             if cls_matches k c then
               match star (S pos) s' with
               | Some m => Some m
               | None => exec r' pos s opens caps
               end
             else exec r' pos s opens caps
         | EmptyString => exec r' pos s opens caps
         end) pos s
  | Open g :: r' => exec r' pos s ((g, pos) :: opens) caps
  | Close g :: r' => exec r' pos s opens ((g, (start_of g opens, pos)) :: caps)
  | Bol :: r' => if Nat.eqb pos 0 then exec r' pos s opens caps else None
  | Eol :: r' =>
      match s with
      | EmptyString => exec r' pos s opens caps
      | String _ _ => None
      end
  end.

(** Leftmost match at or after [pos]: start, end and group spans. *)
Fixpoint search (r : regex) (pos : nat) (s : string) : option (nat * nat * spans) :=
  match exec r pos s [] [] with
  | Some (e, caps) => Some (pos, e, caps)
  | None =>
      match s with
      | String _ s' => search r (S pos) s'
      | EmptyString => None
      end
  end.

Definition groups (r : regex) : nat :=
  length (List.filter (fun i => match i with Open _ => true | _ => false end) r).

Definition span_text (text : string) (sp : nat * nat) : string :=
  substring (fst sp) (snd sp - fst sp) text.

Definition group_text (text : string) (caps : spans) (g : nat) : string :=
  match List.find (fun c => Nat.eqb (fst c) g) caps with
  | Some c => span_text text (snd c)
  | None => ""
  end.

(** The slice Go returns for one match: the whole match, then the text
    of each group. *)
Definition submatches (r : regex) (text : string) (m : nat * nat * spans) : list string :=
  let '(b, e, caps) := m in
  span_text text (b, e) :: map (group_text text caps) (seq 1 (groups r)).

(** [re.FindStringSubmatch(text)]; [nil] is the empty list. *)
Definition FindStringSubmatch (r : regex) (text : string) : list string :=
  match search r 0 text with
  | Some m => submatches r text m
  | None => []
  end.

Fixpoint drop_bytes (n : nat) (s : string) : string :=
  match n, s with
  | S n', String _ s' => drop_bytes n' s'
  | _, _ => s
  end.

(** Whether a pattern has an item that reads a byte; such a pattern
    never matches the empty string. All patterns of the parser do. *)
Definition consumes (r : regex) : bool :=
  existsb (fun i => match i with One _ => true | _ => false end) r.

(** Successive matches from [pos] on, for a pattern that consumes: after
    a match the search resumes at its end. *)
Fixpoint all_from (fuel : nat) (r : regex) (text : string) (pos : nat) (s : string)
    : list (list string) :=
  match fuel with
  | O => []
  | S fuel' =>
      match search r pos s with
      | None => []
      | Some (b, e, caps) =>
          submatches r text (b, e, caps)
            :: all_from fuel' r text e (drop_bytes (e - pos) s)
      end
  end.

(** [re.FindAllStringSubmatch(text, -1)] for a pattern that consumes.
    Every match reads at least one byte, so [length text + 1] rounds
    exhaust the text ([all_from_fuel] below). *)
Definition FindAllStringSubmatch (r : regex) (text : string) : list (list string) :=
  all_from (S (String.length text)) r text 0 text.

End Regexp.

(** ** strings *)

Module Strings.

(** [strings.Split(s, sep)] for a one-byte separator: the pieces
    between separators, so [n] separators give [n + 1] pieces and the
    empty string gives one empty piece. *)
Fixpoint Split (s : string) (sep : ascii) : list string :=
  match s with
  | EmptyString => [EmptyString]
  | String c s' =>
      if Ascii.eqb c sep then EmptyString :: Split s' sep
      else
        match Split s' sep with
        | piece :: pieces => String c piece :: pieces
        | [] => [String c EmptyString]
        end
  end.

End Strings.

(** ** Errors *)

(** The errors the sources build with [fmt.Errorf], by message; [Wrap]
    is the [%w] wrapping done by the collector, [External] an error
    coming from the operating system or a command. *)
Inductive error :=
| EmptyOutput                                (* "empty rocm-smi output" *)
| NoGPUDataFound                             (* "no GPU data found in output" *)
| NoGPUDataAvailable                         (* "no GPU data available" *)
| InvalidTemperature (i : nat) (v : float64) (* "invalid temperature for GPU %d: %.2f" *)
| InvalidPower (i : nat) (v : float64)       (* "invalid power for GPU %d: %.2f" *)
| InvalidGPUUsage (i : nat) (v : float64)    (* "invalid GPU usage for GPU %d: %.2f" *)
| InvalidCPUUsage (v : float64)              (* "invalid CPU usage: %.2f" *)
| NoDataAvailable                            (* "no data available" *)
| External (msg : string)
| Wrap (msg : string) (e : error).

Inductive result (A : Type) :=
| Ok (a : A)
| Err (e : error).
Arguments Ok {A} a.
Arguments Err {A} e.

(** ** Data model ([rocm_data.go]) *)

(** A [time.Time] taken from [time.Now()], as nanoseconds on the
    process's monotonic clock; a [time.Duration] is an [int64] count of
    nanoseconds. *)
Definition Time := Z.
Definition Duration := Z.

Record GPU := {
  ID : Z;
  Name : string;
  Temperature : float64;
  Power : float64;
  VRAMUsage : float64;
  VRAMTotal : float64;
  GPUUsage : float64;
  FanSpeed : float64;
  SCLKFreq : float64;
  MCLKFreq : float64 }.

Record RocmData := {
  Timestamp : Time;
  GPUs : list GPU;
  CPUUsage : float64 }.

(** The zero value [GPU{ID: id}]. *)
Definition GPU_zero (id : Z) : GPU :=
  {| ID := id; Name := ""; Temperature := Float64.zero; Power := Float64.zero;
     VRAMUsage := Float64.zero; VRAMTotal := Float64.zero; GPUUsage := Float64.zero;
     FanSpeed := Float64.zero; SCLKFreq := Float64.zero; MCLKFreq := Float64.zero |}.

Definition set_Temperature (v : float64) (g : GPU) : GPU :=
  {| ID := ID g; Name := Name g; Temperature := v; Power := Power g;
     VRAMUsage := VRAMUsage g; VRAMTotal := VRAMTotal g; GPUUsage := GPUUsage g;
     FanSpeed := FanSpeed g; SCLKFreq := SCLKFreq g; MCLKFreq := MCLKFreq g |}.

Definition set_Power (v : float64) (g : GPU) : GPU :=
  {| ID := ID g; Name := Name g; Temperature := Temperature g; Power := v;
     VRAMUsage := VRAMUsage g; VRAMTotal := VRAMTotal g; GPUUsage := GPUUsage g;
     FanSpeed := FanSpeed g; SCLKFreq := SCLKFreq g; MCLKFreq := MCLKFreq g |}.

Definition set_VRAMUsage (v : float64) (g : GPU) : GPU :=
  {| ID := ID g; Name := Name g; Temperature := Temperature g; Power := Power g;
     VRAMUsage := v; VRAMTotal := VRAMTotal g; GPUUsage := GPUUsage g;
     FanSpeed := FanSpeed g; SCLKFreq := SCLKFreq g; MCLKFreq := MCLKFreq g |}.

Definition set_VRAMTotal (v : float64) (g : GPU) : GPU :=
  {| ID := ID g; Name := Name g; Temperature := Temperature g; Power := Power g;
     VRAMUsage := VRAMUsage g; VRAMTotal := v; GPUUsage := GPUUsage g;
     FanSpeed := FanSpeed g; SCLKFreq := SCLKFreq g; MCLKFreq := MCLKFreq g |}.

Definition set_GPUUsage (v : float64) (g : GPU) : GPU :=
  {| ID := ID g; Name := Name g; Temperature := Temperature g; Power := Power g;
     VRAMUsage := VRAMUsage g; VRAMTotal := VRAMTotal g; GPUUsage := v;
     FanSpeed := FanSpeed g; SCLKFreq := SCLKFreq g; MCLKFreq := MCLKFreq g |}.

Definition set_FanSpeed (v : float64) (g : GPU) : GPU :=
  {| ID := ID g; Name := Name g; Temperature := Temperature g; Power := Power g;
     VRAMUsage := VRAMUsage g; VRAMTotal := VRAMTotal g; GPUUsage := GPUUsage g;
     FanSpeed := v; SCLKFreq := SCLKFreq g; MCLKFreq := MCLKFreq g |}.

Definition set_SCLKFreq (v : float64) (g : GPU) : GPU :=
  {| ID := ID g; Name := Name g; Temperature := Temperature g; Power := Power g;
     VRAMUsage := VRAMUsage g; VRAMTotal := VRAMTotal g; GPUUsage := GPUUsage g;
     FanSpeed := FanSpeed g; SCLKFreq := v; MCLKFreq := MCLKFreq g |}.

Definition set_MCLKFreq (v : float64) (g : GPU) : GPU :=
  {| ID := ID g; Name := Name g; Temperature := Temperature g; Power := Power g;
     VRAMUsage := VRAMUsage g; VRAMTotal := VRAMTotal g; GPUUsage := GPUUsage g;
     FanSpeed := FanSpeed g; SCLKFreq := SCLKFreq g; MCLKFreq := v |}.

Definition set_CPUUsage (v : float64) (d : RocmData) : RocmData :=
  {| Timestamp := Timestamp d; GPUs := GPUs d; CPUUsage := v |}.

(** ** Parser ([rocm_data.go]) *)

Import Regexp.

Record Parser := {
  tempRegex : regex;
  powerRegex : regex;
  vramRegex : regex;
  gpuRegex : regex;
  fanRegex : regex;
  deviceIDRegex : regex;
  vramTotalRegex : regex;
  vramUsedRegex : regex;
  sclkRegex : regex;
  mclkRegex : regex }.

(** Group [g] around [\d+\.?\d*]. *)
Definition number (g : nat) : regex :=
  ([Open g] ++ plus Digit ++ [Opt (Byte "."); Star Digit; Close g])%list.

(** The two UTF-8 bytes of the degree sign, then [C]. *)
Definition degreeC : string :=
  String (ascii_of_nat 194) (String (ascii_of_nat 176) "C").

(** [GPU\[ id \]\s*:\s*] where [id] is a pattern for the index. *)
Definition gpu_prefix (id : regex) : regex :=
  (lit "GPU[" ++ id ++ lit "]" ++ [Star Space; One (Byte ":"); Star Space])%list.

(** [<name> clock level:\s*\d+:\s*\((\d+)Mhz\)] after the prefix. *)
Definition clock_level (id : regex) (name : string) : regex :=
  (gpu_prefix id ++ lit name ++ lit " clock level:" ++ [Star Space] ++ plus Digit
     ++ [One (Byte ":"); Star Space] ++ lit "(" ++ [Open 1] ++ plus Digit ++ [Close 1]
     ++ lit "Mhz)")%list.

Definition NewParser : Parser := {|
  tempRegex := (number 1 ++ [Star Space] ++ lit degreeC)%list;
  powerRegex := (number 1 ++ [Star Space] ++ lit "W")%list;
  vramRegex := (number 1 ++ lit "%" ++ plus Space ++ number 2 ++ lit "%"
                  ++ [Star Space; Eol])%list;
  gpuRegex := (number 1 ++ lit "%" ++ [Star Space; Eol])%list;
  fanRegex := (number 1 ++ lit "%" ++ plus Space ++ lit "auto")%list;
  deviceIDRegex := ([Bol; Open 1] ++ plus Digit ++ [Close 1] ++ plus Space)%list;
  vramTotalRegex :=
    (gpu_prefix ([Open 1] ++ plus Digit ++ [Close 1]) ++ lit "VRAM Total Memory (B):"
       ++ [Star Space; Open 2] ++ plus Digit ++ [Close 2])%list;
  vramUsedRegex :=
    (gpu_prefix ([Open 1] ++ plus Digit ++ [Close 1]) ++ lit "VRAM Total Used Memory (B):"
       ++ [Star Space; Open 2] ++ plus Digit ++ [Close 2])%list;
  sclkRegex := clock_level (plus Digit) "sclk";
  mclkRegex := clock_level (plus Digit) "mclk" |}.

(** The order in which one [range] over a [map[int]string] visits its
    entries: every entry once, in an order Go does not specify. *)
Record MapOrder := {
  visit : list (Z * string) -> list (Z * string);
  visit_perm : forall l, visit l ≡ₚ l }.

Definition range (o : MapOrder) (m : gmap Z string) : list (Z * string) :=
  visit o (map_to_list m).

(** [1024 * 1024 * 1024] as a float64 constant. *)
Definition GiB : float64 := Float64.of_Z (1024 * 1024 * 1024).

(** The loops that fill [vramTotalMap] and [vramUsedMap]: each match with
    both groups sets the entry of its device, a later match overwriting
    an earlier one. *)
Definition bytes_entry (m : gmap Z float64) (match_ : list string) : gmap Z float64 :=
  match match_ with
  | _ :: id :: bytes :: _ =>
      let gpuID := fst (Strconv.Atoi id) in
      let b := fst (Strconv.ParseFloat bytes) in
      <[gpuID := Float64.div b GiB]> m
  | _ => m
  end.

Definition bytesMap (matches : list (list string)) : gmap Z float64 :=
  fold_left bytes_entry matches ∅.

Definition device_line (p : Parser) (sections : gmap Z string) (line : string)
    : gmap Z string :=
  match FindStringSubmatch (deviceIDRegex p) line with
  | _ :: id :: _ => <[fst (Strconv.Atoi id) := line]> sections
  | _ => sections
  end.

Definition newline : ascii := ascii_of_nat 10.

Definition splitByGPU (p : Parser) (output : string) : gmap Z string :=
  let lines := Strings.Split output newline in
  let sections := fold_left (device_line p) lines ∅ in
  if Nat.eqb (size sections) 0 then <[0 := output]> sections else sections.

(** A field assignment guarded by [len(matches) > 1]. *)
Definition capture1 (r : regex) (text : string) (set : float64 -> GPU -> GPU) (gpu : GPU) : GPU :=
  match FindStringSubmatch r text with
  | _ :: v :: _ => set (fst (Strconv.ParseFloat v)) gpu
  | _ => gpu
  end.

(** The body of the loop over the sections. *)
Definition parseSection (p : Parser) (output : string)
    (vramTotalMap vramUsedMap : gmap Z float64) (entry : Z * string) : GPU :=
  let '(id, section) := entry in
  let gpu := GPU_zero id in
  let gpu := capture1 (tempRegex p) section set_Temperature gpu in
  let gpu := capture1 (powerRegex p) section set_Power gpu in
  let gpu :=
    match FindStringSubmatch (vramRegex p) section with
    | _ :: v :: u :: _ =>
        set_GPUUsage (fst (Strconv.ParseFloat u))
          (set_VRAMUsage (fst (Strconv.ParseFloat v)) gpu)
    | _ => gpu
    end in
  let gpu := capture1 (fanRegex p) section set_FanSpeed gpu in
  let sclkPattern := clock_level (lit (Strconv.Itoa id)) "sclk" in
  let gpu := capture1 sclkPattern output set_SCLKFreq gpu in
  let mclkPattern := clock_level (lit (Strconv.Itoa id)) "mclk" in
  let gpu := capture1 mclkPattern output set_MCLKFreq gpu in
  let gpu :=
    match vramTotalMap !! id with
    | Some total => set_VRAMTotal total gpu
    | None => gpu
    end in
  let gpu :=
    match vramUsedMap !! id with
    | Some used => set_VRAMUsage used gpu
    | None => gpu
    end in
  gpu.

Definition ParseRocmSMIOutput (p : Parser) (now : Time) (o : MapOrder) (output : string)
    : result RocmData :=
  if String.eqb output "" then Err EmptyOutput
  else
    let vramTotalMap := bytesMap (FindAllStringSubmatch (vramTotalRegex p) output) in
    let vramUsedMap := bytesMap (FindAllStringSubmatch (vramUsedRegex p) output) in
    let gpuSections := splitByGPU p output in
    let gpus := List.map (parseSection p output vramTotalMap vramUsedMap)
                  (range o gpuSections) in
    if Nat.eqb (length gpus) 0 then Err NoGPUDataFound
    else Ok {| Timestamp := now; GPUs := gpus; CPUUsage := Float64.zero |}.

(** ** Host CPU usage ([rocm_data.go]) *)

Record CPUStats := { Total : float64; Idle : float64 }.

(** [GetCPUUsage], given what [ReadCPUStats] returned and the package
    variable [lastCPUStats]: the usage, the error, and the new value of
    the variable. *)
Definition GetCPUUsage (read : result CPUStats) (lastCPUStats : option CPUStats)
    : float64 * option error * option CPUStats :=
  match read with
  | Err e => (Float64.zero, Some e, lastCPUStats)
  | Ok currentStats =>
      match lastCPUStats with
      | None => (Float64.zero, None, Some currentStats)
      | Some last =>
          let totalDiff := Float64.sub (Total currentStats) (Total last) in
          let idleDiff := Float64.sub (Idle currentStats) (Idle last) in
          if Float64.eqb totalDiff Float64.zero then (Float64.zero, None, Some currentStats)
          else
            let usage := Float64.mul (Float64.div (Float64.sub totalDiff idleDiff) totalDiff)
                           (Float64.of_Z 100) in
            (usage, None, Some currentStats)
      end
  end.

(** ** Validation ([rocm_data.go]) *)

Definition out_of (lo hi : Z) (x : float64) : bool :=
  Float64.ltb x (Float64.of_Z lo) || Float64.gtb x (Float64.of_Z hi).

(** The loop of [Validate] from index [i] on: the first failed check
    returns. *)
Fixpoint validate_gpus (i : nat) (gpus : list GPU) : option error :=
  match gpus with
  | [] => None
  | gpu :: rest =>
      if out_of 0 150 (Temperature gpu) then Some (InvalidTemperature i (Temperature gpu))
      else if out_of 0 1000 (Power gpu) then Some (InvalidPower i (Power gpu))
      else if out_of 0 100 (GPUUsage gpu) then Some (InvalidGPUUsage i (GPUUsage gpu))
      else validate_gpus (S i) rest
  end.

(** [d.Validate()]; [None] is [nil]. *)
Definition Validate (d : RocmData) : option error :=
  if Nat.eqb (length (GPUs d)) 0 then Some NoGPUDataAvailable
  else
    match validate_gpus 0 (GPUs d) with
    | Some e => Some e
    | None =>
        if out_of 0 100 (CPUUsage d) then Some (InvalidCPUUsage (CPUUsage d))
        else None
    end.

(** ** Collector (history store and scheduler) *)

(** What lives outside the [Collector] value: the package variable
    [lastCPUStats], the cancellation contexts made so far (a context is
    named by its number) with those already cancelled, and the number of
    [collectLoop] goroutines started. *)
Record Runtime := {
  lastCPUStats : option CPUStats;
  contexts : nat;
  cancelled : gset nat;
  loops : nat }.

Record Collector := {
  parser : Parser;
  history : list RocmData;
  maxHistory : Z;
  interval : Duration;
  ctx : nat;
  cancel : nat;            (* the context that [c.cancel()] cancels *)
  errorCallback : bool }.  (* whether the callback is non-nil *)

Record CollectorConfig := {
  MaxHistory : Z;
  Interval : Duration;
  ErrorCallback : bool }.

Definition Second : Duration := 1000000000.
Definition Minute : Duration := 60 * Second.

Definition set_history (h : list RocmData) (c : Collector) : Collector :=
  {| parser := parser c; history := h; maxHistory := maxHistory c;
     interval := interval c; ctx := ctx c; cancel := cancel c;
     errorCallback := errorCallback c |}.

Definition set_interval (d : Duration) (c : Collector) : Collector :=
  {| parser := parser c; history := history c; maxHistory := maxHistory c;
     interval := d; ctx := ctx c; cancel := cancel c;
     errorCallback := errorCallback c |}.

Definition set_ctx (k : nat) (c : Collector) : Collector :=
  {| parser := parser c; history := history c; maxHistory := maxHistory c;
     interval := interval c; ctx := k; cancel := k;
     errorCallback := errorCallback c |}.

(** [context.WithCancel(context.Background())]: a fresh context. *)
Definition WithCancel (rt : Runtime) : nat * Runtime :=
  (contexts rt,
   {| lastCPUStats := lastCPUStats rt; contexts := S (contexts rt);
      cancelled := cancelled rt; loops := loops rt |}).

Definition NewCollector (config : CollectorConfig) (rt : Runtime) : Collector * Runtime :=
  let maxH := if MaxHistory config <=? 0 then 1000 else MaxHistory config in
  let itv := if Interval config <=? 0 then 5 * Second else Interval config in
  let '(k, rt') := WithCancel rt in
  ({| parser := NewParser; history := []; maxHistory := maxH; interval := itv;
      ctx := k; cancel := k; errorCallback := ErrorCallback config |}, rt').

(** [go c.collectLoop()]. *)
Definition Start (c : Collector) (rt : Runtime) : Runtime :=
  {| lastCPUStats := lastCPUStats rt; contexts := contexts rt;
     cancelled := cancelled rt; loops := S (loops rt) |}.

Definition Stop (c : Collector) (rt : Runtime) : Runtime :=
  {| lastCPUStats := lastCPUStats rt; contexts := contexts rt;
     cancelled := {[cancel c]} ∪ cancelled rt; loops := loops rt |}.

Definition set_lastCPUStats (l : option CPUStats) (rt : Runtime) : Runtime :=
  {| lastCPUStats := l; contexts := contexts rt;
     cancelled := cancelled rt; loops := loops rt |}.

(** What one call of [collect] finds outside the program. *)
Record World := {
  now : Time;                    (* [time.Now()] in the parser *)
  smi : result string;           (* [rocm-smi] *)
  smi_vram : result string;      (* [rocm-smi --showmeminfo vram] *)
  smi_clock : result string;     (* [rocm-smi -c] *)
  proc_stat : result CPUStats;   (* [ReadCPUStats()] *)
  order : MapOrder }.            (* the [range] over the sections *)

(** The statement at which [collect] stops. *)
Inductive Exit :=
| ExecutionFailed                (* return: [rocm-smi] failed *)
| ParsingFailed (e : error)      (* return: the parser failed *)
| ValidationFailed (data : RocmData) (e : error)
                                 (* return: [data.Validate()] failed *)
| Stored (data : RocmData)       (* the end of the function *)
| SlicePanic (data : RocmData).  (* the re-slicing of the history panicked *)

Record Round := {
  collector' : Collector;
  runtime' : Runtime;
  reported : list error;         (* the calls of the error callback *)
  exit : Exit }.

Definition report (c : Collector) (e : error) : list error :=
  if errorCallback c then [e] else [].

(** [l[lo:]]: a panic ([None]) unless [0 <= lo <= len(l)]. *)
Definition slice_from {A} (l : list A) (lo : Z) : option (list A) :=
  if (0 <=? lo) && (lo <=? Z.of_nat (length l)) then Some (drop (Z.to_nat lo) l)
  else None.

(** The critical section of [collect]: append, then keep the most
    recent [maxHistory] samples. The boolean is false when the slice
    expression panics, which happens after the append has been assigned. *)
Definition store (c : Collector) (data : RocmData) : Collector * bool :=
  let h := history c ++ [data] in
  if Z.of_nat (length h) >? maxHistory c then
    match slice_from h (Z.of_nat (length h) - maxHistory c) with
    | Some h' => (set_history h' c, true)
    | None => (set_history h c, false)
    end
  else (set_history h c, true).

Definition combine (output : string) (extra : result string) : string :=
  match extra with
  | Ok more => output +:+ String newline "" +:+ more
  | Err _ => output
  end.

Definition collect (c : Collector) (rt : Runtime) (w : World) : Round :=
  match smi w with
  | Err err =>
      {| collector' := c; runtime' := rt;
         reported := report c (Wrap "rocm-smi execution failed" err);
         exit := ExecutionFailed |}
  | Ok output =>
      let combinedOutput := combine (combine output (smi_vram w)) (smi_clock w) in
      match ParseRocmSMIOutput (parser c) (now w) (order w) combinedOutput with
      | Err err =>
          {| collector' := c; runtime' := rt;
             reported := report c (Wrap "parsing failed" err);
             exit := ParsingFailed err |}
      | Ok data =>
          let '(cpuUsage, cpuErr, last) := GetCPUUsage (proc_stat w) (lastCPUStats rt) in
          let rt := set_lastCPUStats last rt in
          let '(cpuUsage, calls) :=
            match cpuErr with
            | Some err => (Float64.zero, report c (Wrap "CPU usage collection failed" err))
            | None => (cpuUsage, [])
            end in
          let data := set_CPUUsage cpuUsage data in
          match Validate data with
          | Some err =>
              {| collector' := c; runtime' := rt;
                 reported := calls ++ report c (Wrap "validation failed" err);
                 exit := ValidationFailed data err |}
          | None =>
              let '(c', ok) := store c data in
              {| collector' := c'; runtime' := rt; reported := calls;
                 exit := if ok then Stored data else SlicePanic data |}
          end
      end
  end.

(** A run of the loop: the initial collection and the ticks, one
    [World] each. The second component lists the exits in order. *)
Fixpoint collectLoop (c : Collector) (rt : Runtime) (ws : list World)
    : Collector * Runtime * list Exit :=
  match ws with
  | [] => (c, rt, [])
  | w :: ws' =>
      let r := collect c rt w in
      let '(c', rt', exits) := collectLoop (collector' r) (runtime' r) ws' in
      (c', rt', exit r :: exits)
  end.

(** [GetHistory]: a new slice holding the elements of the history. At
    the level of values that is the same sequence; what the copy shares
    with the original is the subject of [Module Memory] below. *)
Definition GetHistory (c : Collector) : list RocmData := history c.

Definition GetLatest (c : Collector) : result RocmData :=
  if Nat.eqb (length (history c)) 0 then Err NoDataAvailable
  else
    match last (history c) with
    | Some latest => Ok latest
    | None => Err NoDataAvailable
    end.

Definition SetInterval (c : Collector) (rt : Runtime) (d : Duration) : Collector * Runtime :=
  if d <=? 0 then (c, rt)
  else
    let rt := Stop c rt in
    let c := set_interval d c in
    let '(k, rt) := WithCancel rt in
    let c := set_ctx k c in
    (c, Start c rt).

Definition ClearHistory (c : Collector) : Collector := set_history [] c.

(** ** The windowed read ([statsHandler] in [main.go]) *)

(** [-duration] on an [int64]: the least value is its own negation. *)
Definition neg64 (d : Duration) : Duration :=
  if d =? - 2 ^ 63 then d else - d.

Definition Add (t : Time) (d : Duration) : Time := t + d.

(** [t.After(u)]. *)
Definition After (t u : Time) : bool := u <? t.

Inductive Response :=
| HttpError (msg : string) (status : Z)
| Json (body : list RocmData).

(** What [json.NewEncoder(w).Encode(v)] returns for a sequence of
    samples [v]; [None] is [nil]. The encoder fails when a value has no
    JSON notation, as an infinity or a NaN, or when the response cannot
    be written. *)
Definition Encoder := list RocmData -> option error.

(** The end of both paths of [statsHandler]: the sequence is encoded
    into the response, and a failure of the encoder is answered with
    500. *)
Definition respond (Encode : Encoder) (body : list RocmData) : Response :=
  match Encode body with
  | Some _ => HttpError "Failed to encode data" 500
  | None => Json body
  end.

(** [statsHandler] at time [now]; [window] is [Some d] when the query
    carries a non-empty [window] parameter that [time.ParseDuration]
    reads as [d], and [None] otherwise. *)
Definition statsHandler (Encode : Encoder) (c : Collector) (now : Time)
    (window : option Duration) : Response :=
  match window with
  | Some duration =>
      let history := GetHistory c in
      if Nat.eqb (length history) 0 then HttpError "No data available" 404
      else
        let cutoff := Add now (neg64 duration) in
        respond Encode (List.filter (fun data => After (Timestamp data) cutoff) history)
  | None => respond Encode (GetHistory c)
  end.

(** ** Slices and their backing arrays

    The definitions above treat a slice as the sequence of its elements.
    A Go slice is a header (array, offset, length) over a backing array
    that other headers may share, and an assignment of a struct copies
    the headers inside it, not the arrays. This module keeps the arrays
    in an explicit memory to follow what [GetHistory] shares with the
    history it copies. *)

Module Memory.

Record slice := { arr : nat; off : nat; len : nat }.

(** A [RocmData] value as it lies in memory: [GPUs] is a header. *)
Record Sample := {
  timestamp : Time;
  gpus : slice;
  cpuUsage : float64 }.

Record Mem := {
  gpu_arrays : gmap nat (list GPU);        (* backing arrays of [[]GPU] *)
  data_arrays : gmap nat (list Sample);    (* backing arrays of [[]RocmData] *)
  next : nat }.                            (* the next array to allocate *)

Definition window {A} (s : slice) (a : list A) : list A :=
  take (len s) (drop (off s) a).

Definition samples (m : Mem) (s : slice) : list Sample :=
  window s (default [] (data_arrays m !! arr s)).

Definition devices (m : Mem) (s : slice) : list GPU :=
  window s (default [] (gpu_arrays m !! arr s)).

(** The value a sample in memory stands for. *)
Definition value (m : Mem) (x : Sample) : RocmData :=
  {| Timestamp := timestamp x; GPUs := devices m (gpus x); CPUUsage := cpuUsage x |}.

(** The timeline a history header stands for. *)
Definition timeline (m : Mem) (history : slice) : list RocmData :=
  List.map (value m) (samples m history).

(** [historyCopy := make([]RocmData, len(c.history))] followed by
    [copy(historyCopy, c.history)]: a new array that receives the
    elements of the history, each a struct assignment. *)
Definition GetHistory (m : Mem) (history : slice) : slice * Mem :=
  let historyCopy := {| arr := next m; off := 0; len := len history |} in
  (historyCopy,
   {| gpu_arrays := gpu_arrays m;
      data_arrays := <[next m := samples m history]> (data_arrays m);
      next := S (next m) |}).

(** [s[i] = x] on a [[]RocmData]; [None] is the index panic. *)
Definition set_sample (m : Mem) (s : slice) (i : nat) (x : Sample) : option Mem :=
  if (i <? len s)%nat then
    Some {| gpu_arrays := gpu_arrays m;
            data_arrays := alter (fun a => <[(off s + i)%nat := x]> a) (arr s) (data_arrays m);
            next := next m |}
  else None.

(** [s[i].GPUs[j] = g] (an assignment to a field of [s[i].GPUs[j]] is
    this with [g] the updated record); [None] is an index panic. *)
Definition set_device (m : Mem) (s : slice) (i j : nat) (g : GPU) : option Mem :=
  match samples m s !! i with
  | Some x =>
      if (j <? len (gpus x))%nat then
        Some {| gpu_arrays :=
                  alter (fun a => <[(off (gpus x) + j)%nat := g]> a) (arr (gpus x)) (gpu_arrays m);
                data_arrays := data_arrays m;
                next := next m |}
      else None
  | None => None
  end.

End Memory.

(** ** Vocabulary of the properties *)

(** The last [n] elements of a sequence. *)
Definition most_recent {A} (n : nat) (l : list A) : list A :=
  drop (length l - n) l.

(** The samples that the rounds of a run appended, in order. *)
Definition stored_samples (exits : list Exit) : list RocmData :=
  omap (fun e => match e with Stored d => Some d | _ => None end) exits.

Definition runtime0 : Runtime :=
  {| lastCPUStats := None; contexts := 0; cancelled := ∅; loops := 0 |}.

(** [lo <= x <= hi], which no NaN satisfies. *)
Definition in_range (lo hi : Z) (x : float64) : bool :=
  Float64.leb (Float64.of_Z lo) x && Float64.leb x (Float64.of_Z hi).

(** [x] is a number, and it is below [lo] or above [hi]. *)
Definition outside (lo hi : Z) (x : float64) : Prop :=
  Float64.is_nan x = false /\ in_range lo hi x = false.

(** Rejection as the specification words it: some field is not within
    its interval. *)
Definition some_field_not_in_range (d : RocmData) : Prop :=
  (exists g, In g (GPUs d) /\
     (in_range 0 150 (Temperature g) = false \/
      in_range 0 1000 (Power g) = false \/
      in_range 0 100 (GPUUsage g) = false)) \/
  in_range 0 100 (CPUUsage d) = false.

(** Rejection as [Validate] does it. *)
Definition rejected (d : RocmData) : Prop :=
  GPUs d = [] \/
  (exists g, In g (GPUs d) /\
     (outside 0 150 (Temperature g) \/
      outside 0 1000 (Power g) \/
      outside 0 100 (GPUUsage g))) \/
  outside 0 100 (CPUUsage d).

(** Some field is a number below or above its interval. *)
Definition some_field_outside (d : RocmData) : Prop :=
  (exists g, In g (GPUs d) /\
     (outside 0 150 (Temperature g) \/
      outside 0 1000 (Power g) \/
      outside 0 100 (GPUUsage g))) \/
  outside 0 100 (CPUUsage d).

(** The sample that a round hands to [Validate]: what the parser made
    of the combined outputs, with the CPU usage of the round, which is 0
    when reading it failed. A round that stops before the validation has
    none. *)
Definition sample_of (c : Collector) (rt : Runtime) (w : World) : option RocmData :=
  match smi w with
  | Err _ => None
  | Ok output =>
      let combinedOutput := combine (combine output (smi_vram w)) (smi_clock w) in
      match ParseRocmSMIOutput (parser c) (now w) (order w) combinedOutput with
      | Err _ => None
      | Ok data =>
          let '(cpuUsage, cpuErr, _) := GetCPUUsage (proc_stat w) (lastCPUStats rt) in
          Some (set_CPUUsage (match cpuErr with
                              | Some _ => Float64.zero
                              | None => cpuUsage
                              end) data)
      end
  end.

Definition id_order : MapOrder :=
  {| visit := fun l => l; visit_perm := fun l => reflexivity l |}.

Definition line (s : string) : string := s +:+ String newline "".

(** A round in which only the plain [rocm-smi] call succeeds, with
    output [text], at time [t]. *)
Definition world_of (t : Time) (text : string) : World :=
  {| now := t; smi := Ok text; smi_vram := Err (External "exit status 1");
     smi_clock := Err (External "exit status 1");
     proc_stat := Err (External "open /proc/stat"); order := id_order |}.

Definition config0 : CollectorConfig :=
  {| MaxHistory := 0; Interval := 0; ErrorCallback := true |}.

Definition hot_line : string := line "0  200.0°C  120.0W  50%  80%".
Definition good_line : string := line "0  45.0°C  120.0W  50%  80%".

(** A sample taken at time [t]; only the timestamp matters to the
    windowed read. *)
Definition sample_at (t : Time) : RocmData :=
  {| Timestamp := t; GPUs := [GPU_zero 0]; CPUUsage := Float64.zero |}.

(** A collector holding the timeline [h]. *)
Definition collector_with (h : list RocmData) : Collector :=
  set_history h (fst (NewCollector config0 runtime0)).

Fixpoint zeros (n : nat) : string :=
  match n with
  | O => ""
  | S n' => String "0" (zeros n')
  end.

(** A device line whose first percentage, a one followed by 309 zeros,
    is beyond the range of [float64], and the collector after one round
    on it at time [t]: the sample is stored with an infinite VRAM
    usage, a field that [Validate] does not look at. *)
Definition overflow_line : string :=
  line ("0  45.0°C  120.0W  30%  auto  1" +:+ zeros 309 +:+ "%  80%").

Definition overflowed_at (t : Time) : Collector :=
  collector' (collect (fst (NewCollector config0 runtime0)) runtime0 (world_of t overflow_line)).

(** The specification's wording of the window: the samples whose age at
    [now] is at most [d]. *)
Definition within (now : Time) (d : Duration) (data : RocmData) : bool :=
  now - Timestamp data <=? d.

(** What the handler keeps: the samples younger than [d]. *)
Definition younger (now : Time) (d : Duration) (data : RocmData) : bool :=
  now - Timestamp data <? d.

(** The device lines of an output: the lines on which the device
    pattern matches, each with the index it announces, in order. *)
Definition device_entry (p : Parser) (line : string) : option (Z * string) :=
  match FindStringSubmatch (deviceIDRegex p) line with
  | _ :: id :: _ => Some (fst (Strconv.Atoi id), line)
  | _ => None
  end.

Definition device_lines (p : Parser) (output : string) : list (Z * string) :=
  omap (device_entry p) (Strings.Split output newline).

(** The line begins with a decimal digit, as a line that begins with an
    integer token does. *)
Definition starts_with_digit (s : string) : bool :=
  match s with
  | String c _ => is_digit c
  | EmptyString => false
  end.

(** The number captured by the first group of [r] in [text], 0 when [r]
    does not match. *)
Definition captured (r : regex) (text : string) : float64 :=
  match FindStringSubmatch r text with
  | _ :: v :: _ => fst (Strconv.ParseFloat v)
  | _ => Float64.zero
  end.

(** The trailing pair of percentages of [text]. *)
Definition percentages (p : Parser) (text : string) : float64 * float64 :=
  match FindStringSubmatch (vramRegex p) text with
  | _ :: v :: u :: _ => (fst (Strconv.ParseFloat v), fst (Strconv.ParseFloat u))
  | _ => (Float64.zero, Float64.zero)
  end.

Definition vramTotalMap (p : Parser) (output : string) : gmap Z float64 :=
  bytesMap (FindAllStringSubmatch (vramTotalRegex p) output).

Definition vramUsedMap (p : Parser) (output : string) : gmap Z float64 :=
  bytesMap (FindAllStringSubmatch (vramUsedRegex p) output).

(** The record of device [i] is read from [section], and its memory
    figures from the detailed lines of the whole [output] when there are
    some for [i]. *)
Definition read_from (p : Parser) (output : string) (i : Z) (section : string) (g : GPU) : Prop :=
  ID g = i /\
  Temperature g = captured (tempRegex p) section /\
  Power g = captured (powerRegex p) section /\
  GPUUsage g = snd (percentages p section) /\
  FanSpeed g = captured (fanRegex p) section /\
  VRAMUsage g = default (fst (percentages p section)) (vramUsedMap p output !! i) /\
  VRAMTotal g = default Float64.zero (vramTotalMap p output !! i).

(** An iteration order: by decreasing index. *)
Definition by_decreasing_index (a b : Z * string) : Prop := fst b <= fst a.

#[local] Instance by_decreasing_index_dec a b : Decision (by_decreasing_index a b).
Proof. unfold by_decreasing_index. apply _. Defined.

Definition descending : MapOrder :=
  {| visit := merge_sort by_decreasing_index;
     visit_perm := merge_sort_Permutation by_decreasing_index |}.

(** The example of the specification, and the same reading with the
    marker the temperature pattern looks for. *)
Definition example_input : string := line "0  45.0c  120.0W  ...  50%  80%".
Definition example_input_degrees : string := line "0  45.0°C  120.0W  ...  50%  80%".

Definition three_devices : string :=
  line "0  45.0°C  120.0W  50%  80%" +:+
  line "1  46.0°C  121.0W  51%  81%" +:+
  line "2  47.0°C  122.0W  52%  82%".

(** The byte count of a detailed line for device [i], if the match is one. *)
Definition bytes_for (i : Z) (match_ : list string) : option string :=
  match match_ with
  | _ :: id :: bytes :: _ =>
      if decide (fst (Strconv.Atoi id) = i) then Some bytes else None
  | _ => None
  end.

(** The byte count of the last detailed line for device [i]. *)
Definition last_bytes_for (i : Z) (matches : list (list string)) : option string :=
  last (omap (bytes_for i) matches).

(** The byte counts of the detailed lines for device [i], in order. *)
Definition readings (i : Z) (matches : list (list string)) : list string :=
  omap (bytes_for i) matches.

(** The detailed lines for the device give the byte count [bytes]: there
    is such a line, and no line for the device gives another count. *)
Definition reads (bytes : string) (counts : list string) : Prop :=
  In bytes counts /\ forall other, In other counts -> other = bytes.

(** Gigabytes, as the parser computes them from the text of a count. *)
Definition gigabytes (bytes : string) : float64 :=
  Float64.div (fst (Strconv.ParseFloat bytes)) GiB.

(** A device line with its detailed lines, of 16 GiB in total and 4 GiB
    used. *)
Definition detailed_reading : string :=
  line "0  45.0°C  120.0W  50%  80%" +:+
  line "GPU[0] : VRAM Total Memory (B): 17179869184" +:+
  line "GPU[0] : VRAM Total Used Memory (B): 4294967296".

(** A memory holding a history of one sample with one device at 45
    degrees. *)
Definition device45 : GPU := set_Temperature (Float64.of_Z 45) (GPU_zero 0).

Definition memory0 : Memory.Mem :=
  {| Memory.gpu_arrays := {[0%nat := [device45]]};
     Memory.data_arrays :=
       {[1%nat := [{| Memory.timestamp := 7;
                      Memory.gpus := {| Memory.arr := 0; Memory.off := 0; Memory.len := 1 |};
                      Memory.cpuUsage := Float64.zero |}]]};
     Memory.next := 2 |}.

Definition history0 : Memory.slice :=
  {| Memory.arr := 1; Memory.off := 0; Memory.len := 1 |}.

Definition config2 : CollectorConfig :=
  {| MaxHistory := 2; Interval := 0; ErrorCallback := true |}.

(** The last line announced for device [i] among device lines. *)
Definition line_for (i : Z) (entry : Z * string) : option string :=
  if decide (fst entry = i) then Some (snd entry) else None.

Definition last_line_for (i : Z) (entries : list (Z * string)) : option string :=
  last (omap (line_for i) entries).

(** Two lines for device 0 and one for device 1. *)
Definition repeated_device : string :=
  line "0  45.0°C  120.0W  50%  80%" +:+
  line "1  46.0°C  121.0W  51%  81%" +:+
  line "0  47.0°C  122.0W  52%  82%".

(** A device passes the three checks of [Validate]. *)
Definition device_passes (g : GPU) : Prop :=
  out_of 0 150 (Temperature g) = false /\
  out_of 0 1000 (Power g) = false /\
  out_of 0 100 (GPUUsage g) = false.

(** What an error returned by [Validate] says about the sample: which
    check failed, on the device at which position, every device before
    it passing all checks. *)
Definition explains (d : RocmData) (e : error) : Prop :=
  match e with
  | NoGPUDataAvailable => GPUs d = []
  | InvalidTemperature i v =>
      exists before g after,
        GPUs d = before ++ g :: after /\ i = length before /\
        Forall device_passes before /\
        v = Temperature g /\ out_of 0 150 v = true
  | InvalidPower i v =>
      exists before g after,
        GPUs d = before ++ g :: after /\ i = length before /\
        Forall device_passes before /\
        out_of 0 150 (Temperature g) = false /\
        v = Power g /\ out_of 0 1000 v = true
  | InvalidGPUUsage i v =>
      exists before g after,
        GPUs d = before ++ g :: after /\ i = length before /\
        Forall device_passes before /\
        out_of 0 150 (Temperature g) = false /\
        out_of 0 1000 (Power g) = false /\
        v = GPUUsage g /\ out_of 0 100 v = true
  | InvalidCPUUsage v =>
      GPUs d <> [] /\ Forall device_passes (GPUs d) /\
      v = CPUUsage d /\ out_of 0 100 v = true
  | _ => False
  end.

(** Every sample of a history passes [Validate]. *)
Definition validated (h : list RocmData) : Prop :=
  Forall (fun d => Validate d = None) h.

(** The collector's context exists and is the one its cancel function
    cancels, and only contexts that exist have been cancelled. *)
Definition runtime_ok (c : Collector) (rt : Runtime) : Prop :=
  (ctx c < contexts rt)%nat /\ cancel c = ctx c /\
  forall k, k ∈ cancelled rt -> (k < contexts rt)%nat.

(** A sample with a device at 45 degrees, then one at 200 degrees. *)
Definition second_device_hot : RocmData :=
  {| Timestamp := 7;
     GPUs := [device45; set_Temperature (Float64.of_Z 200) (GPU_zero 1)];
     CPUUsage := Float64.zero |}.

(** ** Static device information ([rocm_data.go])

    More of package [strings], on bytes: a white space rune is named by
    its UTF-8 encoding. *)

Module StringOps.

(** [strings.Contains(s, substr)]. *)
Fixpoint Contains (s substr : string) : bool :=
  String.prefix substr s ||
  match s with
  | String _ s' => Contains s' substr
  | EmptyString => false
  end.

(** The text before and the text after the first [sep] of [s]. *)
Fixpoint cut (s : string) (sep : ascii) : option (string * string) :=
  match s with
  | EmptyString => None
  | String c s' =>
      if Ascii.eqb c sep then Some (EmptyString, s')
      else
        match cut s' sep with
        | Some (before, after) => Some (String c before, after)
        | None => None
        end
  end.

(** [strings.SplitN(s, sep, 2)] for a one-byte separator. *)
Definition SplitN2 (s : string) (sep : ascii) : list string :=
  match cut s sep with
  | Some (before, after) => [before; after]
  | None => [s]
  end.

Definition bytes (codes : list nat) : list ascii := List.map ascii_of_nat codes.

(** The runes for which [unicode.IsSpace] holds, as UTF-8: tab to
    carriage return, space, U+0085, U+00A0, U+1680, U+2000 to U+200A,
    U+2028, U+2029, U+202F, U+205F and U+3000. *)
Definition space_runes : list (list ascii) :=
  List.map bytes
    [[9]; [10]; [11]; [12]; [13]; [32]; [194; 133]; [194; 160]; [225; 154; 128];
     [226; 128; 128]; [226; 128; 129]; [226; 128; 130]; [226; 128; 131];
     [226; 128; 132]; [226; 128; 133]; [226; 128; 134]; [226; 128; 135];
     [226; 128; 136]; [226; 128; 137]; [226; 128; 138];
     [226; 128; 168]; [226; 128; 169]; [226; 128; 175]; [226; 129; 159];
     [227; 128; 128]]%nat.

(** The rest of [l] after the prefix [tok], when [l] begins with it. *)
Fixpoint strip_prefix (tok l : list ascii) : option (list ascii) :=
  match tok, l with
  | [], _ => Some l
  | t :: tok', c :: l' => if Ascii.eqb t c then strip_prefix tok' l' else None
  | _ :: _, [] => None
  end.

(** The rest of [l] after one of the tokens, the first that fits. *)
Fixpoint strip_one (toks : list (list ascii)) (l : list ascii) : option (list ascii) :=
  match toks with
  | [] => None
  | tok :: toks' =>
      match strip_prefix tok l with
      | Some rest => Some rest
      | None => strip_one toks' l
      end
  end.

(** Strip leading tokens, at most [fuel] of them; a token is not empty,
    so [length l] of fuel is enough ([trim_left_done] below). *)
Fixpoint trim_left (fuel : nat) (toks : list (list ascii)) (l : list ascii) : list ascii :=
  match fuel with
  | O => l
  | S fuel' =>
      match strip_one toks l with
      | Some rest => trim_left fuel' toks rest
      | None => l
      end
  end.

Definition TrimLeft (l : list ascii) : list ascii :=
  trim_left (length l) space_runes l.

(** Trailing white space, read from the end. *)
Definition TrimRight (l : list ascii) : list ascii :=
  rev (trim_left (length l) (List.map (@rev ascii) space_runes) (rev l)).

(** [strings.TrimSpace(s)]. *)
Definition TrimSpace (s : string) : string :=
  string_of_list_ascii (TrimRight (TrimLeft (list_ascii_of_string s))).

(** [strings.ReplaceAll(s, old, "")] for a non-empty [old]: the
    occurrences of [old], found from left to right without overlap, are
    left out. *)
Fixpoint remove (fuel : nat) (old l : list ascii) : list ascii :=
  match fuel with
  | O => l
  | S fuel' =>
      match strip_prefix old l with
      | Some rest => remove fuel' old rest
      | None =>
          match l with
          | [] => []
          | c :: l' => c :: remove fuel' old l'
          end
      end
  end.

Definition RemoveAll (s old : string) : string :=
  string_of_list_ascii
    (remove (S (String.length s)) (list_ascii_of_string old) (list_ascii_of_string s)).

End StringOps.

Import StringOps.

Record GPUStaticInfo := {
  InfoID : Z;
  ProductName : string;
  VendorName : string;
  SerialNumber : string;
  UniqueID : string;
  FirmwareInfo : gmap string string;
  VRAMVendor : string;
  BusInfo : string }.

(** The body of the loop of [getGPUFirmwareInfo]. *)
Definition firmware_line (fwInfo : gmap string string) (l : string) : gmap string string :=
  if Contains l "firmware version" then
    match SplitN2 l ":" with
    | [part0; part1] =>
        let key := TrimSpace (RemoveAll part0 "GPU[0]") in
        let key := TrimSpace (RemoveAll key (String (ascii_of_nat 9) "")) in
        let value := TrimSpace part1 in
        <[key := value]> fwInfo
    | _ => fwInfo
    end
  else fwInfo.

(** [getGPUFirmwareInfo], given what [rocm-smi --showfwinfo] returned. *)
Definition getGPUFirmwareInfo (cmd : result string) : result (gmap string string) :=
  match cmd with
  | Err err => Err err
  | Ok output => Ok (fold_left firmware_line (Strings.Split output newline) ∅)
  end.

(** The loop shared by the five other queries: the first line that
    names [GPU[0]] and holds a colon decides. *)
Fixpoint first_field (lines : list string) : string :=
  match lines with
  | [] => "Unknown"
  | l :: lines' =>
      if Contains l "GPU[0]" && Contains l ":" then
        match SplitN2 l ":" with
        | [_; part1] =>
            let value := TrimSpace part1 in
            if Contains value "Not supported" || Contains value "get_"
            then "Not Available" else value
        | _ => first_field lines'
        end
      else first_field lines'
  end.

(** The value and the error (always nil) returned by a query whose
    command returned [cmd]; [failed] is the value on a failed command. *)
Definition query (failed : string) (cmd : result string) : string * option error :=
  match cmd with
  | Err _ => (failed, None)
  | Ok output => (first_field (Strings.Split output newline), None)
  end.

Definition getGPUProductName := query "Unknown".
Definition getGPUSerialNumber := query "Not Available".
Definition getGPUUniqueID := query "Not Available".
Definition getGPUVRAMVendor := query "Not Available".
Definition getGPUBusInfo := query "Not Available".

(** What the six commands of [GetGPUStaticInfo] return. *)
Record Commands := {
  showfwinfo : result string;
  showproductname : result string;
  showserial : result string;
  showuniqueid : result string;
  showmemvendor : result string;
  showbus : result string }.

Definition or_unknown (r : string * option error) : string :=
  match snd r with
  | Some _ => "Unknown"
  | None => fst r
  end.

Definition GetGPUStaticInfo (w : Commands) : result (list GPUStaticInfo) :=
  match getGPUFirmwareInfo (showfwinfo w) with
  | Err err => Err (Wrap "failed to get firmware info" err)
  | Ok fwInfo =>
      let productName := or_unknown (getGPUProductName (showproductname w)) in
      let serialNumber := or_unknown (getGPUSerialNumber (showserial w)) in
      let uniqueID := or_unknown (getGPUUniqueID (showuniqueid w)) in
      let vramVendor := or_unknown (getGPUVRAMVendor (showmemvendor w)) in
      let busInfo := or_unknown (getGPUBusInfo (showbus w)) in
      let gpuInfo :=
        {| InfoID := 0; ProductName := productName; VendorName := "AMD";
           SerialNumber := serialNumber; UniqueID := uniqueID; FirmwareInfo := fwInfo;
           VRAMVendor := vramVendor; BusInfo := busInfo |} in
      Ok [gpuInfo]
  end.

(** ** Statistics, health and windowed export

    [GetStats] of the collector file, [healthHandler] of [main.go] and
    [ExportHistorySubset] of the exporter. *)

(** The dynamic values [GetStats] puts in its map. *)
Inductive value :=
| VInt (n : Z)
| VFloat (x : float64)
| VTime (t : Time).

(** [d.Seconds()]: whole seconds plus the remaining nanoseconds over
    1e9, the division and the remainder truncating towards zero. *)
Definition Seconds (d : Duration) : float64 :=
  let sec := Z.quot d Second in
  let nsec := Z.rem d Second in
  Float64.add (Float64.of_Z sec) (Float64.div (Float64.of_Z nsec) (Float64.of_Z 1000000000)).

Record Totals := {
  totalTemp : float64;
  totalPower : float64;
  totalGPU : float64;
  totalVRAM : float64;
  count : Z }.

(** The body of the inner loop of [GetStats]. *)
Definition add_device (t : Totals) (gpu : GPU) : Totals :=
  {| totalTemp := Float64.add (totalTemp t) (Temperature gpu);
     totalPower := Float64.add (totalPower t) (Power gpu);
     totalGPU := Float64.add (totalGPU t) (GPUUsage gpu);
     totalVRAM := Float64.add (totalVRAM t) (VRAMUsage gpu);
     count := count t + 1 |}.

Definition add_sample (t : Totals) (data : RocmData) : Totals :=
  fold_left add_device (GPUs data) t.

Definition no_totals : Totals :=
  {| totalTemp := Float64.zero; totalPower := Float64.zero; totalGPU := Float64.zero;
     totalVRAM := Float64.zero; count := 0 |}.

Definition GetStats (c : Collector) : gmap string value :=
  let stats : gmap string value := ∅ in
  let stats := <["history_size" := VInt (Z.of_nat (length (history c)))]> stats in
  let stats := <["max_history" := VInt (maxHistory c)]> stats in
  let stats := <["interval_seconds" := VFloat (Seconds (interval c))]> stats in
  match history c, last (history c) with
  | oldest :: _, Some newest =>
      let stats := <["oldest_timestamp" := VTime (Timestamp oldest)]> stats in
      let stats := <["newest_timestamp" := VTime (Timestamp newest)]> stats in
      let t := fold_left add_sample (history c) no_totals in
      if count t >? 0 then
        let n := Float64.of_Z (count t) in
        let stats := <["avg_temperature" := VFloat (Float64.div (totalTemp t) n)]> stats in
        let stats := <["avg_power" := VFloat (Float64.div (totalPower t) n)]> stats in
        let stats := <["avg_gpu_usage" := VFloat (Float64.div (totalGPU t) n)]> stats in
        let stats := <["avg_vram_usage" := VFloat (Float64.div (totalVRAM t) n)]> stats in
        stats
      else stats
  | _, _ => stats
  end.

(** The body and status code written by [healthHandler]. *)
Record Health := {
  StatusCode : Z;
  Status : string;
  HealthTimestamp : Time;
  GPUCount : Z;
  HealthError : option error }.

Definition healthHandler (c : Collector) (now : Time) : Health :=
  match GetLatest c with
  | Err err =>
      {| StatusCode := 503; Status := "unhealthy"; HealthTimestamp := now;
         GPUCount := 0; HealthError := Some err |}
  | Ok latest =>
      {| StatusCode := 200; Status := "healthy"; HealthTimestamp := now;
         GPUCount := Z.of_nat (length (GPUs latest)); HealthError := None |}
  end.

(** What [ExportHistorySubset] does: return one of its own errors, or
    hand the filtered history, in a collector that holds nothing else,
    to the exporter of the requested format. *)
Inductive Subset :=
| NoDataToExport                       (* "no data to export" *)
| NoDataInRange                        (* "no data in the specified time range" *)
| UnsupportedFormat (format : string)  (* "unsupported export format: %s" *)
| ByExportCSV (filtered : list RocmData)
| ByExportJSON (filtered : list RocmData)
| ByExportPrometheus (filtered : list RocmData).

Definition ExportHistorySubset (c : Collector) (now : Time) (duration : Duration)
    (format : string) : Subset :=
  let history := GetHistory c in
  if Nat.eqb (length history) 0 then NoDataToExport
  else
    let cutoff := Add now (neg64 duration) in
    let filtered := List.filter (fun data => After (Timestamp data) cutoff) history in
    if Nat.eqb (length filtered) 0 then NoDataInRange
    else if String.eqb format "csv" then ByExportCSV filtered
    else if String.eqb format "json" then ByExportJSON filtered
    else if String.eqb format "prometheus" then ByExportPrometheus filtered
    else UnsupportedFormat format.

(** The keys [GetStats] can set. *)
Definition stats_keys : list string :=
  ["history_size"; "max_history"; "interval_seconds"; "oldest_timestamp";
   "newest_timestamp"; "avg_temperature"; "avg_power"; "avg_gpu_usage";
   "avg_vram_usage"]%string.

(** The keys [ExportPrometheus] looks up in the statistics for its
    monitoring health metrics. *)
Definition monitor_keys : list string :=
  ["collection_errors"; "avg_collection_time_ms"; "total_collections";
   "uptime_seconds"; "memory_usage_mb"]%string.

(** The readings that succeeded, in order. *)
Definition successful (reads : list (result CPUStats)) : list CPUStats :=
  omap (fun r => match r with Ok stats => Some stats | Err _ => None end) reads.

(** The value of [lastCPUStats] after a series of calls of
    [GetCPUUsage], one for each outcome of [ReadCPUStats]. *)
Definition after_reads (reads : list (result CPUStats)) (lastStats : option CPUStats)
    : option CPUStats :=
  fold_left (fun l r => snd (GetCPUUsage r l)) reads lastStats.

(** Neither an infinity nor a NaN. *)
Definition is_finite (x : float64) : bool :=
  match x with
  | S754_zero _ | S754_finite _ _ _ => true
  | _ => false
  end.

Definition finite_device (g : GPU) : bool :=
  is_finite (Temperature g) && is_finite (Power g) && is_finite (VRAMUsage g)
  && is_finite (VRAMTotal g) && is_finite (GPUUsage g) && is_finite (FanSpeed g)
  && is_finite (SCLKFreq g) && is_finite (MCLKFreq g).

Definition finite_sample (data : RocmData) : bool :=
  is_finite (CPUUsage data) && forallb finite_device (GPUs data).

(** An encoder that fails exactly on the floats JSON has no notation
    for. *)
Definition refuse_non_finite : Encoder :=
  fun body =>
    if forallb finite_sample body then None
    else Some (External "json: unsupported value").

Definition tab : string := String (ascii_of_nat 9) "".

(** Spaces and tabs only. *)
Definition blank (ws : string) : Prop :=
  Forall (fun c => c = ascii_of_nat 9 \/ c = ascii_of_nat 32) (list_ascii_of_string ws).

(** The lines that [getGPUFirmwareInfo] reads. *)
Definition firmware_lines (output : string) : list string :=
  List.filter (fun l => Contains l "firmware version") (Strings.Split output newline).

(** A line in the layout of the tool: [GPU[0]], blanks, a colon, the
    rest. *)
Definition tool_line (l rest : string) : Prop :=
  exists ws, blank ws /\ l = "GPU[0]" +:+ ws +:+ ":" +:+ rest.

Definition firmware_output : string :=
  line ("GPU[0]" +:+ tab +:+ tab +:+ ": ASD firmware version: " +:+ tab +:+ "0x210000eb") +:+
  line ("GPU[0]" +:+ tab +:+ tab +:+ ": CE firmware version: " +:+ tab +:+ "37").

Definition all_fail : Commands :=
  {| showfwinfo := Err (External "exit status 2");
     showproductname := Err (External "exit status 2");
     showserial := Err (External "exit status 2");
     showuniqueid := Err (External "exit status 2");
     showmemvendor := Err (External "exit status 2");
     showbus := Err (External "exit status 2") |}.

Definition only_firmware : Commands :=
  {| showfwinfo := Ok firmware_output;
     showproductname := Err (External "exit status 2");
     showserial := Err (External "exit status 2");
     showuniqueid := Err (External "exit status 2");
     showmemvendor := Err (External "exit status 2");
     showbus := Err (External "exit status 2") |}.

(** ** The diagnostic tests *)

Module ROCmTestResult.

Record t := {
  Command : string;
  Success : bool;
  Output : string;
  ErrorOutput : string;
  Duration : Z;
  Timestamp : Time;
  Issues : list string;
  Summary : string }.

End ROCmTestResult.

Module ROCmTestSuite.

Record t := {
  OverallSuccess : bool;
  TestResults : list ROCmTestResult.t;
  Summary : string;
  Timestamp : Time;
  Duration : Z }.

End ROCmTestSuite.

Record ROCmTester := { timeout : Duration }.

Definition NewROCmTester : ROCmTester := {| timeout := 30 * Second |}.

(** [int(x)] for a finite [x] within the range of [int]: the fraction is
    discarded. *)
Definition to_int (x : float64) : Z :=
  match x with
  | S754_finite s m e =>
      let magnitude := if 0 <=? e then Zpos m * 2 ^ e else Z.quot (Zpos m) (2 ^ (- e)) in
      if s then - magnitude else magnitude
  | _ => 0
  end.

(** [strings.Join(elems, sep)]. *)
Fixpoint Join (elems : list string) (sep : string) : string :=
  match elems with
  | [] => ""
  | [elem] => elem
  | elem :: rest => elem +:+ sep +:+ Join rest sep
  end.

(** What running a command gave: the combined output, the text of the
    error if there was one, whether the deadline of the context had
    passed, the time of the start and the milliseconds elapsed. *)
Record Execution := {
  combined : string;
  failure : option string;
  deadline : bool;
  began : Time;
  elapsed : Z }.

Record Pattern := {
  pattern : string;
  message : string;
  excludes : list string }.

Definition criticalPatterns : list Pattern :=
  [ {| pattern := "fatal error"; message := "Fatal error detected"; excludes := [] |};
    {| pattern := "segmentation fault"; message := "Segmentation fault detected";
       excludes := [] |};
    {| pattern := "permission denied"; message := "Permission denied - check user groups";
       excludes := [] |};
    {| pattern := "command not found";
       message := "Command not found - ROCm may not be installed"; excludes := [] |};
    {| pattern := "timeout"; message := "Timeout errors detected"; excludes := [] |};
    {| pattern := "driver initialization failed";
       message := "Critical driver initialization failure"; excludes := [] |};
    {| pattern := "driver load failed"; message := "Critical driver load failure";
       excludes := [] |};
    {| pattern := "cannot access device";
       message := "Device access error - check permissions or drivers"; excludes := [] |} ].

(** [if cond { issues = append(issues, message) }]. *)
Definition append_if (cond : bool) (message : string) (issues : list string) : list string :=
  if cond then issues ++ [message] else issues.

Record Test := {
  name : string;
  command : string;
  args : list string;
  description : string }.

Definition tests : list Test :=
  [ {| name := "ROCm Info"; command := "rocminfo"; args := [];
       description := "Basic ROCm system information" |};
    {| name := "ROCm SMI"; command := "rocm-smi"; args := [];
       description := "ROCm System Management Interface" |};
    {| name := "ROCm SMI Detailed"; command := "rocm-smi"; args := ["-a"];
       description := "ROCm SMI detailed information" |};
    {| name := "ROCm SMI GPU List"; command := "rocm-smi"; args := ["-l"];
       description := "List available GPU devices" |};
    {| name := "ROCm SMI Temperature"; command := "rocm-smi"; args := ["-t"];
       description := "GPU temperature information" |};
    {| name := "ROCm SMI Power"; command := "rocm-smi"; args := ["-p"];
       description := "GPU power consumption" |};
    {| name := "ROCm SMI Clock Frequencies"; command := "rocm-smi"; args := ["-c"];
       description := "GPU clock frequencies" |};
    {| name := "ROCm SMI Memory Info"; command := "rocm-smi"; args := ["-u"];
       description := "GPU memory utilization" |};
    {| name := "Hip Version"; command := "hipconfig"; args := ["--version"];
       description := "HIP runtime version" |};
    {| name := "Hip Platform"; command := "hipconfig"; args := ["--platform"];
       description := "HIP platform information" |};
    {| name := "Device Query"; command := "rocminfo"; args := [];
       description := "Detailed device information" |} ]%string.

(** The body and the loop of [generateSummary]: the tests passed,
    those failed, and those passed with issues. *)
Definition count_result '(passed, failed, warnings) (result : ROCmTestResult.t) : Z * Z * Z :=
  if ROCmTestResult.Success result then
    (passed + 1, failed,
     if (0 <? length (ROCmTestResult.Issues result))%nat then warnings + 1 else warnings)
  else (passed, failed + 1, warnings).

Definition tally (results : list ROCmTestResult.t) : Z * Z * Z :=
  fold_left count_result results (0, 0, 0).

Definition generateSummary (suite : ROCmTestSuite.t) : string :=
  let '(passed, failed, warnings) := tally (ROCmTestSuite.TestResults suite) in
  let total := Z.of_nat (length (ROCmTestSuite.TestResults suite)) in
  let summary :=
    "Tests: " +:+ Strconv.Itoa total +:+ " total, " +:+ Strconv.Itoa passed +:+ " passed, "
    +:+ Strconv.Itoa failed +:+ " failed" in
  let summary :=
    if 0 <? warnings then summary +:+ ", " +:+ Strconv.Itoa warnings +:+ " with warnings"
    else summary in
  let summary :=
    if ROCmTestSuite.OverallSuccess suite then
      if 0 <? warnings then "⚠️  ROCm tests passed with warnings - " +:+ summary
      else "✅ All ROCm tests passed - " +:+ summary
    else "❌ ROCm tests failed - " +:+ summary in
  summary +:+ " (completed in " +:+ Strconv.Itoa (ROCmTestSuite.Duration suite) +:+ "ms)".

(** The tester reads the output through a lower-casing function and two
    regular expressions; the definitions below take [strings.ToLower]
    and [regexp.MustCompile(pattern).MatchString] as arguments. *)
Section Tester.

Variable ToLower : string -> string.
Variable MatchString : string -> string -> bool.

Definition analyzeOutput (command output : string) : list string :=
  let issues : list string := [] in
  let outputLower := ToLower output in
  let issues :=
    if String.eqb command "rocminfo" then
      let issues :=
        append_if (negb (Contains outputLower "hsa agents")) "No HSA Agents section found" issues in
      let issues :=
        append_if (negb (Contains outputLower "agent 1") && negb (Contains outputLower "agent:"))
          "No agents detected" issues in
      let issues :=
        append_if (negb (Contains outputLower "device type:             gpu"))
          "No GPU device type detected" issues in
      let issues :=
        append_if (negb (Contains outputLower "runtime version:"))
          "HSA runtime version not found" issues in
      append_if (negb (Contains outputLower "rock module is loaded")) "ROCk module not loaded" issues
    else if String.eqb command "rocm-smi" then
      let hasDevice :=
        Contains outputLower "device" &&
        (Contains outputLower "gpu[" || Contains outputLower "radeon"
         || Contains outputLower "amd") in
      let issues := append_if (negb hasDevice) "No AMD/ROCm GPU devices detected" issues in
      let issues :=
        append_if (Contains outputLower "permission denied")
          "Permission denied - add user to render group: sudo usermod -a -G render $USER"
          issues in
      let issues :=
        append_if (Contains outputLower "no devices found")
          "No ROCm devices found - check ROCm installation" issues in
      let issues :=
        append_if (Contains outputLower "failed to initialize"
                && negb (Contains outputLower "gpu metrics"))
          "Critical initialization failure detected" issues in
      append_if (Contains outputLower "driver" && Contains outputLower "crashed")
        "GPU driver crash detected" issues
    else if String.eqb command "hipconfig" then
      let issues := append_if (Contains outputLower "not found") "HIP not properly installed" issues in
      if Contains command "--version" then
        append_if (negb (MatchString "\d+\.\d+" output))
          "Invalid HIP version output - no version number found" issues
      else if Contains command "--platform" then
        append_if (negb (MatchString "(?i)(amd|nvidia|rocm|cuda)" output))
          "Invalid HIP platform output - no platform detected" issues
      else issues
    else issues in
  fold_left
    (fun issues ep =>
       if Contains outputLower (pattern ep) then
         let shouldExclude :=
           existsb (fun exclude => negb (String.eqb exclude "") && Contains outputLower exclude)
             (excludes ep) in
         append_if (negb shouldExclude) (message ep) issues
       else issues)
    criticalPatterns issues.

(** [runSingleTest], given what running the command gave. *)
Definition runSingleTest (rt : ROCmTester) (name command : string) (args : list string)
    (description : string) (run : Execution) : ROCmTestResult.t :=
  let Command := command +:+ " " +:+ Join args " " in
  match failure run with
  | Some text =>
      let '(issue, summary) :=
        if deadline run then
          ("Command timeout - may indicate system issues",
           "❌ " +:+ name +:+ " - Timeout after "
           +:+ Strconv.Itoa (to_int (Seconds (timeout rt))) +:+ " seconds")
        else if Contains text "no such file" then
          ("Command '" +:+ command +:+ "' not found - ROCm may not be installed",
           "❌ " +:+ name +:+ " - Command not found")
        else
          ("Command failed: " +:+ text, "❌ " +:+ name +:+ " - Failed") in
      {| ROCmTestResult.Command := Command;
         ROCmTestResult.Success := false;
         ROCmTestResult.Output := combined run;
         ROCmTestResult.ErrorOutput := text;
         ROCmTestResult.Duration := elapsed run;
         ROCmTestResult.Timestamp := began run;
         ROCmTestResult.Issues := [issue];
         ROCmTestResult.Summary := summary |}
  | None =>
      {| ROCmTestResult.Command := Command;
         ROCmTestResult.Success := true;
         ROCmTestResult.Output := combined run;
         ROCmTestResult.ErrorOutput := "";
         ROCmTestResult.Duration := elapsed run;
         ROCmTestResult.Timestamp := began run;
         ROCmTestResult.Issues := analyzeOutput command (combined run);
         ROCmTestResult.Summary := "✅ " +:+ name +:+ " - Success" |}
  end%string.

(** [RunTests], given what running the command of each test gave, the
    time of the start and the milliseconds that the suite took. *)
Definition RunTests (rt : ROCmTester) (execute : Test -> Execution) (now : Time)
    (duration : Z) : ROCmTestSuite.t :=
  let '(results, success) :=
    fold_left
      (fun '(results, success) test =>
         let result :=
           runSingleTest rt (name test) (command test) (args test) (description test)
             (execute test) in
         (results ++ [result], if ROCmTestResult.Success result then success else false))
      tests ([], true) in
  let suite :=
    {| ROCmTestSuite.OverallSuccess := success;
       ROCmTestSuite.TestResults := results;
       ROCmTestSuite.Summary := "";
       ROCmTestSuite.Timestamp := now;
       ROCmTestSuite.Duration := duration |} in
  {| ROCmTestSuite.OverallSuccess := success;
     ROCmTestSuite.TestResults := results;
     ROCmTestSuite.Summary := generateSummary suite;
     ROCmTestSuite.Timestamp := now;
     ROCmTestSuite.Duration := duration |}.

End Tester.

(** ** Export as CSV and the labels of the Prometheus export *)

Definition header : list string :=
  [ "Timestamp"; "GPU_ID"; "Temperature_C"; "Power_W"; "VRAM_Usage_GB"; "VRAM_Total_GB";
    "GPU_Usage_%"; "SCLK_MHz"; "MCLK_MHz"; "CPU_Usage_%"; "Fan_Speed_%" ]%string.

(** The formatting of a time and of a float is left to its two
    functions, [t.Format(time.RFC3339)] and [fmt.Sprintf] with the verb
    [%.nf], and the CSV writer to [Write]: what [writer.Write(record)]
    returns after the records written so far, [None] being [nil]. *)
Section Formats.

Variable RFC3339 : Time -> string.
Variable fixed : nat -> float64 -> string.
Variable Write : list (list string) -> list string -> option error.

Definition row (timestamp : string) (data : RocmData) (gpu : GPU) : list string :=
  [ timestamp;
    Strconv.Itoa (ID gpu);
    fixed 2 (Temperature gpu);
    fixed 2 (Power gpu);
    fixed 2 (VRAMUsage gpu);
    fixed 2 (VRAMTotal gpu);
    fixed 2 (GPUUsage gpu);
    fixed 0 (SCLKFreq gpu);
    fixed 0 (MCLKFreq gpu);
    fixed 2 (CPUUsage data);
    fixed 2 (FanSpeed gpu) ].

(** One turn of the inner loop: the records written and the error
    returned, if any. Once a write has failed the function has returned,
    and nothing more is written. *)
Definition write_row (state : list (list string) * option error) (record : list string)
    : list (list string) * option error :=
  match state with
  | (records, None) =>
      match Write records record with
      | Some err => (records, Some (Wrap "failed to write CSV row" err))
      | None => (records ++ [record], None)
      end
  | (_, Some _) => state
  end.

(** [ExportCSV]: the records that the CSV writer took, and the error
    returned. *)
Definition ExportCSV (c : Collector) : list (list string) * option error :=
  let history := GetHistory c in
  if Nat.eqb (length history) 0 then ([], Some (External "no data to export"))
  else
    match Write [] header with
    | Some err => ([], Some (Wrap "failed to write CSV header" err))
    | None =>
        fold_left
          (fun state data =>
             let timestamp := RFC3339 (Timestamp data) in
             fold_left (fun state gpu => write_row state (row timestamp data gpu))
               (GPUs data) state)
          history ([header], None)
    end.

End Formats.

(** The records of a complete export: the header, then the rows of
    each sample in turn. *)
Definition csv_records (RFC3339 : Time -> string) (fixed : nat -> float64 -> string)
    (history : list RocmData) : list (list string) :=
  header
  :: flat_map (fun data => List.map (row fixed (RFC3339 (Timestamp data)) data) (GPUs data))
       history.

(** A writer that fails from the third record on. *)
Definition short_writer (records : list (list string)) (record : list string) : option error :=
  if (length records <? 2)%nat then None else Some (External "short write").

(** The static information as [ExportPrometheus] takes it: the error
    is dropped, and with it comes a nil slice. *)
Definition static_info (w : Commands) : list GPUStaticInfo :=
  match GetGPUStaticInfo w with
  | Ok gpuStaticInfo => gpuStaticInfo
  | Err _ => []
  end.

(** The product name, vendor, serial number and VRAM vendor that
    [ExportPrometheus] puts in the labels of the device [id]; [None] is
    the panic of an index out of range. *)
Definition static_labels (gpuStaticInfo : list GPUStaticInfo) (id : Z)
    : option (string * string * string * string) :=
  if id <? Z.of_nat (length gpuStaticInfo) then
    if id <? 0 then None
    else
      match gpuStaticInfo !! Z.to_nat id with
      | Some info => Some (ProductName info, VendorName info, SerialNumber info, VRAMVendor info)
      | None => None
      end
  else Some (""%string, ""%string, ""%string, ""%string).

(** The issues that [analyzeOutput] reports. *)
Definition reported_issues : list string :=
  [ "No HSA Agents section found"; "No agents detected"; "No GPU device type detected";
    "HSA runtime version not found"; "ROCk module not loaded";
    "No AMD/ROCm GPU devices detected";
    "Permission denied - add user to render group: sudo usermod -a -G render $USER";
    "No ROCm devices found - check ROCm installation";
    "Critical initialization failure detected"; "GPU driver crash detected";
    "HIP not properly installed" ]%string
  ++ List.map message criticalPatterns.

(** A run whose command was not found. *)
Definition missing_run : Execution :=
  {| combined := "permission denied";
     failure := Some "exec: rocminfo: no such file or directory";
     deadline := false; began := 0; elapsed := 1 |}.

(** An output, in lower case already, in which every test finds what it
    looks for. *)
Definition healthy_output : string :=
  "hsa agents agent: device type:             gpu runtime version: rock module is loaded device amd".

(** A run that printed it. *)
Definition healthy_run : Execution :=
  {| combined := healthy_output; failure := None; deadline := false; began := 0;
     elapsed := 12 |}.

(** * Properties *)

(** ** The matcher reads forward, and the fuel of the repeated search is enough *)

Module RegexpFacts.
Import Regexp.

Lemma exec_forward r : forall pos s opens caps e caps',
  exec r pos s opens caps = Some (e, caps') ->
  (pos <= e <= pos + String.length s)%nat /\ (consumes r = true -> (pos < e)%nat).
Proof.
  induction r as [| i r IH]; intros pos s opens caps e caps' H.
  - injection H as <- <-. split; [lia | discriminate].
  - destruct i as [k | k | k | g | g | |]; cbn [exec] in H.
    + destruct s as [| c s']; [discriminate |].
      destruct (cls_matches k c); [| discriminate].
      apply IH in H as [H _]. simpl. split; [lia | intros _; lia].
    + assert (Hskip : exec r pos s opens caps = Some (e, caps') ->
                (pos <= e <= pos + String.length s)%nat /\
                (consumes (Opt k :: r) = true -> (pos < e)%nat))
        by (intros H'; apply IH in H'; exact H').
      destruct s as [| c s']; [now apply Hskip |].
      destruct (cls_matches k c); [| now apply Hskip].
      destruct (exec r (S pos) s' opens caps) as [[e1 caps1] |] eqn:Htake;
        [| now apply Hskip].
      injection H as <- <-. apply IH in Htake as [Htake _].
      simpl. split; [lia | intros _; lia].
    + revert pos H. induction s as [| c s' IHs]; intros pos H.
      * apply IH in H. exact H.
      * destruct (cls_matches k c); [| apply IH in H; exact H].
        match type of H with
        | match ?star with _ => _ end = _ => destruct star as [[e1 caps1] |] eqn:Hstar
        end.
        -- injection H as <- <-. apply IHs in Hstar as [Hb Hc].
           simpl. split; [lia | intros _; lia].
        -- apply IH in H. exact H.
    + apply IH in H. exact H.
    + apply IH in H. exact H.
    + destruct (Nat.eqb pos 0); [| discriminate]. apply IH in H. exact H.
    + destruct s; [| discriminate]. apply IH in H. exact H.
Qed.

Lemma search_forward r : forall s pos b e caps,
  consumes r = true ->
  search r pos s = Some (b, e, caps) ->
  (pos <= b < e)%nat /\ (e <= pos + String.length s)%nat.
Proof.
  induction s as [| c s' IH]; intros pos b e caps Hc H; cbn [search] in H.
  - destruct (exec r pos "" [] []) as [[e1 caps1] |] eqn:He; [| discriminate].
    injection H as <- <- <-. apply exec_forward in He as [Hb Hlt].
    specialize (Hlt Hc). simpl in *. lia.
  - destruct (exec r pos (String c s') [] []) as [[e1 caps1] |] eqn:He.
    + injection H as <- <- <-. apply exec_forward in He as [Hb Hlt].
      specialize (Hlt Hc). lia.
    + apply IH in H; [| assumption]. simpl. lia.
Qed.

Lemma drop_bytes_length n : forall s,
  String.length (drop_bytes n s) = (String.length s - n)%nat.
Proof.
  induction n as [| n IH]; intros [| c s]; simpl; auto with arith.
Qed.

(** Any fuel above the length of the unread text gives the same
    matches. *)
Lemma all_from_fuel r text : consumes r = true ->
  forall fuel fuel' pos s,
    (String.length s < fuel)%nat -> (String.length s < fuel')%nat ->
    all_from fuel r text pos s = all_from fuel' r text pos s.
Proof.
  intros Hc. induction fuel as [| fuel IH]; intros fuel' pos s Hf Hf'; [lia |].
  destruct fuel' as [| fuel']; [lia |]. cbn [all_from].
  destruct (search r pos s) as [[[b e] caps] |] eqn:Hs; [| reflexivity].
  apply (search_forward r s pos b e caps Hc) in Hs. f_equal.
  apply IH; rewrite drop_bytes_length; lia.
Qed.

Lemma parser_patterns_consume :
  Forall (fun r => consumes r = true)
    [tempRegex NewParser; powerRegex NewParser; vramRegex NewParser; gpuRegex NewParser;
     fanRegex NewParser; deviceIDRegex NewParser; vramTotalRegex NewParser;
     vramUsedRegex NewParser; sclkRegex NewParser; mclkRegex NewParser].
Proof. repeat constructor. Qed.

End RegexpFacts.

(** ** The library models on known values *)

Example ParseFloat_tenth :
  Strconv.ParseFloat "0.1" = (S754_finite false 7205759403792794 (-56), true).
Proof. vm_compute. reflexivity. Qed.

Example ParseFloat_ties_to_even :
  fst (Strconv.ParseFloat "9007199254740993") = Float64.of_Z 9007199254740992 /\
  fst (Strconv.ParseFloat "9007199254740995") = Float64.of_Z 9007199254740996.
Proof. split; vm_compute; reflexivity. Qed.

Example ParseFloat_forms :
  fst (Strconv.ParseFloat "45.0") = Float64.of_Z 45 /\
  fst (Strconv.ParseFloat "45.") = Float64.of_Z 45 /\
  fst (Strconv.ParseFloat "45") = Float64.of_Z 45 /\
  Strconv.ParseFloat "." = (Float64.zero, false).
Proof. repeat split; vm_compute; reflexivity. Qed.

Example Atoi_values :
  Strconv.Atoi "007" = (7, true) /\
  Strconv.Atoi "9223372036854775808" = (2 ^ 63 - 1, false) /\
  Strconv.Atoi "" = (0, false).
Proof. repeat split; vm_compute; reflexivity. Qed.

Example Split_lines :
  Strings.Split (line "a" +:+ line "" +:+ "b") newline = ["a"; ""; "b"]%string /\
  Strings.Split "" newline = [""%string].
Proof. split; vm_compute; reflexivity. Qed.

Example tempRegex_leftmost :
  FindStringSubmatch (tempRegex NewParser) "1.5.25 °C, 30°C" = ["5.25 °C"; "5.25"]%string /\
  FindStringSubmatch (tempRegex NewParser) "45.0c" = [].
Proof. split; vm_compute; reflexivity. Qed.

Example vramRegex_end_of_text :
  FindStringSubmatch (vramRegex NewParser) (line "10% 20% x" +:+ line "50%  80%")
  = [line "50%  80%"; "50"; "80"]%string /\
  FindStringSubmatch (vramRegex NewParser) (line "50%  80%" +:+ "x") = [].
Proof. split; vm_compute; reflexivity. Qed.

Example FindAll_successive :
  FindAllStringSubmatch (number 1) "12.5W 7% 3.x"
  = [["12.5"; "12.5"]; ["7"; "7"]; ["3."; "3."]]%string.
Proof. vm_compute. reflexivity. Qed.


(** ** The bounded history *)

Section MostRecent.
Context {A : Type}.
Implicit Types (l : list A) (n : nat).

Lemma most_recent_length l n : (length (most_recent n l) <= n)%nat.
Proof. unfold most_recent. rewrite length_drop. lia. Qed.

Lemma most_recent_short l n : (length l <= n)%nat -> most_recent n l = l.
Proof.
  intros H. unfold most_recent.
  replace (length l - n)%nat with 0%nat by lia. reflexivity.
Qed.

Lemma most_recent_snoc l n x :
  (0 < n)%nat -> most_recent n (most_recent n l ++ [x]) = most_recent n (l ++ [x]).
Proof.
  intros Hn. destruct (decide (length l <= n)%nat) as [Hle | Hgt].
  - now rewrite (most_recent_short l n Hle).
  - unfold most_recent. rewrite !length_app, length_drop. simpl.
    replace (length l - (length l - n) + 1 - n)%nat with 1%nat by lia.
    replace (length l + 1 - n)%nat with ((length l - n) + 1)%nat by lia.
    rewrite <- drop_drop.
    rewrite (drop_app_le l [x] (length l - n)) by lia. reflexivity.
Qed.


End MostRecent.

Lemma store_keeps_most_recent c data :
  0 < maxHistory c ->
  store c data
  = (set_history (most_recent (Z.to_nat (maxHistory c)) (history c ++ [data])) c, true).
Proof.
  intros Hpos. unfold store, slice_from.
  set (h := history c ++ [data]).
  destruct (Z.gtb_spec (Z.of_nat (length h)) (maxHistory c)) as [Hgt | Hle].
  - replace ((0 <=? Z.of_nat (length h) - maxHistory c)
             && (Z.of_nat (length h) - maxHistory c <=? Z.of_nat (length h))) with true
      by (symmetry; apply andb_true_iff; split; apply Z.leb_le; lia).
    unfold most_recent. do 3 f_equal. lia.
  - rewrite most_recent_short by lia. reflexivity.
Qed.

Lemma collect_history c rt w :
  0 < maxHistory c ->
  maxHistory (collector' (collect c rt w)) = maxHistory c /\
  history (collector' (collect c rt w))
  = most_recent (Z.to_nat (maxHistory c))
      (history c ++ stored_samples [exit (collect c rt w)]) \/
  maxHistory (collector' (collect c rt w)) = maxHistory c /\
  history (collector' (collect c rt w)) = history c /\
  stored_samples [exit (collect c rt w)] = [].
Proof.
  intros Hpos. unfold collect.
  destruct (smi w) as [output | err]; [| right; auto].
  destruct (ParseRocmSMIOutput _ _ _ _) as [data | err]; [| right; auto].
  destruct (GetCPUUsage _ _) as [[cpuUsage cpuErr] lastStats].
  destruct cpuErr as [err |].
  - destruct (Validate _) as [err' |]; [right; auto |].
    rewrite store_keeps_most_recent by assumption. left. simpl. auto.
  - destruct (Validate _) as [err' |]; [right; auto |].
    rewrite store_keeps_most_recent by assumption. left. simpl. auto.
Qed.

Lemma collectLoop_history ws : forall c rt appended,
  0 < maxHistory c ->
  history c = most_recent (Z.to_nat (maxHistory c)) appended ->
  let '(c', _, exits) := collectLoop c rt ws in
  maxHistory c' = maxHistory c /\
  history c' = most_recent (Z.to_nat (maxHistory c)) (appended ++ stored_samples exits).
Proof.
  induction ws as [| w ws IH]; intros c rt appended Hpos Hh; simpl.
  - rewrite app_nil_r. auto.
  - pose proof (collect_history c rt w Hpos) as Hc.
    set (r := collect c rt w) in *.
    assert (Hstep : maxHistory (collector' r) = maxHistory c /\
              history (collector' r)
              = most_recent (Z.to_nat (maxHistory c))
                  (appended ++ stored_samples [exit r])).
    { destruct Hc as [[Hm Hs] | (Hm & Hs & He)]; split; try assumption.
      - rewrite Hs, Hh. unfold stored_samples. simpl.
        destruct (exit r); simpl; rewrite ?app_nil_r;
          try (apply most_recent_short; apply most_recent_length).
        apply most_recent_snoc. lia.
      - rewrite Hs, He, app_nil_r. assumption. }
    destruct Hstep as [Hm Hs].
    specialize (IH (collector' r) (runtime' r) (appended ++ stored_samples [exit r])).
    rewrite Hm in IH. specialize (IH Hpos Hs).
    destruct (collectLoop (collector' r) (runtime' r) ws) as [[c' rt'] exits].
    destruct IH as [IHm IHh]. split; [assumption |].
    rewrite IHh, <- app_assoc. do 2 f_equal.
    unfold stored_samples. simpl. now destruct (exit r).
Qed.


(** A run with capacity 2: of the four rounds the second is rejected,
    and of the three samples appended the last two remain. *)
Example eviction_run :
  let '(c0, rt0) := NewCollector config2 runtime0 in
  let '(c, _, exits) :=
    collectLoop c0 rt0
      [world_of 1 good_line; world_of 2 hot_line; world_of 3 good_line; world_of 4 good_line] in
  List.map Timestamp (stored_samples exits) = [1; 3; 4] /\
  List.map Timestamp (history c) = [3; 4].
Proof. vm_compute. split; reflexivity. Qed.

(** ** Validation *)

Lemma SFltb_negb_SFleb x y :
  Float64.is_nan x = false -> Float64.is_nan y = false ->
  SFltb x y = negb (SFleb y x).
Proof.
  destruct x as [sx | sx | | sx mx ex], y as [sy | sy | | sy my ey];
    simpl; try discriminate; intros _ _;
    unfold SFltb, SFleb, SFcompare;
    try (destruct sx; try destruct sy; reflexivity);
    try (destruct sy; reflexivity).
  change (Pos.compare_cont Eq mx my) with (Pos.compare mx my).
  change (Pos.compare_cont Eq my mx) with (Pos.compare my mx).
  rewrite (Z.compare_antisym ex ey), (Pos.compare_antisym mx my).
  destruct sx, sy, (ex ?= ey), (mx ?= my)%positive; reflexivity.
Qed.

Lemma SFltb_nan_l y : SFltb S754_nan y = false.
Proof. reflexivity. Qed.

Lemma SFltb_nan_r x : SFltb x S754_nan = false.
Proof. now destruct x. Qed.

Lemma out_of_outside lo hi x :
  Float64.is_nan (Float64.of_Z lo) = false ->
  Float64.is_nan (Float64.of_Z hi) = false ->
  out_of lo hi x = true <-> outside lo hi x.
Proof.
  intros Hlo Hhi. unfold out_of, outside, in_range, Float64.ltb, Float64.gtb, Float64.leb.
  destruct (Float64.is_nan x) eqn:Hx.
  - destruct x; try discriminate. rewrite SFltb_nan_l, SFltb_nan_r. simpl.
    split; [discriminate | intros [H _]; discriminate].
  - rewrite (SFltb_negb_SFleb x _ Hx Hlo), (SFltb_negb_SFleb _ x Hhi Hx).
    rewrite <- negb_andb, negb_true_iff. tauto.
Qed.

Lemma outside_intro lo hi x :
  Float64.is_nan (Float64.of_Z lo) = false ->
  Float64.is_nan (Float64.of_Z hi) = false ->
  out_of lo hi x = true -> outside lo hi x.
Proof. intros Hlo Hhi. now apply out_of_outside. Qed.

Lemma outside_elim lo hi x :
  Float64.is_nan (Float64.of_Z lo) = false ->
  Float64.is_nan (Float64.of_Z hi) = false ->
  outside lo hi x -> out_of lo hi x = true.
Proof. intros Hlo Hhi. now apply out_of_outside. Qed.

Ltac bounds :=
  first [ apply outside_intro | apply outside_elim ];
  [ reflexivity | reflexivity | assumption ].

Lemma validate_gpus_rejects gpus : forall i,
  validate_gpus i gpus <> None <->
  exists g, In g gpus /\
    (outside 0 150 (Temperature g) \/ outside 0 1000 (Power g) \/ outside 0 100 (GPUUsage g)).
Proof.
  induction gpus as [| gpu rest IH]; intros i; simpl.
  - split; [congruence | intros (g & [] & _)].
  - destruct (out_of 0 150 (Temperature gpu)) eqn:Ht.
    { split; [intros _ | discriminate]. exists gpu. split; [now left |]. left. bounds. }
    destruct (out_of 0 1000 (Power gpu)) eqn:Hp.
    { split; [intros _ | discriminate]. exists gpu. split; [now left |]. right; left. bounds. }
    destruct (out_of 0 100 (GPUUsage gpu)) eqn:Hu.
    { split; [intros _ | discriminate]. exists gpu. split; [now left |]. right; right. bounds. }
    rewrite IH. split.
    + intros (g & Hin & Hg). exists g. split; [now right | exact Hg].
    + intros (g & [<- | Hin] & Hg).
      * exfalso. destruct Hg as [Hg | [Hg | Hg]];
          [rewrite <- not_true_iff_false in Ht; apply Ht
          |rewrite <- not_true_iff_false in Hp; apply Hp
          |rewrite <- not_true_iff_false in Hu; apply Hu]; bounds.
      * exists g. split; assumption.
Qed.

Lemma Validate_rejected d : Validate d <> None <-> rejected d.
Proof.
  unfold Validate, rejected. destruct (GPUs d) as [| gpu rest] eqn:Hg.
  - simpl. split; [intros _; now left | discriminate].
  - change (Nat.eqb (length (gpu :: rest)) 0) with false. cbv iota.
    pose proof (validate_gpus_rejects (gpu :: rest) 0%nat) as Hv.
    destruct (validate_gpus 0 (gpu :: rest)) as [e |].
    + split; [intros _ | discriminate]. right; left. now apply Hv.
    + destruct (out_of 0 100 (CPUUsage d)) eqn:Hc.
      * split; [intros _ | discriminate]. right; right. bounds.
      * split; [congruence |]. intros [H | [H | H]].
        -- discriminate.
        -- apply Hv in H. congruence.
        -- rewrite <- not_true_iff_false in Hc. exfalso. apply Hc. bounds.
Qed.

Lemma collect_validation_failed c rt w data e :
  exit (collect c rt w) = ValidationFailed data e ->
  Validate data = Some e /\ collector' (collect c rt w) = c.
Proof.
  unfold collect.
  destruct (smi w) as [output | err]; [| discriminate].
  destruct (ParseRocmSMIOutput _ _ _ _) as [parsed | err]; [| discriminate].
  destruct (GetCPUUsage _ _) as [[cpuUsage cpuErr] lastStats].
  destruct cpuErr as [err |].
  - destruct (Validate _) as [err' |] eqn:Hv.
    + simpl. intros [= <- <-]. auto.
    + destruct (store _ _) as [c' []]; discriminate.
  - destruct (Validate _) as [err' |] eqn:Hv.
    + simpl. intros [= <- <-]. auto.
    + destruct (store _ _) as [c' []]; discriminate.
Qed.

(** ** The latest sample *)

Lemma last_store c data :
  history (fst (store c data)) <> [] -> last (history (fst (store c data))) = Some data.
Proof.
  unfold store, slice_from. set (h := history c ++ [data]).
  assert (Hlast : forall k, drop k h <> [] -> last (drop k h) = Some data).
  { intros k Hk. subst h. destruct (decide (k <= length (history c))%nat) as [Hle | Hgt].
    - rewrite drop_app_le by assumption. apply last_snoc.
    - rewrite drop_ge in Hk; [congruence |]. rewrite length_app. simpl. lia. }
  destruct (Z.of_nat (length h) >? maxHistory c).
  - destruct (_ && _); simpl; [apply Hlast | intros _; apply last_snoc].
  - simpl. intros _. apply last_snoc.
Qed.

(** C9. [GetLatest] fails, with the no-data error, exactly when the
    history is empty; otherwise it returns the last element of the
    history, which after an append is the sample just appended. *)
Theorem GetLatest_last_appended (c : Collector) :
  (GetLatest c = Err NoDataAvailable <-> history c = []) /\
  (forall e, GetLatest c = Err e -> e = NoDataAvailable) /\
  (forall h data, history c = h ++ [data] -> GetLatest c = Ok data) /\
  (forall data, history (fst (store c data)) <> [] ->
     GetLatest (fst (store c data)) = Ok data) /\
  (forall data, 0 < maxHistory c -> GetLatest (fst (store c data)) = Ok data).
Proof.
  assert (Hsnoc : forall c' h data, history c' = h ++ [data] -> GetLatest c' = Ok data).
  { intros c' h data Hh. unfold GetLatest. rewrite Hh, last_snoc.
    rewrite length_app. simpl. now replace (length h + 1)%nat with (S (length h)) by lia. }
  assert (Hstore : forall data, history (fst (store c data)) <> [] ->
            GetLatest (fst (store c data)) = Ok data).
  { intros data Hne. pose proof (last_store c data Hne) as Hl.
    unfold GetLatest. rewrite Hl.
    destruct (history (fst (store c data))); [congruence | reflexivity]. }
  repeat split.
  - unfold GetLatest. destruct (history c) as [| x h] eqn:Hh; [reflexivity |].
    simpl. destruct (last (x :: h)) eqn:Hl; [discriminate |].
    apply last_None in Hl. discriminate.
  - intros Hh. unfold GetLatest. now rewrite Hh.
  - unfold GetLatest. intros e.
    destruct (Nat.eqb _ _); [congruence |]. destruct (last _); congruence.
  - apply Hsnoc.
  - exact Hstore.
  - intros data Hpos. apply Hstore.
    rewrite store_keeps_most_recent by assumption. simpl.
    unfold most_recent. rewrite length_app. simpl.
    intros Hnil. apply (f_equal length) in Hnil.
    rewrite length_drop, length_app in Hnil. simpl in Hnil. lia.
Qed.

(** On a fresh collector, the sample of the first successful round is
    the latest one. *)
Lemma GetLatest_last_appended_witness :
  let c := fst (NewCollector config0 runtime0) in
  let data := sample_at 5 in
  GetLatest (fst (store c data)) = Ok data.
Proof.
  cbv zeta.
  apply (proj2 (proj2 (proj2 (proj2 (GetLatest_last_appended _))))).
  vm_compute. reflexivity.
Defined.

(** ** Changing the interval *)

(** C10. [SetInterval] with a duration that is not positive returns
    with the collector and everything around it (contexts, cancellations,
    running loops) exactly as they were; with a positive duration the
    stored interval becomes that duration, and the history and the
    capacity are kept. *)
Theorem SetInterval_ignores_non_positive (c : Collector) (rt : Runtime) (d : Duration) :
  (d <= 0 -> SetInterval c rt d = (c, rt)) /\
  (0 < d ->
     interval (fst (SetInterval c rt d)) = d /\
     history (fst (SetInterval c rt d)) = history c /\
     maxHistory (fst (SetInterval c rt d)) = maxHistory c).
Proof.
  unfold SetInterval. split; intros Hd.
  - now rewrite (proj2 (Z.leb_le d 0) Hd).
  - rewrite (proj2 (Z.leb_gt d 0) Hd). simpl. auto.
Qed.

Lemma SetInterval_ignores_non_positive_witness :
  let c := fst (NewCollector config0 runtime0) in
  let rt := Start c (snd (NewCollector config0 runtime0)) in
  SetInterval c rt (- (3 * Second)) = (c, rt) /\
  interval (fst (SetInterval c rt (2 * Second))) = 2 * Second.
Proof.
  cbv zeta. split.
  - apply (proj1 (SetInterval_ignores_non_positive _ _ _)). vm_compute. discriminate.
  - apply (proj2 (SetInterval_ignores_non_positive _ _ (2 * Second))). reflexivity.
Defined.

(** ** The windowed read *)

Lemma After_cutoff_younger now d data :
  - 2 ^ 63 < d ->
  After (Timestamp data) (Add now (neg64 d)) = younger now d data.
Proof.
  intros Hd. unfold After, Add, neg64, younger.
  destruct (Z.eqb_spec d (- 2 ^ 63)) as [-> | _]; [lia |].
  destruct (Z.ltb_spec (now + - d) (Timestamp data)),
           (Z.ltb_spec (now - Timestamp data) d); reflexivity || lia.
Qed.

Lemma statsHandler_window Encode c now d :
  - 2 ^ 63 < d -> history c <> [] ->
  statsHandler Encode c now (Some d)
  = respond Encode (List.filter (younger now d) (history c)).
Proof.
  intros Hd Hne. unfold statsHandler, GetHistory.
  destruct (history c) as [| x h]; [congruence |].
  change (Nat.eqb (length (x :: h)) 0) with false. cbv iota. f_equal.
  apply List.filter_ext. intros data. now apply After_cutoff_younger.
Qed.

Lemma filter_younger_all now d t h :
  Forall (fun data => t <= Timestamp data) h -> now - t < d ->
  List.filter (younger now d) h = h.
Proof.
  intros Hall Ht. induction Hall as [| x h Hx _ IH]; [reflexivity |].
  simpl. unfold younger at 1.
  destruct (Z.ltb_spec (now - Timestamp x) d); [now rewrite IH | lia].
Qed.

Lemma filter_younger_suffix now d h :
  StronglySorted (fun a b => Timestamp a <= Timestamp b) h ->
  exists older,
    h = older ++ List.filter (younger now d) h /\
    Forall (fun data => younger now d data = false) older.
Proof.
  induction 1 as [| x h Hs IH Hx].
  - exists []. split; [reflexivity | constructor].
  - simpl. destruct (younger now d x) eqn:Hy.
    + exists []. split; [| constructor]. simpl. f_equal. symmetry.
      apply (filter_younger_all now d (Timestamp x)); [exact Hx |].
      unfold younger in Hy. now apply Z.ltb_lt.
    + destruct IH as (older & Hh & Hold). exists (x :: older). split.
      * simpl. now rewrite <- Hh.
      * now constructor.
Qed.

(** C8, as stated, fails, even when the encoder accepts the result.
    Read with "within [d]" as "at most [d] old", it fails at the edge of
    the window: a sample exactly [d] old is left out. Read as "less than
    [d] old", it fails on the empty timeline, where the handler answers
    with an error instead of the empty sequence. And it fails when the
    encoder refuses the samples of the window, as it does after a round
    has stored an infinite VRAM usage: the handler answers with an
    error. *)
Lemma window_is_not_the_suffix_within_d :
  ~ (forall Encode c now d,
       Encode (List.filter (within now d) (history c)) = None ->
       statsHandler Encode c now (Some d)
       = Json (List.filter (within now d) (history c))) /\
  ~ (forall Encode c now d,
       Encode (List.filter (younger now d) (history c)) = None ->
       statsHandler Encode c now (Some d)
       = Json (List.filter (younger now d) (history c))) /\
  ~ (forall c now d,
       - 2 ^ 63 < d -> history c <> [] ->
       statsHandler refuse_non_finite c now (Some d)
       = Json (List.filter (younger now d) (history c))).
Proof.
  split; [| split]; intros H.
  - specialize (H refuse_non_finite (collector_with [sample_at (5 * Minute)])
                  (10 * Minute) (5 * Minute) eq_refl).
    vm_compute in H. discriminate H.
  - specialize (H refuse_non_finite (collector_with []) (10 * Minute) (5 * Minute) eq_refl).
    vm_compute in H. discriminate H.
  - specialize (H (overflowed_at (9 * Minute)) (10 * Minute) (5 * Minute)).
    vm_compute in H. specialize (H eq_refl). 
    assert (Hne : forall A (x : A) l, x :: l <> []) by discriminate.
    discriminate (H (Hne _ _ _)).
Qed.

(** C8, amended. For a duration [d] above the least [int64] and a
    history that is not empty, the windowed read hands to the encoder, in
    order, exactly the samples strictly younger than [d] at the time of
    the call, and returns them when the encoder accepts them; when the
    encoder fails the handler answers 500. When the timestamps of the
    history never decrease, the samples kept form a suffix of it. On an
    empty history the handler answers 404. With samples taken 10, 3 and 1
    minutes before the call, a window of 5 minutes returns the last
    two. *)
Theorem window_keeps_younger_suffix :
  (forall Encode c now d, - 2 ^ 63 < d -> history c <> [] ->
     let kept := List.filter (younger now d) (history c) in
     statsHandler Encode c now (Some d)
     = match Encode kept with
       | None => Json kept
       | Some _ => HttpError "Failed to encode data" 500
       end) /\
  (forall c now d,
     StronglySorted (fun a b => Timestamp a <= Timestamp b) (history c) ->
     exists older,
       history c = older ++ List.filter (younger now d) (history c) /\
       Forall (fun data => younger now d data = false) older) /\
  (forall Encode c now d, history c = [] ->
     statsHandler Encode c now (Some d) = HttpError "No data available" 404) /\
  (forall Encode c t s1 s2 s3,
     history c = [s1; s2; s3] ->
     Timestamp s1 = t - 10 * Minute ->
     Timestamp s2 = t - 3 * Minute ->
     Timestamp s3 = t - 1 * Minute ->
     Encode [s2; s3] = None ->
     statsHandler Encode c t (Some (5 * Minute)) = Json [s2; s3]).
Proof.
  split; [| split; [| split]].
  - intros Encode c now d Hd Hne. cbv zeta.
    rewrite statsHandler_window by assumption. unfold respond.
    now destruct (Encode _).
  - intros c now d. apply filter_younger_suffix.
  - intros Encode c now d Hh. unfold statsHandler, GetHistory. now rewrite Hh.
  - intros Encode c t s1 s2 s3 Hh H1 H2 H3 Hok.
    rewrite statsHandler_window by (rewrite ?Hh; (vm_compute; congruence) || discriminate).
    assert (E1 : younger t (5 * Minute) s1 = false)
      by (unfold younger; rewrite H1; apply Z.ltb_ge; unfold Minute, Second; lia).
    assert (E2 : younger t (5 * Minute) s2 = true)
      by (unfold younger; rewrite H2; apply Z.ltb_lt; unfold Minute, Second; lia).
    assert (E3 : younger t (5 * Minute) s3 = true)
      by (unfold younger; rewrite H3; apply Z.ltb_lt; unfold Minute, Second; lia).
    rewrite Hh. simpl. rewrite E1, E2, E3. unfold respond. now rewrite Hok.
Qed.

Lemma window_keeps_younger_suffix_witness :
  let t := 100 * Minute in
  let s1 := sample_at (t - 10 * Minute) in
  let s2 := sample_at (t - 3 * Minute) in
  let s3 := sample_at (t - 1 * Minute) in
  let c := collector_with [s1; s2; s3] in
  statsHandler refuse_non_finite c t (Some (5 * Minute)) = Json [s2; s3] /\
  statsHandler refuse_non_finite c t (Some (2 * Minute)) = Json [s3] /\
  (exists older,
     history c = older ++ List.filter (younger t (2 * Minute)) (history c) /\
     Forall (fun data => younger t (2 * Minute) data = false) older) /\
  statsHandler refuse_non_finite (collector_with []) t (Some (5 * Minute))
  = HttpError "No data available" 404 /\
  List.map (fun data => List.map VRAMUsage (GPUs data))
    (history (overflowed_at (t - 1 * Minute)))
  = [[S754_infinity false]] /\
  statsHandler refuse_non_finite (overflowed_at (t - 1 * Minute)) t (Some (5 * Minute))
  = HttpError "Failed to encode data" 500.
Proof.
  cbv zeta. split; [| split; [| split; [| split; [| split]]]].
  - eapply (proj2 (proj2 (proj2 window_keeps_younger_suffix)) refuse_non_finite
              (collector_with [sample_at (100 * Minute - 10 * Minute);
                               sample_at (100 * Minute - 3 * Minute);
                               sample_at (100 * Minute - 1 * Minute)]) (100 * Minute));
      reflexivity.
  - apply (proj1 window_keeps_younger_suffix refuse_non_finite
             (collector_with [sample_at (100 * Minute - 10 * Minute);
                              sample_at (100 * Minute - 3 * Minute);
                              sample_at (100 * Minute - 1 * Minute)])
             (100 * Minute) (2 * Minute)).
    + vm_compute. reflexivity.
    + vm_compute. discriminate.
  - apply (proj1 (proj2 window_keeps_younger_suffix)).
    repeat constructor; vm_compute; discriminate.
  - apply (proj1 (proj2 (proj2 window_keeps_younger_suffix))). reflexivity.
  - vm_compute. reflexivity.
  - apply (proj1 window_keeps_younger_suffix refuse_non_finite
             (overflowed_at (100 * Minute - 1 * Minute)) (100 * Minute) (5 * Minute)).
    + vm_compute. reflexivity.
    + vm_compute. discriminate.
Defined.

(** ** The parser *)

Lemma range_length o (m : gmap Z string) : length (range o m) = size m.
Proof.
  unfold range. rewrite (Permutation_length (visit_perm o _)).
  apply length_map_to_list.
Qed.

Lemma range_singleton o i (x : string) : range o {[i := x]} = [(i, x)].
Proof.
  unfold range. apply Permutation_singleton_r.
  rewrite (visit_perm o _), map_to_list_singleton. reflexivity.
Qed.

Lemma splitByGPU_size p output : size (splitByGPU p output) <> 0%nat.
Proof.
  unfold splitByGPU.
  destruct (Nat.eqb_spec (size (fold_left (device_line p) (Strings.Split output newline) ∅)) 0)
    as [Hz | Hnz]; [| exact Hnz].
  apply map_size_empty_inv in Hz. rewrite Hz.
  rewrite map_size_insert_None by apply lookup_empty.
  discriminate.
Qed.

Lemma eqb_empty_false output : output <> ""%string -> String.eqb output "" = false.
Proof. intros H. now apply String.eqb_neq. Qed.

(** On an input that is not empty the parser returns one record for
    each section, in the order of the iteration. *)
Lemma ParseRocmSMIOutput_sections p now o output :
  output <> ""%string ->
  ParseRocmSMIOutput p now o output
  = Ok {| Timestamp := now;
          GPUs := List.map (parseSection p output (vramTotalMap p output) (vramUsedMap p output))
                    (range o (splitByGPU p output));
          CPUUsage := Float64.zero |}.
Proof.
  intros Hne. unfold ParseRocmSMIOutput. rewrite (eqb_empty_false _ Hne).
  rewrite length_map, range_length.
  destruct (Nat.eqb_spec (size (splitByGPU p output)) 0) as [Hz | _]; [| reflexivity].
  now apply splitByGPU_size in Hz.
Qed.

Lemma fold_device_line p lines : forall m,
  fold_left (device_line p) lines m
  = fold_left (fun m e => <[fst e := snd e]> m) (omap (device_entry p) lines) m.
Proof.
  induction lines as [| l lines IH]; intros m; [reflexivity |].
  simpl. rewrite IH. unfold device_line, device_entry.
  destruct (FindStringSubmatch (deviceIDRegex p) l) as [| whole [| id rest]]; reflexivity.
Qed.

Lemma splitByGPU_no_device_line p output :
  device_lines p output = [] -> splitByGPU p output = {[0 := output]}.
Proof.
  intros H. unfold splitByGPU. rewrite fold_device_line.
  fold (device_lines p output). rewrite H. simpl.
  rewrite map_size_empty. reflexivity.
Qed.

Lemma search_after_start r s : forall pos,
  pos <> 0%nat -> search (Bol :: r) pos s = None.
Proof.
  induction s as [| c s IH]; intros pos Hpos; cbn [search exec];
    rewrite (proj2 (Nat.eqb_neq pos 0) Hpos); [reflexivity |].
  now apply IH.
Qed.

Lemma no_digit_no_device_entry l :
  starts_with_digit l = false -> device_entry NewParser l = None.
Proof.
  intros Hd. unfold device_entry, FindStringSubmatch.
  change (deviceIDRegex NewParser)
    with (Bol :: [Open 1] ++ plus Digit ++ [Close 1] ++ plus Space)%list.
  destruct l as [| c l]; [reflexivity |]. simpl in Hd.
  cbn [search exec app plus cls_matches Nat.eqb]. rewrite Hd.
  now rewrite search_after_start.
Qed.

Lemma no_digit_no_device_lines output :
  Forall (fun l => starts_with_digit l = false) (Strings.Split output newline) ->
  device_lines NewParser output = [].
Proof.
  unfold device_lines. induction 1 as [| l ls Hl _ IH]; [reflexivity |].
  cbn [omap list_omap]. now rewrite (no_digit_no_device_entry l Hl).
Qed.

Lemma capture1_frame {A} (f : GPU -> A) r text set g :
  (forall v g', f (set v g') = f g') -> f (capture1 r text set g) = f g.
Proof.
  intros Hset. unfold capture1.
  destruct (FindStringSubmatch r text) as [| whole [| v rest]]; auto.
Qed.

Lemma capture1_captured (f : GPU -> float64) r text set g :
  (forall v g', f (set v g') = v) -> f g = Float64.zero ->
  f (capture1 r text set g) = captured r text.
Proof.
  intros Hset Hzero. unfold capture1, captured.
  destruct (FindStringSubmatch r text) as [| whole [| v rest]]; auto.
Qed.

Ltac through_captures :=
  repeat (cbn [ID Temperature Power VRAMUsage VRAMTotal GPUUsage FanSpeed
               set_VRAMUsage set_VRAMTotal set_GPUUsage];
          try (rewrite capture1_frame by reflexivity)).

Lemma parseSection_read_from p output i section :
  read_from p output i section
    (parseSection p output (vramTotalMap p output) (vramUsedMap p output) (i, section)).
Proof.
  unfold read_from, parseSection, percentages.
  destruct (vramTotalMap p output !! i) as [total |],
           (vramUsedMap p output !! i) as [used |],
           (FindStringSubmatch (vramRegex p) section) as [| whole [| v [| u rest]]];
    cbn [default fst snd]; repeat split; through_captures;
    solve [ reflexivity
          | apply capture1_captured; [reflexivity | through_captures; reflexivity] ].
Qed.

(** C4. The parser fails exactly on the empty input, with the
    empty-output error. On every other input it returns a sample with one
    record per section and at least one record, so the error for missing
    device data is never returned; when no line matches the device
    pattern the sample holds the single device 0, read from the whole
    output, and with the patterns of [NewParser] that is the case when no
    line begins with a digit. *)
Theorem parse_fails_exactly_on_empty_input (p : Parser) (now : Time) (o : MapOrder) :
  ParseRocmSMIOutput p now o "" = Err EmptyOutput /\
  (forall output, output <> ""%string ->
     exists data,
       ParseRocmSMIOutput p now o output = Ok data /\
       GPUs data <> [] /\
       length (GPUs data) = size (splitByGPU p output)) /\
  (forall output e,
     ParseRocmSMIOutput p now o output = Err e -> output = ""%string /\ e = EmptyOutput) /\
  (forall output, output <> ""%string -> device_lines p output = [] ->
     exists g,
       ParseRocmSMIOutput p now o output
       = Ok {| Timestamp := now; GPUs := [g]; CPUUsage := Float64.zero |} /\
       g = parseSection p output (vramTotalMap p output) (vramUsedMap p output) (0, output) /\
       ID g = 0) /\
  (forall output, output <> ""%string ->
     Forall (fun l => starts_with_digit l = false) (Strings.Split output newline) ->
     device_lines NewParser output = []).
Proof.
  split; [reflexivity | split; [| split; [| split]]];
    [| | | intros output _; apply no_digit_no_device_lines].
  - intros output Hne. eexists. split; [now apply ParseRocmSMIOutput_sections |].
    simpl. rewrite length_map, range_length. split; [| reflexivity].
    intros Hnil. apply (f_equal length) in Hnil.
    rewrite length_map, range_length in Hnil. now apply splitByGPU_size in Hnil.
  - intros output e He. destruct (String.eqb_spec output "") as [-> | Hne].
    + split; [reflexivity |]. now inversion He.
    + rewrite ParseRocmSMIOutput_sections in He by assumption. discriminate.
  - intros output Hne Hnone. eexists. split; [| split; [reflexivity |]].
    + rewrite ParseRocmSMIOutput_sections by assumption.
      rewrite (splitByGPU_no_device_line _ _ Hnone), range_singleton. reflexivity.
    + apply (parseSection_read_from p output 0 output).
Qed.

Lemma parse_fails_exactly_on_empty_input_witness :
  (exists data,
     ParseRocmSMIOutput NewParser 7 descending three_devices = Ok data /\
     GPUs data <> [] /\
     length (GPUs data) = size (splitByGPU NewParser three_devices)) /\
  (exists g,
     ParseRocmSMIOutput NewParser 7 descending "no device here"
     = Ok {| Timestamp := 7; GPUs := [g]; CPUUsage := Float64.zero |} /\
     g = parseSection NewParser "no device here"
           (vramTotalMap NewParser "no device here")
           (vramUsedMap NewParser "no device here") (0, "no device here"%string) /\
     ID g = 0) /\
  device_lines NewParser "no device here" = [].
Proof.
  split; [| split].
  - apply (proj1 (proj2 (parse_fails_exactly_on_empty_input NewParser 7 descending))).
    discriminate.
  - apply (proj1 (proj2 (proj2 (proj2
             (parse_fails_exactly_on_empty_input NewParser 7 descending))))).
    + discriminate.
    + vm_compute. reflexivity.
  - apply (proj2 (proj2 (proj2 (proj2
             (parse_fails_exactly_on_empty_input NewParser 7 descending))))).
    + discriminate.
    + repeat constructor.
Defined.

(** *** The example of the specification *)

Lemma example_sections :
  splitByGPU NewParser example_input = {[0 := "0  45.0c  120.0W  ...  50%  80%"%string]} /\
  splitByGPU NewParser example_input_degrees
  = {[0 := "0  45.0°C  120.0W  ...  50%  80%"%string]}.
Proof. split; vm_compute; reflexivity. Qed.

Lemma example_parsed now o :
  exists g,
    ParseRocmSMIOutput NewParser now o example_input
    = Ok {| Timestamp := now; GPUs := [g]; CPUUsage := Float64.zero |} /\
    ID g = 0 /\
    Temperature g = Float64.zero /\
    Power g = Float64.of_Z 120 /\
    VRAMUsage g = Float64.of_Z 50 /\
    GPUUsage g = Float64.of_Z 80.
Proof.
  eexists. split.
  - rewrite ParseRocmSMIOutput_sections by discriminate.
    rewrite (proj1 example_sections), range_singleton. reflexivity.
  - vm_compute. repeat split.
Qed.

(** C5, as stated, fails: in the example the reading [45.0c] lacks the
    degree marker of the temperature pattern, and the temperature of the
    device is not 45. *)
Lemma example_temperature_is_not_45 :
  ~ (forall now o, exists g,
       ParseRocmSMIOutput NewParser now o example_input
       = Ok {| Timestamp := now; GPUs := [g]; CPUUsage := Float64.zero |} /\
       Temperature g = Float64.of_Z 45 /\
       Power g = Float64.of_Z 120 /\
       VRAMUsage g = Float64.of_Z 50 /\
       GPUUsage g = Float64.of_Z 80).
Proof.
  intros H. destruct (H 0 id_order) as (g & Hg & Ht & _).
  destruct (example_parsed 0 id_order) as (g' & Hg' & _ & Ht' & _).
  rewrite Hg' in Hg. injection Hg as ->. rewrite Ht' in Ht. discriminate Ht.
Qed.

(** C5, amended. On the example the parser returns one device, index 0,
    with power 120, VRAM usage 50 (from the percentage) and GPU usage 80;
    its temperature stays 0 because [45.0c] is not followed by the degree
    marker. With the marker in place of the [c] the temperature is 45 and
    the other fields are the same. *)
Theorem example_yields_one_device (now : Time) (o : MapOrder) :
  (exists g,
     ParseRocmSMIOutput NewParser now o example_input
     = Ok {| Timestamp := now; GPUs := [g]; CPUUsage := Float64.zero |} /\
     ID g = 0 /\
     Temperature g = Float64.zero /\
     Power g = Float64.of_Z 120 /\
     VRAMUsage g = Float64.of_Z 50 /\
     GPUUsage g = Float64.of_Z 80) /\
  (exists g,
     ParseRocmSMIOutput NewParser now o example_input_degrees
     = Ok {| Timestamp := now; GPUs := [g]; CPUUsage := Float64.zero |} /\
     ID g = 0 /\
     Temperature g = Float64.of_Z 45 /\
     Power g = Float64.of_Z 120 /\
     VRAMUsage g = Float64.of_Z 50 /\
     GPUUsage g = Float64.of_Z 80).
Proof.
  split; [apply example_parsed |].
  eexists. split.
  - rewrite ParseRocmSMIOutput_sections by discriminate.
    rewrite (proj2 example_sections), range_singleton. reflexivity.
  - vm_compute. repeat split.
Qed.

(** *** Several devices *)

Lemma fold_insert_entries (l : list (Z * string)) : forall m : gmap Z string,
  NoDup (List.map fst l) ->
  (forall k, In k (List.map fst l) -> m !! k = None) ->
  map_to_list (fold_left (fun m e => <[fst e := snd e]> m) l m) ≡ₚ map_to_list m ++ l.
Proof.
  induction l as [| [k v] l IH]; intros m Hnd Hfresh; simpl.
  - now rewrite app_nil_r.
  - apply NoDup_cons in Hnd as [Hk Hnd]. rewrite IH.
    + rewrite map_to_list_insert by (apply Hfresh; now left).
      simpl. now rewrite Permutation_middle.
    + assumption.
    + intros k' Hk'. rewrite lookup_insert_ne.
      * apply Hfresh. now right.
      * intros ->. apply Hk. now apply list_elem_of_In.
Qed.

Lemma splitByGPU_device_lines p output :
  NoDup (List.map fst (device_lines p output)) -> device_lines p output <> [] ->
  map_to_list (splitByGPU p output) ≡ₚ device_lines p output.
Proof.
  intros Hnd Hne. unfold splitByGPU. rewrite fold_device_line.
  fold (device_lines p output).
  pose proof (fold_insert_entries (device_lines p output) ∅ Hnd (fun k _ => lookup_empty k)) as Hp.
  rewrite map_to_list_empty in Hp. simpl in Hp.
  match goal with
  | |- context [Nat.eqb ?n 0] => destruct (Nat.eqb_spec n 0) as [Hz | _]; [| exact Hp]
  end.
  apply map_size_empty_inv in Hz. rewrite Hz, map_to_list_empty in Hp.
  apply Permutation_nil_l in Hp. congruence.
Qed.

(** C6, as stated, fails on the order: the records come in the order
    in which the sections are visited, and for three devices there is an
    order of visit in which the indexes do not increase. *)
Lemma devices_not_ordered_by_index :
  ~ (forall o, exists data,
       ParseRocmSMIOutput NewParser 0 o three_devices = Ok data /\
       Sorted Z.le (List.map ID (GPUs data))).
Proof.
  intros H. destruct (H descending) as (data & Hd & Hs).
  vm_compute in Hd. injection Hd as <-. simpl in Hs.
  apply Sorted_inv in Hs as [_ Hs]. apply HdRel_inv in Hs. vm_compute in Hs. now apply Hs.
Qed.

(** C6, amended. When exactly three lines of the input match the
    device pattern, with three different indexes, the parser returns
    exactly three records, one for each of these lines: each carries the
    index of its line and the temperature, power, percentages and fan
    speed read from that line (the memory figures from the detailed
    lines of the output, when it has some for the index). The records are
    in the order in which the sections are visited, which need not be
    the order of the indexes. *)
Theorem three_device_lines_three_records
    (p : Parser) (now : Time) (o : MapOrder) (output : string)
    (i1 i2 i3 : Z) (l1 l2 l3 : string) :
  device_lines p output = [(i1, l1); (i2, l2); (i3, l3)] ->
  i1 <> i2 -> i1 <> i3 -> i2 <> i3 ->
  exists gpus g1 g2 g3,
    ParseRocmSMIOutput p now o output
    = Ok {| Timestamp := now; GPUs := gpus; CPUUsage := Float64.zero |} /\
    length gpus = 3%nat /\
    gpus ≡ₚ [g1; g2; g3] /\
    read_from p output i1 l1 g1 /\
    read_from p output i2 l2 g2 /\
    read_from p output i3 l3 g3 /\
    List.map ID gpus = List.map fst (range o (splitByGPU p output)).
Proof.
  intros Hlines H12 H13 H23.
  assert (Hne : output <> ""%string).
  { intros ->. unfold device_lines in Hlines. simpl in Hlines.
    destruct (device_entry p ""); discriminate. }
  assert (Hperm : range o (splitByGPU p output) ≡ₚ [(i1, l1); (i2, l2); (i3, l3)]).
  { unfold range. rewrite (visit_perm o _), splitByGPU_device_lines; rewrite Hlines.
    - reflexivity.
    - simpl. rewrite !NoDup_cons, !list_elem_of_In. simpl.
      repeat split; try apply NoDup_nil_2; intuition congruence.
    - discriminate. }
  set (f := parseSection p output (vramTotalMap p output) (vramUsedMap p output)).
  exists (List.map f (range o (splitByGPU p output))), (f (i1, l1)), (f (i2, l2)), (f (i3, l3)).
  split; [now apply ParseRocmSMIOutput_sections |].
  split; [rewrite length_map, (Permutation_length Hperm); reflexivity |].
  split; [exact (Permutation_map f Hperm) |].
  repeat (split; [apply parseSection_read_from |]).
  rewrite List.map_map. apply List.map_ext. intros [i l].
  apply (parseSection_read_from p output i l).
Qed.

Lemma three_device_lines_three_records_witness :
  exists gpus g1 g2 g3,
    ParseRocmSMIOutput NewParser 7 descending three_devices
    = Ok {| Timestamp := 7; GPUs := gpus; CPUUsage := Float64.zero |} /\
    length gpus = 3%nat /\
    gpus ≡ₚ [g1; g2; g3] /\
    read_from NewParser three_devices 0 "0  45.0°C  120.0W  50%  80%" g1 /\
    read_from NewParser three_devices 1 "1  46.0°C  121.0W  51%  81%" g2 /\
    read_from NewParser three_devices 2 "2  47.0°C  122.0W  52%  82%" g3 /\
    List.map ID gpus = List.map fst (range descending (splitByGPU NewParser three_devices)).
Proof.
  apply (three_device_lines_three_records NewParser 7 descending three_devices 0 1 2).
  - vm_compute. reflexivity.
  - discriminate.
  - discriminate.
  - discriminate.
Defined.

(** *** Detailed memory figures *)

Lemma last_bytes_for_cons i match_ rest :
  last_bytes_for i (match_ :: rest)
  = match last_bytes_for i rest with
    | Some bytes => Some bytes
    | None => bytes_for i match_
    end.
Proof.
  unfold last_bytes_for. cbn [omap list_omap].
  destruct (bytes_for i match_) as [bytes |].
  - rewrite last_cons. now destruct (last _).
  - now destruct (last _).
Qed.

Lemma fold_bytes_entry_lookup i matches : forall m : gmap Z float64,
  fold_left bytes_entry matches m !! i
  = match last_bytes_for i matches with
    | Some bytes => Some (gigabytes bytes)
    | None => m !! i
    end.
Proof.
  induction matches as [| match_ rest IH]; intros m; [reflexivity |].
  cbn [fold_left]. rewrite IH, last_bytes_for_cons.
  destruct (last_bytes_for i rest) as [bytes |]; [reflexivity |].
  unfold bytes_entry, bytes_for.
  destruct match_ as [| whole [| id [| bytes tail]]]; try reflexivity.
  destruct (decide (fst (Strconv.Atoi id) = i)) as [<- | Hne].
  - now rewrite lookup_insert_eq.
  - now rewrite lookup_insert_ne.
Qed.

Lemma bytesMap_lookup i matches :
  bytesMap matches !! i = gigabytes <$> last_bytes_for i matches.
Proof.
  unfold bytesMap. rewrite fold_bytes_entry_lookup, lookup_empty.
  destruct (last_bytes_for i matches); reflexivity.
Qed.

Lemma parsed_device_section p now o output data g :
  ParseRocmSMIOutput p now o output = Ok data -> In g (GPUs data) ->
  exists section,
    splitByGPU p output !! ID g = Some section /\
    read_from p output (ID g) section g.
Proof.
  intros Hparse Hin.
  assert (Hne : output <> ""%string) by (intros ->; discriminate Hparse).
  rewrite ParseRocmSMIOutput_sections in Hparse by assumption.
  injection Hparse as <-. simpl in Hin.
  apply List.in_map_iff in Hin as ([i section] & <- & Hin).
  pose proof (parseSection_read_from p output i section) as Hread.
  destruct Hread as [Hid Hrest]. rewrite Hid. exists section. split.
  - apply elem_of_map_to_list. rewrite <- (visit_perm o _). now apply list_elem_of_In.
  - split; assumption.
Qed.

Lemma last_of_reads bytes counts : reads bytes counts -> last counts = Some bytes.
Proof.
  intros [Hin Hall]. destruct counts as [| x l] using rev_ind; [destruct Hin |].
  rewrite last_snoc. f_equal. apply Hall, List.in_or_app. right. now left.
Qed.

(** C7. Every parsed device comes from a section of its index. When
    the output has a detailed line of used memory for that index, with
    byte count N, the VRAM usage of the device is N divided by 2^30 in
    [float64], whatever the percentages of the section say, and likewise
    the VRAM total with the line of total memory; without a line of used
    memory the usage is the first of the trailing percentages of the
    section. Should several lines for one device give different counts,
    the last one is kept; the total is 0 without a line for it. *)
Theorem detailed_vram_overrides_percentage
    (p : Parser) (now : Time) (o : MapOrder) (output : string) (data : RocmData) (g : GPU) :
  ParseRocmSMIOutput p now o output = Ok data ->
  In g (GPUs data) ->
  let used := readings (ID g) (FindAllStringSubmatch (vramUsedRegex p) output) in
  let total := readings (ID g) (FindAllStringSubmatch (vramTotalRegex p) output) in
  exists section,
    splitByGPU p output !! ID g = Some section /\
    (forall bytes, reads bytes used -> VRAMUsage g = gigabytes bytes) /\
    (forall bytes, reads bytes total -> VRAMTotal g = gigabytes bytes) /\
    (used = [] -> VRAMUsage g = fst (percentages p section)) /\
    VRAMUsage g
    = match last_bytes_for (ID g) (FindAllStringSubmatch (vramUsedRegex p) output) with
      | Some bytes => gigabytes bytes
      | None => fst (percentages p section)
      end /\
    VRAMTotal g
    = match last_bytes_for (ID g) (FindAllStringSubmatch (vramTotalRegex p) output) with
      | Some bytes => gigabytes bytes
      | None => Float64.zero
      end.
Proof.
  intros Hparse Hin. cbv zeta.
  destruct (parsed_device_section p now o output data g Hparse Hin)
    as (section & Hsec & _ & _ & _ & _ & _ & Hused & Htotal).
  exists section. split; [exact Hsec |].
  rewrite Hused, Htotal. unfold vramUsedMap, vramTotalMap.
  rewrite !bytesMap_lookup. unfold last_bytes_for, readings.
  split; [| split; [| split; [| split]]].
  - intros bytes Hreads. now rewrite (last_of_reads _ _ Hreads).
  - intros bytes Hreads. now rewrite (last_of_reads _ _ Hreads).
  - now intros ->.
  - now destruct (last _).
  - now destruct (last _).
Qed.

(** With 16 GiB in total and 4 GiB used, the device reports 4 and 16,
    not the 50 of its percentage. *)
Lemma detailed_vram_overrides_percentage_witness :
  let g := {| ID := 0; Name := ""; Temperature := Float64.of_Z 45; Power := Float64.of_Z 120;
              VRAMUsage := Float64.of_Z 4; VRAMTotal := Float64.of_Z 16;
              GPUUsage := Float64.of_Z 80; FanSpeed := Float64.zero;
              SCLKFreq := Float64.zero; MCLKFreq := Float64.zero |} in
  ParseRocmSMIOutput NewParser 7 id_order detailed_reading
  = Ok {| Timestamp := 7; GPUs := [g]; CPUUsage := Float64.zero |} /\
  reads "4294967296"
    (readings 0 (FindAllStringSubmatch (vramUsedRegex NewParser) detailed_reading)) /\
  VRAMUsage g = gigabytes "4294967296" /\
  VRAMTotal g = gigabytes "17179869184".
Proof.
  cbv zeta.
  assert (Hused : reads "4294967296"
            (readings 0 (FindAllStringSubmatch (vramUsedRegex NewParser) detailed_reading))).
  { vm_compute. split; [now left | intros other [<- | []]; reflexivity]. }
  assert (Htotal : reads "17179869184"
            (readings 0 (FindAllStringSubmatch (vramTotalRegex NewParser) detailed_reading))).
  { vm_compute. split; [now left | intros other [<- | []]; reflexivity]. }
  split; [vm_compute; reflexivity |]. split; [exact Hused |].
  destruct (detailed_vram_overrides_percentage NewParser 7 id_order detailed_reading
              {| Timestamp := 7;
                 GPUs := [{| ID := 0; Name := ""; Temperature := Float64.of_Z 45;
                             Power := Float64.of_Z 120;
                             VRAMUsage := Float64.of_Z 4; VRAMTotal := Float64.of_Z 16;
                             GPUUsage := Float64.of_Z 80; FanSpeed := Float64.zero;
                             SCLKFreq := Float64.zero; MCLKFreq := Float64.zero |}];
                 CPUUsage := Float64.zero |}
              {| ID := 0; Name := ""; Temperature := Float64.of_Z 45;
                 Power := Float64.of_Z 120;
                 VRAMUsage := Float64.of_Z 4; VRAMTotal := Float64.of_Z 16;
                 GPUUsage := Float64.of_Z 80; FanSpeed := Float64.zero;
                 SCLKFreq := Float64.zero; MCLKFreq := Float64.zero |})
    as (section & _ & Hu & Ht & _).
  - vm_compute. reflexivity.
  - left. reflexivity.
  - split; [exact (Hu _ Hused) | exact (Ht _ Htotal)].
Defined.

(** ** The sample of a round *)

(** The rounding of a mantissa that is not negative gives a number:
    the shifts and the increment keep the mantissa from going below
    zero. *)
Lemma shr_1_nonneg mrs : 0 <= shr_m mrs -> 0 <= shr_m (shr_1 mrs).
Proof.
  destruct mrs as [m r s]. cbn [shr_m]. intros Hm.
  destruct m as [| [q | q |] | q]; cbn; lia.
Qed.

Lemma iter_shr_1_nonneg n : forall mrs,
  0 <= shr_m mrs -> 0 <= shr_m (SpecFloat.iter_pos shr_1 n mrs).
Proof.
  induction n as [n IH | n IH |]; intros mrs Hm; cbn [SpecFloat.iter_pos];
    auto using shr_1_nonneg.
Qed.

Lemma shr_fexp_nonneg prec emax m e l :
  0 <= m -> 0 <= shr_m (fst (shr_fexp prec emax m e l)).
Proof.
  intros Hm. unfold shr_fexp, shr.
  assert (Hrec : 0 <= shr_m (shr_record_of_loc m l)) by (now destruct l as [| []]).
  destruct (fexp prec emax (Zdigits2 m + e) - e) as [| n | n]; cbn [fst];
    [exact Hrec | now apply iter_shr_1_nonneg | exact Hrec].
Qed.

Lemma round_nearest_even_nonneg m l : 0 <= m -> 0 <= round_nearest_even m l.
Proof.
  intros Hm. destruct l as [| []]; cbn [round_nearest_even]; try lia.
  destruct (Z.even m); lia.
Qed.

Lemma binary_round_aux_number prec emax sx m e l :
  0 <= m -> Float64.is_nan (binary_round_aux prec emax sx m e l) = false.
Proof.
  intros Hm. unfold binary_round_aux.
  pose proof (shr_fexp_nonneg prec emax m e l Hm) as H1.
  destruct (shr_fexp prec emax m e l) as [mrs' e']. cbn [fst] in H1.
  pose proof (shr_fexp_nonneg prec emax _ e' loc_Exact
                (round_nearest_even_nonneg _ (loc_of_shr_record mrs') H1)) as H2.
  destruct (shr_fexp prec emax _ e' loc_Exact) as [mrs'' e'']. cbn [fst] in H2.
  destruct (shr_m mrs'') as [| n | n]; [reflexivity | | lia].
  now destruct (e'' <=? emax - prec).
Qed.

Lemma div_finite_number sx mx ex sy my ey :
  Float64.is_nan (Float64.div (S754_finite sx mx ex) (S754_finite sy my ey)) = false.
Proof.
  unfold Float64.div, SFdiv.
  destruct (SFdiv_core_binary _ _ _ _ _ _) as [[mz ez] lz] eqn:Hcore.
  apply binary_round_aux_number.
  unfold SFdiv_core_binary in Hcore. cbv zeta in Hcore.
  match type of Hcore with
  | context [Z.div_eucl ?m' (Zpos my)] =>
      assert (Hm' : 0 <= m');
      [| pose proof (Z_div_mod m' (Zpos my) eq_refl) as Hdiv;
         destruct (Z.div_eucl m' (Zpos my)) as [q r] ]
  end.
  - match goal with
    | |- 0 <= match ?s with _ => _ end => destruct s as [| n | n]
    end; [lia | apply Z.shiftl_nonneg; lia | lia].
  - injection Hcore as <- _ _. nia.
Qed.

Lemma ParseFloat_number s : Float64.is_nan (fst (Strconv.ParseFloat s)) = false.
Proof.
  unfold Strconv.ParseFloat. destruct (Strconv.mantissa 0 false s) as [[m k] |];
    [| reflexivity].
  destruct m as [| n | n]; [reflexivity | | reflexivity].
  cbn [fst]. apply div_finite_number.
Qed.

Lemma captured_number r text : Float64.is_nan (captured r text) = false.
Proof.
  unfold captured. destruct (FindStringSubmatch r text) as [| whole [| v rest]];
    try reflexivity. apply ParseFloat_number.
Qed.

Lemma percentages_number p text : Float64.is_nan (snd (percentages p text)) = false.
Proof.
  unfold percentages.
  destruct (FindStringSubmatch (vramRegex p) text) as [| whole [| v [| u rest]]];
    try reflexivity. apply ParseFloat_number.
Qed.

(** The temperature, the power and the usage of a parsed device are
    numbers: zero, or what [ParseFloat] made of a run of digits. *)
Lemma parsed_fields_are_numbers p now o output data g :
  ParseRocmSMIOutput p now o output = Ok data -> In g (GPUs data) ->
  Float64.is_nan (Temperature g) = false /\
  Float64.is_nan (Power g) = false /\
  Float64.is_nan (GPUUsage g) = false.
Proof.
  intros Hparse Hin.
  destruct (parsed_device_section p now o output data g Hparse Hin)
    as (section & _ & _ & -> & -> & -> & _).
  auto using captured_number, percentages_number.
Qed.

Lemma parsed_has_devices p now o output data :
  ParseRocmSMIOutput p now o output = Ok data -> GPUs data <> [].
Proof.
  unfold ParseRocmSMIOutput. destruct (String.eqb output ""); [discriminate |].
  destruct (List.map _ _) as [| g gpus]; [discriminate |].
  intros [= <-]. discriminate.
Qed.

Lemma sample_of_parsed c rt w data :
  sample_of c rt w = Some data ->
  exists output parsed,
    ParseRocmSMIOutput (parser c) (now w) (order w) output = Ok parsed /\
    GPUs data = GPUs parsed.
Proof.
  unfold sample_of. destruct (smi w) as [output | err]; [| discriminate].
  destruct (ParseRocmSMIOutput _ _ _ _) as [parsed | err] eqn:Hparse; [| discriminate].
  destruct (GetCPUUsage _ _) as [[cpuUsage cpuErr] lastStats].
  intros [= <-]. eauto.
Qed.

(** What a round does with its sample: nothing when [Validate]
    rejects it, the append when it passes. *)
Lemma collect_sample c rt w data :
  sample_of c rt w = Some data ->
  match Validate data with
  | Some e =>
      collector' (collect c rt w) = c /\ exit (collect c rt w) = ValidationFailed data e
  | None => collector' (collect c rt w) = fst (store c data)
  end.
Proof.
  unfold sample_of, collect. destruct (smi w) as [output | err]; [| discriminate].
  destruct (ParseRocmSMIOutput _ _ _ _) as [parsed | err]; [| discriminate].
  destruct (GetCPUUsage _ _) as [[cpuUsage cpuErr] lastStats].
  destruct cpuErr as [err |]; intros [= <-].
  - destruct (Validate _) as [e |]; [now split |]. now destruct (store _ _).
  - destruct (Validate _) as [e |]; [now split |]. now destruct (store _ _).
Qed.

Lemma outside_of_number lo hi x :
  Float64.is_nan x = false -> (outside lo hi x <-> in_range lo hi x = false).
Proof. unfold outside. tauto. Qed.

(** C2. [Validate] rejects the sample of a round exactly when a
    device of it has a temperature outside [0, 150], a power outside
    [0, 1000] or a usage outside [0, 100], or the host CPU usage is
    outside [0, 100]; the bounds themselves pass. The sample of a round
    always has a device, and the three fields of its devices are always
    numbers, so that "outside" may be read as "below or above" as well as
    "not within"; the two readings part only for a CPU usage that is not
    a number, which the comparisons of [Validate] let pass. A round whose
    sample is rejected stops at the validation and leaves the collector,
    and so the history, as it was; a round whose sample passes appends
    it. On samples at large [Validate] also rejects the one without
    devices. *)
Theorem Validate_rejects_exactly_out_of_range :
  (forall d, Validate d <> None <-> rejected d) /\
  (forall lo hi, In (lo, hi) [(0, 150); (0, 1000); (0, 100)] ->
     out_of lo hi (Float64.of_Z lo) = false /\ out_of lo hi (Float64.of_Z hi) = false) /\
  (forall c rt w data, sample_of c rt w = Some data ->
     GPUs data <> [] /\
     (Validate data <> None <-> some_field_outside data) /\
     (Float64.is_nan (CPUUsage data) = false ->
        (Validate data <> None <-> some_field_not_in_range data)) /\
     (Validate data <> None ->
        collector' (collect c rt w) = c /\
        history (collector' (collect c rt w)) = history c /\
        exists e, exit (collect c rt w) = ValidationFailed data e) /\
     (Validate data = None ->
        collector' (collect c rt w) = fst (store c data))) /\
  (forall c rt w data e,
     exit (collect c rt w) = ValidationFailed data e ->
     Validate data = Some e /\
     history (collector' (collect c rt w)) = history c).
Proof.
  split; [exact Validate_rejected | split; [| split]].
  - intros lo hi Hin. simpl in Hin.
    destruct Hin as [[= <- <-] | [[= <- <-] | [[= <- <-] | []]]]; split; reflexivity.
  - intros c rt w data Hsample.
    destruct (sample_of_parsed c rt w data Hsample) as (output & parsed & Hparse & Hgpus).
    assert (Hne : GPUs data <> [])
      by (rewrite Hgpus; exact (parsed_has_devices _ _ _ _ _ Hparse)).
    assert (Hout : Validate data <> None <-> some_field_outside data).
    { rewrite Validate_rejected. unfold rejected, some_field_outside. tauto. }
    pose proof (collect_sample c rt w data Hsample) as Hround.
    split; [exact Hne |]. split; [exact Hout |]. split; [| split].
    + intros Hcpu. rewrite Hout. unfold some_field_outside, some_field_not_in_range.
      rewrite (outside_of_number 0 100 (CPUUsage data) Hcpu).
      assert (Hdev : forall g, In g (GPUs data) ->
                (outside 0 150 (Temperature g) \/ outside 0 1000 (Power g)
                 \/ outside 0 100 (GPUUsage g))
                <-> (in_range 0 150 (Temperature g) = false
                     \/ in_range 0 1000 (Power g) = false
                     \/ in_range 0 100 (GPUUsage g) = false)).
      { intros g Hin. rewrite Hgpus in Hin.
        destruct (parsed_fields_are_numbers _ _ _ _ _ g Hparse Hin) as (Ht & Hp & Hu).
        now rewrite (outside_of_number _ _ _ Ht), (outside_of_number _ _ _ Hp),
          (outside_of_number _ _ _ Hu). }
      split; (intros [(g & Hin & Hg) | Hc]; [left; exists g; split; [exact Hin |] | now right]);
        now apply (Hdev g Hin).
    + intros Hrej. destruct (Validate data) as [e |]; [| congruence].
      destruct Hround as [Hc He]. rewrite Hc. eauto.
    + intros Hok. now rewrite Hok in Hround.
  - intros c rt w data e He.
    destruct (collect_validation_failed c rt w data e He) as [Hv Hc].
    now rewrite Hc.
Qed.

(** A round on a reading of 200 degrees: its sample is rejected, and
    the round appends nothing. *)
Lemma Validate_rejects_exactly_out_of_range_witness :
  let c := fst (NewCollector config0 runtime0) in
  let w := world_of 7 hot_line in
  exists data,
    sample_of c runtime0 w = Some data /\
    Validate data = Some (InvalidTemperature 0 (Float64.of_Z 200)) /\
    collector' (collect c runtime0 w) = c /\
    history (collector' (collect c runtime0 w)) = history c.
Proof.
  cbv zeta. eexists. split; [vm_compute; reflexivity |]. split; [vm_compute; reflexivity |].
  match goal with
  | |- collector' (collect ?c ?rt ?w) = _ /\ _ =>
      destruct (proj1 (proj2 (proj2 Validate_rejects_exactly_out_of_range)) c rt w _
                  ltac:(vm_compute; reflexivity))
        as (_ & _ & _ & Hrejected & _)
  end.
  destruct Hrejected as (Hc & Hh & _); [vm_compute; discriminate |].
  split; [exact Hc | exact Hh].
Defined.

(** ** The snapshot and what it shares *)

Module MemoryFacts.
Import Memory.

Lemma samples_length m s : (length (samples m s) <= len s)%nat.
Proof. unfold samples, window. rewrite length_take. lia. Qed.

(** The snapshot shows the same timeline as the history. *)
Lemma GetHistory_same_timeline m history :
  let '(historyCopy, m') := GetHistory m history in
  timeline m' historyCopy = timeline m history.
Proof.
  unfold GetHistory, timeline. f_equal.
  unfold samples at 1. simpl. rewrite lookup_insert_eq. simpl.
  unfold window at 1. simpl. rewrite drop_0.
  apply take_ge, samples_length.
Qed.

(** Assigning an element of the snapshot leaves the history alone. *)
Lemma snapshot_elements_are_copies m history i x m2 :
  (arr history < next m)%nat ->
  set_sample (snd (GetHistory m history)) (fst (GetHistory m history)) i x = Some m2 ->
  timeline m2 history = timeline m history.
Proof.
  intros Hfresh. unfold set_sample, GetHistory. simpl.
  destruct (i <? len history)%nat; [| discriminate]. intros [= <-].
  unfold timeline, samples, value, devices. simpl.
  rewrite lookup_alter_ne, lookup_insert_ne by lia. reflexivity.
Qed.

End MemoryFacts.

(** C3 at the failing input. The snapshot of a history of one sample
    shows the same timeline, and assigning an element of the snapshot
    does not touch the history; but the sample in the snapshot carries
    the header of the same device array, so setting the temperature of
    the device to 200 through the snapshot changes the timeline of the
    store from 45 to 200. *)
Theorem snapshot_shares_device_records :
  let '(historyCopy, m1) := Memory.GetHistory memory0 history0 in
  Memory.timeline m1 historyCopy = Memory.timeline memory0 history0 /\
  List.map (fun d => List.map Temperature (GPUs d)) (Memory.timeline m1 history0)
  = [[Float64.of_Z 45]] /\
  (exists m2,
     Memory.set_sample m1 historyCopy 0
       {| Memory.timestamp := 99;
          Memory.gpus := {| Memory.arr := 0; Memory.off := 0; Memory.len := 0 |};
          Memory.cpuUsage := Float64.zero |}
     = Some m2 /\
     Memory.timeline m2 history0 = Memory.timeline memory0 history0) /\
  (exists m2,
     Memory.set_device m1 historyCopy 0 0 (set_Temperature (Float64.of_Z 200) device45)
     = Some m2 /\
     List.map (fun d => List.map Temperature (GPUs d)) (Memory.timeline m2 history0)
     = [[Float64.of_Z 200]] /\
     Memory.timeline m2 history0 <> Memory.timeline memory0 history0).
Proof.
  pose proof (MemoryFacts.GetHistory_same_timeline memory0 history0) as Hsame.
  pose proof (MemoryFacts.snapshot_elements_are_copies memory0 history0 0) as Hcopy.
  destruct (Memory.GetHistory memory0 history0) as [historyCopy m1] eqn:Hget.
  split; [exact Hsame |]. simpl in Hcopy.
  vm_compute in Hget. injection Hget as <- <-.
  split; [vm_compute; reflexivity |]. split.
  - eexists. split; [vm_compute; reflexivity |].
    eapply Hcopy; [vm_compute; lia |]. vm_compute. reflexivity.
  - eexists. split; [vm_compute; reflexivity |].
    split; [vm_compute; reflexivity |].
    vm_compute. discriminate.
Qed.

(** * Further properties of the sources *)

(** ** Sections and records of the parser *)

Lemma last_line_for_cons i entry rest :
  last_line_for i (entry :: rest)
  = match last_line_for i rest with
    | Some l => Some l
    | None => line_for i entry
    end.
Proof.
  unfold last_line_for. cbn [omap list_omap].
  destruct (line_for i entry) as [l |].
  - rewrite last_cons. now destruct (last _).
  - now destruct (last _).
Qed.

Lemma fold_insert_lookup i (entries : list (Z * string)) : forall m : gmap Z string,
  fold_left (fun m e => <[fst e := snd e]> m) entries m !! i
  = match last_line_for i entries with
    | Some l => Some l
    | None => m !! i
    end.
Proof.
  induction entries as [| [k v] rest IH]; intros m; [reflexivity |].
  cbn [fold_left]. rewrite IH, last_line_for_cons.
  destruct (last_line_for i rest) as [l |]; [reflexivity |].
  unfold line_for. cbn [fst snd].
  destruct (decide (k = i)) as [-> | Hne].
  - now rewrite lookup_insert_eq.
  - now rewrite lookup_insert_ne.
Qed.

Lemma last_line_for_last entries k v :
  last entries = Some (k, v) -> last_line_for k entries = Some v.
Proof.
  intros Hl. apply last_Some in Hl as [front ->].
  unfold last_line_for. rewrite omap_app, last_app. cbn [omap list_omap].
  unfold line_for at 1. cbn [fst snd]. now rewrite decide_True.
Qed.

(** X1. When the output has device lines, the section kept for an index
    is the last of its lines that announces this index, and indexes that
    no line announces have no section; without any device line the whole
    output is the one section, of index 0. *)
Theorem splitByGPU_keeps_last_line (p : Parser) (output : string) (i : Z) :
  (device_lines p output <> [] ->
     splitByGPU p output !! i = last_line_for i (device_lines p output)) /\
  (device_lines p output = [] ->
     splitByGPU p output !! i = if decide (i = 0) then Some output else None).
Proof.
  split.
  - intros Hne. unfold splitByGPU. rewrite fold_device_line.
    fold (device_lines p output).
    set (m := fold_left _ (device_lines p output) ∅).
    assert (Hlookup : forall j, m !! j = last_line_for j (device_lines p output)).
    { intros j. subst m. rewrite fold_insert_lookup, lookup_empty.
      now destruct (last_line_for j _). }
    destruct (Nat.eqb_spec (size m) 0) as [Hz | _]; [| apply Hlookup].
    apply map_size_empty_inv in Hz.
    destruct (last (device_lines p output)) as [[k v] |] eqn:Hl.
    + pose proof (Hlookup k) as Hk.
      rewrite (last_line_for_last _ _ _ Hl), Hz, lookup_empty in Hk. discriminate.
    + apply last_None in Hl. contradiction.
  - intros Hnone. rewrite (splitByGPU_no_device_line _ _ Hnone).
    destruct (decide (i = 0)) as [-> | Hne].
    + apply lookup_singleton_eq.
    + now apply lookup_singleton_ne.
Qed.

Lemma splitByGPU_keeps_last_line_witness :
  splitByGPU NewParser repeated_device !! 0
  = Some "0  47.0°C  122.0W  52%  82%"%string /\
  splitByGPU NewParser "no device here" !! 0 = Some "no device here"%string.
Proof.
  split.
  - rewrite (proj1 (splitByGPU_keeps_last_line NewParser repeated_device 0)).
    + vm_compute. reflexivity.
    + vm_compute. discriminate.
  - rewrite (proj2 (splitByGPU_keeps_last_line NewParser "no device here" 0)).
    + reflexivity.
    + vm_compute. reflexivity.
Defined.

(** X2. The records of a parsed sample carry pairwise different
    indexes: there is one record for each index that has a section, and
    no other. *)
Theorem parsed_records_one_per_index
    (p : Parser) (now : Time) (o : MapOrder) (output : string) (data : RocmData) :
  ParseRocmSMIOutput p now o output = Ok data ->
  NoDup (List.map ID (GPUs data)) /\
  length (GPUs data) = size (splitByGPU p output) /\
  (forall i, In i (List.map ID (GPUs data)) <-> is_Some (splitByGPU p output !! i)) /\
  Timestamp data = now.
Proof.
  intros Hparse.
  assert (Hne : output <> ""%string) by (intros ->; discriminate Hparse).
  rewrite ParseRocmSMIOutput_sections in Hparse by assumption.
  injection Hparse as <-. cbn [GPUs Timestamp].
  assert (Hids : List.map ID
            (List.map (parseSection p output (vramTotalMap p output) (vramUsedMap p output))
               (range o (splitByGPU p output)))
          = List.map fst (range o (splitByGPU p output))).
  { rewrite List.map_map. apply List.map_ext. intros [i l].
    apply (parseSection_read_from p output i l). }
  assert (Hperm : List.map fst (range o (splitByGPU p output))
                  ≡ₚ List.map fst (map_to_list (splitByGPU p output))).
  { apply Permutation_map. unfold range. apply visit_perm. }
  rewrite Hids. repeat split.
  - rewrite Hperm. apply NoDup_fst_map_to_list.
  - now rewrite length_map, range_length.
  - intros Hin. apply list_elem_of_In in Hin. rewrite Hperm in Hin.
    apply list_elem_of_fmap in Hin as ([k v] & -> & Hin).
    apply elem_of_map_to_list in Hin. now exists v.
  - intros [v Hv]. apply list_elem_of_In. rewrite Hperm.
    apply list_elem_of_fmap. exists (i, v). split; [reflexivity |].
    now apply elem_of_map_to_list.
Qed.

Lemma parsed_records_one_per_index_witness :
  exists data,
    ParseRocmSMIOutput NewParser 7 descending repeated_device = Ok data /\
    NoDup (List.map ID (GPUs data)) /\
    length (GPUs data) = 2%nat.
Proof.
  eexists. split; [vm_compute; reflexivity |].
  match goal with
  | |- NoDup (List.map ID (GPUs ?d)) /\ _ =>
      pose proof (parsed_records_one_per_index NewParser 7 descending repeated_device d
                    ltac:(vm_compute; reflexivity)) as (Hnd & Hlen & _)
  end.
  split; [exact Hnd |]. rewrite Hlen. vm_compute. reflexivity.
Defined.

(** ** What a validation error says *)

Lemma validate_gpus_passes gpus : forall k,
  validate_gpus k gpus = None <-> Forall device_passes gpus.
Proof.
  induction gpus as [| g rest IH]; intros k; cbn [validate_gpus].
  - split; [constructor | reflexivity].
  - assert (Hfail : forall A : Prop, Forall device_passes (g :: rest) ->
                (out_of 0 150 (Temperature g) = true \/ out_of 0 1000 (Power g) = true \/
                 out_of 0 100 (GPUUsage g) = true) -> A).
    { intros A H Hbad. inversion H as [| ? ? (Ht & Hp & Hu) _]. exfalso.
      destruct Hbad as [Hbad | [Hbad | Hbad]]; congruence. }
    destruct (out_of 0 150 (Temperature g)) eqn:Ht;
      [split; [discriminate | intros H; apply (Hfail _ H); auto] |].
    destruct (out_of 0 1000 (Power g)) eqn:Hp;
      [split; [discriminate | intros H; apply (Hfail _ H); auto] |].
    destruct (out_of 0 100 (GPUUsage g)) eqn:Hu;
      [split; [discriminate | intros H; apply (Hfail _ H); auto] |].
    rewrite IH. split.
    + intros H. constructor; [unfold device_passes; auto | exact H].
    + intros H. now inversion H.
Qed.

Lemma validate_gpus_first gpus : forall k e,
  validate_gpus k gpus = Some e ->
  exists before g after,
    gpus = before ++ g :: after /\ Forall device_passes before /\
    ((e = InvalidTemperature (k + length before) (Temperature g) /\
      out_of 0 150 (Temperature g) = true) \/
     (e = InvalidPower (k + length before) (Power g) /\
      out_of 0 150 (Temperature g) = false /\ out_of 0 1000 (Power g) = true) \/
     (e = InvalidGPUUsage (k + length before) (GPUUsage g) /\
      out_of 0 150 (Temperature g) = false /\ out_of 0 1000 (Power g) = false /\
      out_of 0 100 (GPUUsage g) = true)).
Proof.
  induction gpus as [| g rest IH]; intros k e; cbn [validate_gpus]; [discriminate |].
  destruct (out_of 0 150 (Temperature g)) eqn:Ht.
  { intros [= <-]. exists [], g, rest. cbn [length app]. rewrite Nat.add_0_r.
    split; [reflexivity | split; [constructor | left; auto]]. }
  destruct (out_of 0 1000 (Power g)) eqn:Hp.
  { intros [= <-]. exists [], g, rest. cbn [length app]. rewrite Nat.add_0_r.
    split; [reflexivity | split; [constructor | right; left; auto]]. }
  destruct (out_of 0 100 (GPUUsage g)) eqn:Hu.
  { intros [= <-]. exists [], g, rest. cbn [length app]. rewrite Nat.add_0_r.
    split; [reflexivity | split; [constructor | right; right; auto]]. }
  intros He. apply IH in He as (before & g' & after & -> & Hbefore & Hcase).
  exists (g :: before), g', after. cbn [length].
  replace (k + S (length before))%nat with (S k + length before)%nat by lia.
  split; [reflexivity | split; [| exact Hcase]].
  constructor; [unfold device_passes; auto | exact Hbefore].
Qed.

(** X3. An error of [Validate] names the first failing check of the
    first failing device: the index it carries is the position of that
    device in the list, the value is the field that failed, the devices
    before it pass all three checks and so do the checks that come
    before on the device itself. The CPU error is returned only when
    every device passes. *)
Theorem Validate_names_first_failure (d : RocmData) (e : error) :
  Validate d = Some e -> explains d e.
Proof.
  unfold Validate. destruct (GPUs d) as [| g rest] eqn:Hg.
  - intros [= <-]. exact Hg.
  - change (Nat.eqb (length (g :: rest)) 0) with false. cbv iota.
    destruct (validate_gpus 0 (g :: rest)) as [e' |] eqn:Hv.
    + intros [= <-].
      apply validate_gpus_first in Hv as (before & g' & after & Heq & Hbefore & Hcase).
      cbn [Nat.add] in Hcase.
      destruct Hcase as [[-> Ht] | [(-> & Ht & Hp) | (-> & Ht & Hp & Hu)]];
        cbn [explains]; rewrite Hg; exists before, g', after; auto 10.
    + apply validate_gpus_passes in Hv.
      destruct (out_of 0 100 (CPUUsage d)) eqn:Hc; [| discriminate].
      intros [= <-]. cbn [explains]. rewrite Hg. auto.
Qed.

Lemma Validate_names_first_failure_witness :
  explains second_device_hot (InvalidTemperature 1 (Float64.of_Z 200)).
Proof.
  apply Validate_names_first_failure. vm_compute. reflexivity.
Defined.

(** ** Rounds of the collector *)

Lemma store_validated c data :
  validated (history c) -> Validate data = None ->
  validated (history (fst (store c data))).
Proof.
  intros Hh Hd. unfold validated in *.
  assert (Happ : Forall (fun d => Validate d = None) (history c ++ [data]))
    by (apply Forall_app; split; [exact Hh | now constructor]).
  unfold store, slice_from.
  destruct (_ >? _); [destruct (_ && _) |]; cbn [fst history set_history];
    try exact Happ.
  now apply Forall_drop.
Qed.

Lemma collect_validated c rt w :
  validated (history c) ->
  validated (history (collector' (collect c rt w))) /\
  validated (stored_samples [exit (collect c rt w)]).
Proof.
  intros Hh. unfold collect.
  destruct (smi w) as [output | err]; [| split; [exact Hh | constructor]].
  destruct (ParseRocmSMIOutput _ _ _ _) as [data | err];
    [| split; [exact Hh | constructor]].
  destruct (GetCPUUsage _ _) as [[cpuUsage cpuErr] lastStats].
  destruct cpuErr as [err |].
  - destruct (Validate _) as [err' |] eqn:Hv; [split; [exact Hh | constructor] |].
    pose proof (store_validated c _ Hh Hv) as Hs.
    destruct (store c _) as [c' []]; cbn in *; split; try exact Hs;
      repeat constructor; exact Hv.
  - destruct (Validate _) as [err' |] eqn:Hv; [split; [exact Hh | constructor] |].
    pose proof (store_validated c _ Hh Hv) as Hs.
    destruct (store c _) as [c' []]; cbn in *; split; try exact Hs;
      repeat constructor; exact Hv.
Qed.

(** X4. The history only ever holds samples that passed [Validate]:
    a run of rounds on a collector whose history is validated, such as a
    new one, ends with a validated history. In particular every sample
    of the history has at least one device, and the temperature, power
    and usage of each device pass the checks. *)
Theorem history_holds_validated_samples (c : Collector) (rt : Runtime) (ws : list World) :
  validated (history c) ->
  let '(c', _, exits) := collectLoop c rt ws in
  validated (history c') /\
  validated (stored_samples exits) /\
  (forall d, In d (history c') ->
     GPUs d <> [] /\ Forall device_passes (GPUs d) /\ out_of 0 100 (CPUUsage d) = false).
Proof.
  revert c rt. induction ws as [| w ws IH]; intros c rt Hh; cbn [collectLoop].
  - split; [exact Hh | split; [constructor |]].
    intros d Hin. unfold validated in Hh. rewrite Forall_forall in Hh.
    specialize (Hh d (proj2 (list_elem_of_In _ _) Hin)).
    unfold Validate in Hh. destruct (GPUs d) as [| g rest] eqn:Hg; [discriminate |].
    change (Nat.eqb (length (g :: rest)) 0) with false in Hh. cbv iota in Hh.
    destruct (validate_gpus 0 (g :: rest)) eqn:Hv; [discriminate |].
    apply validate_gpus_passes in Hv.
    destruct (out_of 0 100 (CPUUsage d)); [discriminate |]. auto.
  - destruct (collect_validated c rt w Hh) as [Hc Hs].
    specialize (IH (collector' (collect c rt w)) (runtime' (collect c rt w)) Hc).
    destruct (collectLoop _ _ ws) as [[c' rt'] exits].
    destruct IH as (IH1 & IH2 & IH3). split; [exact IH1 | split; [| exact IH3]].
    unfold validated, stored_samples in *. cbn [omap list_omap] in *.
    destruct (exit (collect c rt w)); try exact IH2.
    constructor; [now inversion Hs | exact IH2].
Qed.

Lemma history_holds_validated_samples_witness :
  let '(c0, rt0) := NewCollector config2 runtime0 in
  let '(c', _, exits) :=
    collectLoop c0 rt0 [world_of 1 good_line; world_of 2 hot_line; world_of 3 good_line] in
  validated (history c') /\ length (history c') = 2%nat.
Proof.
  pose proof (history_holds_validated_samples
                (fst (NewCollector config2 runtime0)) (snd (NewCollector config2 runtime0))
                [world_of 1 good_line; world_of 2 hot_line; world_of 3 good_line]
                (Forall_nil_2 _)) as H.
  cbn [NewCollector WithCancel fst snd] in *.
  destruct (collectLoop _ _ _) as [[c' rt'] exits] eqn:Hrun.
  split; [exact (proj1 H) |].
  vm_compute in Hrun. injection Hrun as <- _ _. reflexivity.
Defined.

Lemma combine_empty output extra :
  combine output extra = ""%string <-> output = ""%string /\ exists e, extra = Err e.
Proof.
  unfold combine. destruct extra as [more | e].
  - split; [| intros [_ [e He]]; discriminate].
    destruct output; discriminate.
  - split; [intros ->; eauto | tauto].
Qed.

Lemma ParseRocmSMIOutput_error p now o output e :
  ParseRocmSMIOutput p now o output = Err e <-> e = EmptyOutput /\ output = ""%string.
Proof.
  split.
  - intros He. destruct (String.eqb_spec output "") as [-> | Hne].
    + now inversion He.
    + rewrite ParseRocmSMIOutput_sections in He by assumption. discriminate.
  - intros [-> ->]. reflexivity.
Qed.

(** X5. A round stops at the execution exactly when [rocm-smi] fails,
    and at the parsing exactly when [rocm-smi] prints nothing and both
    supplementary commands fail (the error being the one for an empty
    output). In both cases the collector and the package state are
    untouched and one error goes to the callback, none if the callback
    is nil. No round calls the callback more than twice. *)
Theorem failed_round_changes_nothing (c : Collector) (rt : Runtime) (w : World) :
  (exit (collect c rt w) = ExecutionFailed <-> exists err, smi w = Err err) /\
  (forall e, exit (collect c rt w) = ParsingFailed e <->
     e = EmptyOutput /\ smi w = Ok ""%string /\
     (exists e1, smi_vram w = Err e1) /\ (exists e2, smi_clock w = Err e2)) /\
  (exit (collect c rt w) = ExecutionFailed \/
   (exists e, exit (collect c rt w) = ParsingFailed e) ->
     collector' (collect c rt w) = c /\ runtime' (collect c rt w) = rt /\
     length (reported (collect c rt w)) = if errorCallback c then 1%nat else 0%nat) /\
  (length (reported (collect c rt w)) <= 2)%nat /\
  (errorCallback c = false -> reported (collect c rt w) = []).
Proof.
  unfold collect, report.
  destruct (smi w) as [output | err] eqn:Hsmi.
  - destruct (ParseRocmSMIOutput _ _ _ _) as [data | err] eqn:Hparse.
    + assert (Hne : ~ (output = ""%string /\
                       (exists e1, smi_vram w = Err e1) /\ exists e2, smi_clock w = Err e2)).
      { intros (-> & Hv & Hc).
        assert (Hcomb : combine (combine "" (smi_vram w)) (smi_clock w) = ""%string)
          by (apply combine_empty; split; [apply combine_empty; auto | exact Hc]).
        rewrite Hcomb in Hparse. discriminate. }
      destruct (GetCPUUsage _ _) as [[cpuUsage cpuErr] lastStats].
      destruct cpuErr as [err |], (Validate _) as [err' |];
        try destruct (store c _) as [c' []]; cbn;
        (split; [split; [discriminate | intros [? ?]; discriminate] |]);
        (split; [intros e; split; [discriminate |];
                 intros (_ & [= ->] & Hv & Hc); exfalso; apply Hne; auto |]);
        (split; [intros [? | [? ?]]; discriminate |]);
        destruct (errorCallback c); cbn; split; try lia; try reflexivity; discriminate.
    + apply ParseRocmSMIOutput_error in Hparse as [-> Hcomb].
      apply combine_empty in Hcomb as [Hcomb Hc].
      apply combine_empty in Hcomb as [-> Hv]. cbn.
      split; [split; [discriminate | intros [? ?]; discriminate] |].
      split; [intros e; split; [intros [= <-]; auto | intros (-> & _); reflexivity] |].
      split; [intros _; destruct (errorCallback c); auto |].
      destruct (errorCallback c); cbn; split; try lia; try reflexivity; discriminate.
  - cbn. split; [split; [eauto | reflexivity] |].
    split; [intros e; split; [discriminate | intros (_ & ? & _); discriminate] |].
    split; [intros _; destruct (errorCallback c); auto |].
    destruct (errorCallback c); cbn; split; try lia; try reflexivity; discriminate.
Qed.

Lemma failed_round_changes_nothing_witness :
  let c := fst (NewCollector config0 runtime0) in
  let r := collect c runtime0 (world_of 7 "") in
  exit r = ParsingFailed EmptyOutput /\
  collector' r = c /\ runtime' r = runtime0 /\ length (reported r) = 1%nat.
Proof.
  cbv zeta.
  assert (He : exit (collect (fst (NewCollector config0 runtime0)) runtime0 (world_of 7 ""))
               = ParsingFailed EmptyOutput).
  { apply (proj1 (proj2 (failed_round_changes_nothing _ _ _))).
    cbn. eauto 10. }
  split; [exact He |].
  pose proof (proj1 (proj2 (proj2 (failed_round_changes_nothing _ _ _)))
                (or_intror (ex_intro _ _ He))) as (Hc & Hr & Hl).
  split; [exact Hc | split; [exact Hr | exact Hl]].
Defined.

(** X6. Clearing empties the history and keeps the capacity: right
    after it the latest sample is missing, and the history of any later
    run is made of the samples appended since the clearing, the most
    recent [maxHistory] of them. *)
Theorem ClearHistory_restarts_history (c : Collector) (rt : Runtime) (ws : list World) :
  0 < maxHistory c ->
  history (ClearHistory c) = [] /\
  maxHistory (ClearHistory c) = maxHistory c /\
  GetLatest (ClearHistory c) = Err NoDataAvailable /\
  let '(c', _, exits) := collectLoop (ClearHistory c) rt ws in
  maxHistory c' = maxHistory c /\
  history c' = most_recent (Z.to_nat (maxHistory c)) (stored_samples exits).
Proof.
  intros Hpos. repeat split.
  exact (collectLoop_history ws (ClearHistory c) rt [] Hpos eq_refl).
Qed.

Lemma ClearHistory_restarts_history_witness :
  let c := collector_with [sample_at 1; sample_at 2] in
  let '(c', _, _) :=
    collectLoop (ClearHistory c) runtime0 [world_of 3 good_line; world_of 4 hot_line] in
  GetLatest (ClearHistory c) = Err NoDataAvailable /\
  List.map Timestamp (history c') = [3].
Proof.
  pose proof (ClearHistory_restarts_history (collector_with [sample_at 1; sample_at 2])
                runtime0 [world_of 3 good_line; world_of 4 hot_line]
                ltac:(vm_compute; reflexivity)) as (_ & _ & Hlatest & Hrun).
  cbv zeta.
  destruct (collectLoop _ _ _) as [[c' rt'] exits] eqn:Heq.
  split; [exact Hlatest |].
  destruct Hrun as [_ ->].
  vm_compute in Heq. injection Heq as _ _ <-. vm_compute. reflexivity.
Defined.

(** ** Contexts and loops *)

(** X7. On a collector whose context exists, [SetInterval] with a
    positive duration cancels the current context, gives the collector a
    new context that is not cancelled, and starts one more loop; so it
    also restarts a collector that had been stopped. [NewCollector]
    returns a collector whose context exists and is not cancelled, and
    [Stop] cancels the context without touching the collector. *)
Theorem SetInterval_installs_fresh_context (c : Collector) (rt : Runtime) (d : Duration) :
  runtime_ok c rt -> 0 < d ->
  (let '(c', rt') := SetInterval c rt d in
   runtime_ok c' rt' /\
   ctx c ∈ cancelled rt' /\
   (ctx c' ∉ cancelled rt') /\
   ctx c' <> ctx c /\
   loops rt' = S (loops rt) /\
   cancelled rt ⊆ cancelled rt' /\
   ctx c ∈ cancelled (Stop c rt) /\
   runtime_ok c (Stop c rt)).
Proof.
  intros (Hctx & Hcancel & Hold) Hd. unfold SetInterval.
  rewrite (proj2 (Z.leb_gt d 0) Hd). cbn. rewrite Hcancel.
  unfold runtime_ok. cbn. rewrite Hcancel.
  assert (Hin : forall k, k ∈ {[ctx c]} ∪ cancelled rt -> (k < contexts rt)%nat).
  { intros k Hk. apply elem_of_union in Hk as [Hk | Hk].
    - apply elem_of_singleton in Hk as ->. exact Hctx.
    - now apply Hold. }
  repeat split; try lia;
    try (apply elem_of_union; left; apply elem_of_singleton; reflexivity).
  - intros k Hk. specialize (Hin k Hk). lia.
  - intros Hk. specialize (Hin _ Hk). lia.
  - apply union_subseteq_r.
  - exact Hin.
Qed.

Lemma NewCollector_runtime_ok config rt :
  (forall k, k ∈ cancelled rt -> (k < contexts rt)%nat) ->
  (let '(c, rt') := NewCollector config rt in
   runtime_ok c rt' /\ (ctx c ∉ cancelled rt') /\ history c = [] /\ 0 < interval c).
Proof.
  intros Hold. unfold NewCollector, WithCancel, runtime_ok. cbn.
  repeat split; try lia.
  - intros k Hk. specialize (Hold k Hk). lia.
  - intros Hin. specialize (Hold _ Hin). lia.
  - destruct (Z.leb_spec (Interval config) 0); unfold Second; lia.
Qed.

Lemma SetInterval_installs_fresh_context_witness :
  let c := fst (NewCollector config0 runtime0) in
  let rt := Stop c (snd (NewCollector config0 runtime0)) in
  let '(c', rt') := SetInterval c rt (2 * Second) in
  ctx c ∈ cancelled rt /\ (ctx c' ∉ cancelled rt') /\ loops rt' = 1%nat.
Proof.
  pose proof (SetInterval_installs_fresh_context
                (fst (NewCollector config0 runtime0))
                (Stop (fst (NewCollector config0 runtime0)) (snd (NewCollector config0 runtime0)))
                (2 * Second)) as H.
  cbv zeta.
  destruct (SetInterval _ _ _) as [c' rt'] eqn:Heq.
  destruct H as (_ & _ & Hfresh & _ & Hloops & _).
  - unfold runtime_ok. cbn. repeat split; try lia.
    intros k Hk. apply elem_of_union in Hk as [Hk | Hk]; [| set_solver].
    apply elem_of_singleton in Hk as ->. lia.
  - reflexivity.
  - split; [cbn; set_solver | split; [exact Hfresh | exact Hloops]].
Defined.

(** ** Statistics *)

Lemma add_device_count gpus : forall t,
  count (fold_left add_device gpus t) = count t + Z.of_nat (length gpus).
Proof.
  induction gpus as [| g gpus IH]; intros t; cbn [fold_left length].
  - lia.
  - rewrite IH. cbn [add_device count]. lia.
Qed.

Lemma add_sample_total h : forall t,
  count (fold_left add_sample h t)
  = count t + Z.of_nat (length (List.concat (List.map GPUs h))).
Proof.
  induction h as [| d h IH]; intros t; cbn [fold_left List.map List.concat].
  - cbn [length]. lia.
  - rewrite IH. unfold add_sample. rewrite add_device_count, List.length_app. lia.
Qed.

Lemma some_device_iff (h : list RocmData) :
  (0 < length (List.concat (List.map GPUs h)))%nat <-> exists d, In d h /\ GPUs d <> [].
Proof.
  induction h as [| d h IH]; cbn [List.map List.concat].
  - cbn [length]. split; [lia | intros (d & [] & _)].
  - rewrite List.length_app. split.
    + intros Hpos. destruct (GPUs d) as [| g gpus] eqn:Hg.
      * cbn [length] in Hpos. destruct (proj1 IH) as (d' & Hin & Hne); [lia |].
        exists d'. split; [now right | exact Hne].
      * exists d. split; [now left | rewrite Hg; discriminate].
    + intros (d' & [<- | Hin] & Hne).
      * destruct (GPUs d); [congruence |]. cbn [length]. lia.
      * assert (Hex : exists d, In d h /\ GPUs d <> []) by eauto.
        apply IH in Hex. lia.
Qed.

Lemma add_sample_count h :
  count (fold_left add_sample h no_totals) > 0 <-> exists d, In d h /\ GPUs d <> [].
Proof.
  rewrite add_sample_total, <- some_device_iff. cbn [count no_totals]. lia.
Qed.

Ltac stats_lookup :=
  repeat first [ rewrite lookup_insert_eq | rewrite lookup_insert_ne by discriminate
               | rewrite lookup_empty ].


Lemma GetStats_cases (c : Collector) :
  let base : gmap string value :=
    <["interval_seconds"%string := VFloat (Seconds (interval c))]>
      (<["max_history"%string := VInt (maxHistory c)]>
         (<["history_size"%string := VInt (Z.of_nat (length (history c)))]> ∅)) in
  (history c = [] /\ GetStats c = base) \/
  (exists oldest rest newest,
     history c = oldest :: rest /\ last (history c) = Some newest /\
     let bounds : gmap string value :=
       <["newest_timestamp"%string := VTime (Timestamp newest)]>
         (<["oldest_timestamp"%string := VTime (Timestamp oldest)]> base) in
     ((~ (exists d, In d (history c) /\ GPUs d <> []) /\ GetStats c = bounds) \/
      ((exists d, In d (history c) /\ GPUs d <> []) /\
       exists a1 a2 a3 a4,
         GetStats c
         = <["avg_vram_usage"%string := VFloat a4]>
             (<["avg_gpu_usage"%string := VFloat a3]>
                (<["avg_power"%string := VFloat a2]>
                   (<["avg_temperature"%string := VFloat a1]> bounds)))))).
Proof.
  cbv zeta. unfold GetStats.
  pose proof (add_sample_count (history c)) as Hcount.
  destruct (history c) as [| oldest rest] eqn:Hh; [left; auto |].
  right. destruct (last (oldest :: rest)) as [newest |] eqn:Hl;
    [| apply last_None in Hl; discriminate].
  exists oldest, rest, newest. split; [reflexivity | split; [reflexivity |]].
  destruct (Z.gtb_spec (count (fold_left add_sample (oldest :: rest) no_totals)) 0)
    as [Hpos | Hzero].
  - right. split; [apply Hcount; lia |]. eauto.
  - left. split; [| reflexivity]. intros Hex. apply Hcount in Hex. lia.
Qed.

(** X8. The statistics always give the size of the history and the
    capacity. The oldest and newest timestamps are present exactly when
    the history is not empty, and are those of its first and last sample.
    The four averages are present together, exactly when some sample of
    the history has a device. *)
Theorem GetStats_describes_history (c : Collector) :
  GetStats c !! "history_size"%string = Some (VInt (Z.of_nat (length (history c)))) /\
  GetStats c !! "max_history"%string = Some (VInt (maxHistory c)) /\
  (history c = [] ->
     GetStats c !! "oldest_timestamp"%string = None /\
     GetStats c !! "newest_timestamp"%string = None) /\
  (forall oldest rest newest,
     history c = oldest :: rest -> last (history c) = Some newest ->
     GetStats c !! "oldest_timestamp"%string = Some (VTime (Timestamp oldest)) /\
     GetStats c !! "newest_timestamp"%string = Some (VTime (Timestamp newest))) /\
  (forall k, In k ["avg_temperature"; "avg_power"; "avg_gpu_usage"; "avg_vram_usage"]%string ->
     (is_Some (GetStats c !! k) <-> exists d, In d (history c) /\ GPUs d <> [])).
Proof.
  destruct (GetStats_cases c) as
    [[Hh ->] | (oldest & rest & newest & Hh & Hl & [[Hno ->] | (Hsome & a1 & a2 & a3 & a4 & ->)])];
    cbv zeta.
  - split; [stats_lookup; reflexivity |]. split; [stats_lookup; reflexivity |].
    split; [intros _; stats_lookup; auto |]. split; [congruence |].
    intros k Hk. split.
    + intros [v Hv]. exfalso. cbn in Hk.
      destruct Hk as [<- | [<- | [<- | [<- | []]]]]; revert Hv; stats_lookup; discriminate.
    + rewrite Hh. intros (d & [] & _).
  - split; [stats_lookup; reflexivity |]. split; [stats_lookup; reflexivity |].
    split; [congruence |]. split.
    { intros o r n Ho Hn. rewrite Hh in Ho. rewrite Hl in Hn.
      injection Ho as <- <-. injection Hn as <-. stats_lookup. auto. }
    intros k Hk. split; [| intros Hex; contradiction].
    intros [v Hv]. exfalso. cbn in Hk.
    destruct Hk as [<- | [<- | [<- | [<- | []]]]]; revert Hv; stats_lookup; discriminate.
  - split; [stats_lookup; reflexivity |]. split; [stats_lookup; reflexivity |].
    split; [congruence |]. split.
    { intros o r n Ho Hn. rewrite Hh in Ho. rewrite Hl in Hn.
      injection Ho as <- <-. injection Hn as <-. stats_lookup. auto. }
    intros k Hk. split; [intros _; exact Hsome | intros _].
    cbn in Hk. destruct Hk as [<- | [<- | [<- | [<- | []]]]]; stats_lookup; eauto.
Qed.

Lemma GetStats_describes_history_witness :
  let c := collector_with [sample_at 1; sample_at 2; sample_at 3] in
  GetStats c !! "oldest_timestamp"%string = Some (VTime 1) /\
  GetStats c !! "newest_timestamp"%string = Some (VTime 3) /\
  is_Some (GetStats c !! "avg_power"%string) /\
  GetStats (ClearHistory c) !! "oldest_timestamp"%string = None.
Proof.
  cbv zeta.
  pose proof (GetStats_describes_history
                (collector_with [sample_at 1; sample_at 2; sample_at 3]))
    as (_ & _ & _ & Hbounds & Havg).
  pose proof (GetStats_describes_history
                (ClearHistory (collector_with [sample_at 1; sample_at 2; sample_at 3])))
    as (_ & _ & Hempty & _).
  destruct (Hbounds (sample_at 1) [sample_at 2; sample_at 3] (sample_at 3) eq_refl eq_refl)
    as [Ho Hn].
  split; [exact Ho | split; [exact Hn | split]].
  - apply Havg; [cbn; auto |]. exists (sample_at 1). split; [now left | discriminate].
  - apply Hempty. reflexivity.
Defined.

(** X9. The statistics hold no key besides the nine that [GetStats]
    sets. In particular the five keys that [ExportPrometheus] looks up
    for its monitoring health metrics are never present, so these
    metrics are always written as 0. *)
Theorem GetStats_has_no_monitor_keys (c : Collector) :
  (forall k, is_Some (GetStats c !! k) -> In k stats_keys) /\
  (forall k, In k monitor_keys -> GetStats c !! k = None).
Proof.
  assert (Hkeys : forall k, is_Some (GetStats c !! k) -> In k stats_keys).
  { intros k.
    destruct (GetStats_cases c) as
      [[Hh ->] | (oldest & rest & newest & Hh & Hl &
                  [[Hno ->] | (Hsome & a1 & a2 & a3 & a4 & ->)])];
      cbv zeta; rewrite ?lookup_insert_is_Some, lookup_empty; unfold stats_keys;
      intros H; cbn [In];
      repeat match type of H with
             | _ \/ _ => destruct H as [H | H]
             | _ /\ _ => destruct H as [_ H]
             end;
      try (subst k; tauto); destruct H as [? H]; discriminate H. }
  split; [exact Hkeys |].
  intros k Hk. destruct (GetStats c !! k) as [v |] eqn:Hv; [| reflexivity].
  exfalso. assert (Hin : In k stats_keys) by (apply Hkeys; eauto).
  unfold monitor_keys, stats_keys in *. cbn [In] in *.
  repeat match goal with
         | H : _ \/ _ |- _ => destruct H as [H | H]
         end; try contradiction; subst k; discriminate.
Qed.

Lemma GetStats_has_no_monitor_keys_witness :
  GetStats (collector_with [sample_at 1]) !! "uptime_seconds"%string = None.
Proof.
  apply (proj2 (GetStats_has_no_monitor_keys _)). cbn. auto 10.
Defined.

(** ** Health *)

Lemma GetLatest_snoc c h data : history c = h ++ [data] -> GetLatest c = Ok data.
Proof.
  intros Hh. unfold GetLatest. rewrite Hh, last_snoc, length_app. cbn [length].
  now replace (length h + 1)%nat with (S (length h)) by lia.
Qed.

(** X10. The health check answers 503 "unhealthy", with the no-data
    error, exactly when the history is empty; otherwise it answers 200
    "healthy" with the number of devices of the last sample, which is at
    least 1 when the history is validated. *)
Theorem healthHandler_reflects_history (c : Collector) (now : Time) :
  (StatusCode (healthHandler c now) = 503 <-> history c = []) /\
  (history c = [] ->
     Status (healthHandler c now) = "unhealthy"%string /\
     HealthError (healthHandler c now) = Some NoDataAvailable) /\
  (forall h data, history c = h ++ [data] ->
     StatusCode (healthHandler c now) = 200 /\
     Status (healthHandler c now) = "healthy"%string /\
     HealthError (healthHandler c now) = None /\
     GPUCount (healthHandler c now) = Z.of_nat (length (GPUs data))) /\
  (validated (history c) -> history c <> [] -> 1 <= GPUCount (healthHandler c now)).
Proof.
  assert (Hsnoc : forall h data, history c = h ++ [data] ->
            healthHandler c now
            = {| StatusCode := 200; Status := "healthy"; HealthTimestamp := now;
                 GPUCount := Z.of_nat (length (GPUs data)); HealthError := None |}).
  { intros h data Hh. unfold healthHandler. now rewrite (GetLatest_snoc c h data Hh). }
  assert (Hnil : history c = [] ->
            healthHandler c now
            = {| StatusCode := 503; Status := "unhealthy"; HealthTimestamp := now;
                 GPUCount := 0; HealthError := Some NoDataAvailable |}).
  { intros Hh. unfold healthHandler, GetLatest. now rewrite Hh. }
  split; [| split; [| split]].
  - split.
    + intros Hcode. destruct (decide (history c = [])) as [Hh | Hne]; [exact Hh |].
      destruct (exists_last Hne) as (h' & data & Heq).
      rewrite (Hsnoc _ _ Heq) in Hcode. discriminate.
    + intros Hh. now rewrite (Hnil Hh).
  - intros Hh. now rewrite (Hnil Hh).
  - intros h data Hh. now rewrite (Hsnoc _ _ Hh).
  - intros Hv Hne.
    destruct (exists_last Hne) as (h & data & Heq).
    rewrite (Hsnoc _ _ Heq). cbn [GPUCount].
    unfold validated in Hv. rewrite Heq, Forall_app, Forall_singleton in Hv.
    destruct Hv as [_ Hv]. unfold Validate in Hv.
    destruct (GPUs data); [discriminate | cbn [length]; lia].
Qed.

Lemma healthHandler_reflects_history_witness :
  StatusCode (healthHandler (collector_with []) 9) = 503 /\
  GPUCount (healthHandler (collector_with [sample_at 1; sample_at 2]) 9) = 1 /\
  1 <= GPUCount (healthHandler (collector_with [sample_at 1; sample_at 2]) 9).
Proof.
  split; [| split].
  - apply (proj1 (healthHandler_reflects_history _ _)). reflexivity.
  - apply (proj1 (proj2 (proj2 (healthHandler_reflects_history
             (collector_with [sample_at 1; sample_at 2]) 9))) [sample_at 1] (sample_at 2)).
    reflexivity.
  - apply (proj2 (proj2 (proj2 (healthHandler_reflects_history _ _)))).
    + repeat constructor.
    + discriminate.
Defined.

(** ** The windowed export *)

Lemma ExportHistorySubset_cases c now d format :
  - 2 ^ 63 < d ->
  ExportHistorySubset c now d format
  = match history c, List.filter (younger now d) (history c) with
    | [], _ => NoDataToExport
    | _ :: _, [] => NoDataInRange
    | _ :: _, filtered =>
        if String.eqb format "csv" then ByExportCSV filtered
        else if String.eqb format "json" then ByExportJSON filtered
        else if String.eqb format "prometheus" then ByExportPrometheus filtered
        else UnsupportedFormat format
    end.
Proof.
  intros Hd. unfold ExportHistorySubset, GetHistory.
  rewrite (List.filter_ext _ (younger now d) (fun data => After_cutoff_younger now d data Hd)).
  destruct (history c) as [| x h]; [reflexivity |].
  change (Nat.eqb (length (x :: h)) 0) with false. cbv iota.
  now destruct (List.filter (younger now d) (x :: h)).
Qed.

(** X13. For a duration above the least [int64], the windowed export
    fails on an empty history whatever the format, and on a window that
    holds no sample before it looks at the format. The history it hands
    to the exporter of a known format is never empty and is exactly the
    sequence that [statsHandler] hands to its encoder for the same
    window, whatever the encoder does with it; an unknown format is
    reported only when the window holds a sample. *)
Theorem ExportHistorySubset_agrees_with_window
    (c : Collector) (now : Time) (d : Duration) (format : string) :
  - 2 ^ 63 < d ->
  let encodes filtered :=
    forall Encode, statsHandler Encode c now (Some d) = respond Encode filtered in
  (history c = [] -> ExportHistorySubset c now d format = NoDataToExport) /\
  (history c <> [] -> encodes [] ->
     ExportHistorySubset c now d format = NoDataInRange) /\
  (forall filtered,
     ExportHistorySubset c now d format = ByExportCSV filtered \/
     ExportHistorySubset c now d format = ByExportJSON filtered \/
     ExportHistorySubset c now d format = ByExportPrometheus filtered ->
     filtered <> [] /\ encodes filtered) /\
  (forall f, ExportHistorySubset c now d format = UnsupportedFormat f ->
     f = format /\ ~ In format ["csv"; "json"; "prometheus"]%string /\
     exists filtered, filtered <> [] /\ encodes filtered) /\
  (forall filtered, filtered <> [] -> encodes filtered ->
     ExportHistorySubset c now d "csv" = ByExportCSV filtered /\
     ExportHistorySubset c now d "json" = ByExportJSON filtered /\
     ExportHistorySubset c now d "prometheus" = ByExportPrometheus filtered).
Proof.
  intros Hd. cbv zeta. rewrite !ExportHistorySubset_cases by assumption.
  destruct (history c) as [| x h] eqn:Hh.
  - split; [reflexivity |]. split; [congruence |].
    split; [intros filtered [H | [H | H]]; discriminate |].
    split; [discriminate |].
    intros filtered Hne Hwin. specialize (Hwin (fun _ => None)).
    unfold statsHandler, GetHistory in Hwin. rewrite Hh in Hwin. discriminate.
  - assert (Hwin : forall Encode,
              statsHandler Encode c now (Some d)
              = respond Encode (List.filter (younger now d) (x :: h))).
    { intros Encode. rewrite <- Hh. apply statsHandler_window; [assumption | congruence]. }
    assert (Hsame : forall filtered,
              (forall Encode, statsHandler Encode c now (Some d) = respond Encode filtered) ->
              List.filter (younger now d) (x :: h) = filtered).
    { intros filtered H. specialize (H (fun _ => None)). rewrite Hwin in H.
      change (Json (List.filter (younger now d) (x :: h)) = Json filtered) in H.
      now injection H. }
    destruct (List.filter (younger now d) (x :: h)) as [| y kept] eqn:Hkept.
    + split; [discriminate |]. split; [reflexivity |].
      split; [intros filtered [H | [H | H]]; discriminate |].
      split; [discriminate |].
      intros filtered Hne H. apply Hsame in H. congruence.
    + split; [discriminate |].
      split; [intros _ H; apply Hsame in H; discriminate |].
      split; [| split].
      * intros filtered H.
        destruct (String.eqb format "csv"), (String.eqb format "json"),
                 (String.eqb format "prometheus");
          destruct H as [H | [H | H]]; try discriminate;
          injection H as <-; (split; [discriminate | exact Hwin]).
      * intros f H.
        destruct (String.eqb_spec format "csv"); [discriminate |].
        destruct (String.eqb_spec format "json"); [discriminate |].
        destruct (String.eqb_spec format "prometheus"); [discriminate |].
        injection H as <-. split; [reflexivity |]. split.
        -- cbn [In]. intuition congruence.
        -- exists (y :: kept). split; [discriminate | exact Hwin].
      * intros filtered _ H. apply Hsame in H. subst filtered. repeat split.
Qed.

Lemma ExportHistorySubset_agrees_with_window_witness :
  let t := 100 * Minute in
  let c := collector_with [sample_at (t - 10 * Minute); sample_at (t - 1 * Minute)] in
  ExportHistorySubset c t (5 * Minute) "json" = ByExportJSON [sample_at (t - 1 * Minute)] /\
  ExportHistorySubset (collector_with []) t (5 * Minute) "xml" = NoDataToExport.
Proof.
  cbv zeta. split.
  - apply (proj2 (proj2 (proj2 (proj2
             (ExportHistorySubset_agrees_with_window
                (collector_with [sample_at (100 * Minute - 10 * Minute);
                                 sample_at (100 * Minute - 1 * Minute)])
                (100 * Minute) (5 * Minute) "json" ltac:(vm_compute; reflexivity)))))).
    + discriminate.
    + intros Encode. reflexivity.
  - apply (proj1 (ExportHistorySubset_agrees_with_window
                    (collector_with []) (100 * Minute) (5 * Minute) "xml"
                    ltac:(vm_compute; reflexivity))).
    reflexivity.
Defined.

(** ** Host CPU usage *)

Lemma after_reads_snoc reads r lastStats :
  after_reads (reads ++ [r]) lastStats = snd (GetCPUUsage r (after_reads reads lastStats)).
Proof. unfold after_reads. now rewrite fold_left_app. Qed.

Lemma GetCPUUsage_remembers r l :
  snd (GetCPUUsage r l) = match r with Ok stats => Some stats | Err _ => l end.
Proof.
  unfold GetCPUUsage. destruct r as [stats | e]; [| reflexivity].
  destruct l as [lastStats |]; [| reflexivity].
  now destruct (Float64.eqb _ _).
Qed.

(** X11. Whatever the outcomes of a series of reads of [/proc/stat],
    the remembered reading after the calls of [GetCPUUsage] is the last
    one that succeeded (the initial one if none did): a failed read
    neither replaces nor clears it. A call reports an error exactly when
    its read failed, and then the usage is 0. *)
Theorem lastCPUStats_is_last_successful_read
    (reads : list (result CPUStats)) (lastStats : option CPUStats) :
  after_reads reads lastStats
  = match last (successful reads) with
    | Some stats => Some stats
    | None => lastStats
    end /\
  (forall r l, snd (fst (GetCPUUsage r l)) <> None <-> exists e, r = Err e) /\
  (forall r l e, snd (fst (GetCPUUsage r l)) = Some e ->
     r = Err e /\ fst (fst (GetCPUUsage r l)) = Float64.zero).
Proof.
  split; [| split].
  - induction reads as [| r reads IH] using rev_ind; [reflexivity |].
    rewrite after_reads_snoc, GetCPUUsage_remembers, IH.
    unfold successful. rewrite omap_app. cbn [omap list_omap].
    destruct r as [stats | e].
    + now rewrite last_snoc.
    + now rewrite app_nil_r.
  - intros r l. unfold GetCPUUsage. destruct r as [stats | e].
    + destruct l as [lastStats' |]; [destruct (Float64.eqb _ _) |]; cbn;
        (split; [congruence | intros [e He]; discriminate]).
    + cbn. split; [eauto | discriminate].
  - intros r l e. unfold GetCPUUsage. destruct r as [stats | e'].
    + destruct l as [lastStats' |]; [destruct (Float64.eqb _ _) |]; discriminate.
    + cbn. intros [= ->]. auto.
Qed.

Lemma lastCPUStats_is_last_successful_read_witness :
  let reading := {| Total := Float64.of_Z 1000; Idle := Float64.of_Z 400 |} in
  let failure := External "open /proc/stat: permission denied" in
  after_reads [Ok reading; Err failure] None = Some reading /\
  (Err failure = Err failure :> result CPUStats) /\
  fst (fst (GetCPUUsage (Err failure) (Some reading))) = Float64.zero.
Proof.
  cbv zeta.
  destruct (lastCPUStats_is_last_successful_read
              [Ok {| Total := Float64.of_Z 1000; Idle := Float64.of_Z 400 |};
               Err (External "open /proc/stat: permission denied")] None)
    as (Hlast & _ & Herr).
  split; [exact Hlast |].
  exact (Herr (Err (External "open /proc/stat: permission denied"))
              (Some {| Total := Float64.of_Z 1000; Idle := Float64.of_Z 400 |})
              (External "open /proc/stat: permission denied") eq_refl).
Defined.

Lemma sub_self_is_zero x :
  is_finite x = true -> Float64.eqb (Float64.sub x x) Float64.zero = true.
Proof.
  destruct x as [s | s | | s m e]; try discriminate; intros _.
  - now destruct s.
  - unfold Float64.sub, SFsub. cbv zeta. now rewrite Z.sub_diag.
Qed.

(** X12. When the total CPU time of the new reading equals that of the
    remembered one (a finite number), the usage is 0 and no error is
    reported: the division by the zero difference is not made. The new
    reading is remembered all the same. *)
Theorem GetCPUUsage_without_progress (current lastStats : CPUStats) :
  is_finite (Total lastStats) = true ->
  Total current = Total lastStats ->
  GetCPUUsage (Ok current) (Some lastStats) = (Float64.zero, None, Some current).
Proof.
  intros Hfin Heq. unfold GetCPUUsage. rewrite Heq.
  now rewrite (sub_self_is_zero _ Hfin).
Qed.

Lemma GetCPUUsage_without_progress_witness :
  let reading := {| Total := Float64.of_Z 1000; Idle := Float64.of_Z 400 |} in
  GetCPUUsage (Ok reading) (Some reading) = (Float64.zero, None, Some reading).
Proof.
  cbv zeta. apply GetCPUUsage_without_progress; reflexivity.
Defined.

(** ** Static device information *)

(** X14. The static query fails exactly when the firmware command
    fails: the five other queries never return an error, a failed command
    only puts a placeholder in their field. When it succeeds it returns
    exactly one record, of index 0 and vendor AMD. *)
Theorem GetGPUStaticInfo_fails_with_firmware (w : Commands) :
  ((exists e, GetGPUStaticInfo w = Err e) <-> exists e, showfwinfo w = Err e) /\
  (forall output, showfwinfo w = Ok output ->
     exists info,
       GetGPUStaticInfo w = Ok [info] /\
       InfoID info = 0 /\ VendorName info = "AMD"%string /\
       ProductName info = fst (getGPUProductName (showproductname w)) /\
       SerialNumber info = fst (getGPUSerialNumber (showserial w)) /\
       UniqueID info = fst (getGPUUniqueID (showuniqueid w)) /\
       VRAMVendor info = fst (getGPUVRAMVendor (showmemvendor w)) /\
       BusInfo info = fst (getGPUBusInfo (showbus w))) /\
  (forall failed cmd, snd (query failed cmd) = None) /\
  (forall failed e, fst (query failed (Err e)) = failed).
Proof.
  assert (Hnil : forall failed cmd, snd (query failed cmd) = None)
    by (intros failed [output | e]; reflexivity).
  assert (Hid : forall failed cmd, or_unknown (query failed cmd) = fst (query failed cmd))
    by (intros failed cmd; unfold or_unknown; now rewrite Hnil).
  unfold GetGPUStaticInfo, getGPUFirmwareInfo.
  split; [| split; [| split; [exact Hnil | reflexivity]]].
  - destruct (showfwinfo w) as [output | e].
    + split; intros [e He]; discriminate.
    + split; eauto.
  - intros output ->. eexists. split; [reflexivity |]. cbn.
    unfold getGPUProductName, getGPUSerialNumber, getGPUUniqueID, getGPUVRAMVendor,
      getGPUBusInfo. rewrite !Hid. repeat split.
Qed.

Lemma GetGPUStaticInfo_fails_with_firmware_witness :
  (exists e, GetGPUStaticInfo all_fail = Err e) /\
  exists info,
    GetGPUStaticInfo only_firmware = Ok [info] /\
    ProductName info = "Unknown"%string /\ SerialNumber info = "Not Available"%string.
Proof.
  split.
  - apply (proj1 (GetGPUStaticInfo_fails_with_firmware all_fail)). cbn. eauto.
  - destruct (proj1 (proj2 (GetGPUStaticInfo_fails_with_firmware only_firmware))
                firmware_output eq_refl)
      as (info & Hinfo & _ & _ & Hp & Hs & _).
    exists info. split; [exact Hinfo | split; [exact Hp | exact Hs]].
Defined.

Lemma first_field_clean lines :
  Contains (first_field lines) "Not supported" = false /\
  Contains (first_field lines) "get_" = false.
Proof.
  induction lines as [| l lines IH]; cbn [first_field]; [split; reflexivity |].
  destruct (Contains l "GPU[0]" && Contains l ":"); [| exact IH].
  destruct (SplitN2 l ":") as [| part0 [| part1 [| extra parts]]]; try exact IH.
  destruct (Contains (TrimSpace part1) "Not supported") eqn:Hns; [split; reflexivity |].
  destruct (Contains (TrimSpace part1) "get_") eqn:Hget; [split; reflexivity |].
  cbn [orb]. auto.
Qed.

Lemma first_field_unknown lines :
  Forall (fun l => Contains l "GPU[0]" && Contains l ":" = false) lines ->
  first_field lines = "Unknown"%string.
Proof.
  induction 1 as [| l lines Hl _ IH]; cbn [first_field]; [reflexivity |].
  now rewrite Hl.
Qed.

(** X15. The value of a query never holds the tool's refusals
    ["Not supported"] or ["get_"]: such a value is replaced by
    ["Not Available"]. A failed command gives the placeholder of the
    query, and an output without a line that names [GPU[0]] and holds a
    colon gives ["Unknown"]. *)
Theorem query_hides_refusals (failed : string) (cmd : result string) :
  In failed ["Unknown"; "Not Available"]%string ->
  Contains (fst (query failed cmd)) "Not supported" = false /\
  Contains (fst (query failed cmd)) "get_" = false /\
  (forall output, cmd = Ok output ->
     Forall (fun l => Contains l "GPU[0]" && Contains l ":" = false)
       (Strings.Split output newline) ->
     fst (query failed cmd) = "Unknown"%string).
Proof.
  intros Hfailed. destruct cmd as [output | e]; cbn [query fst].
  - destruct (first_field_clean (Strings.Split output newline)) as [Hns Hget].
    split; [exact Hns | split; [exact Hget |]].
    intros output' [= <-] Hall. now apply first_field_unknown.
  - cbn [In] in Hfailed.
    destruct Hfailed as [<- | [<- | []]]; (split; [reflexivity | split; [reflexivity |]]);
      discriminate.
Qed.

Lemma query_hides_refusals_witness :
  fst (getGPUSerialNumber
         (Ok (line "GPU[0] : Serial Number: Not supported on the given system")))
  = "Not Available"%string /\
  fst (getGPUBusInfo (Ok (line "no device here"))) = "Unknown"%string.
Proof.
  split; [vm_compute; reflexivity |].
  apply (proj2 (proj2 (query_hides_refusals "Not Available"
                         (Ok (line "no device here")) ltac:(cbn; auto))) _ eq_refl).
  repeat constructor.
Defined.

Lemma list_ascii_app a b :
  list_ascii_of_string (a +:+ b) = list_ascii_of_string a ++ list_ascii_of_string b.
Proof.
  induction a as [| c a IH]; [reflexivity |].
  change (c :: list_ascii_of_string (a +:+ b)
          = c :: (list_ascii_of_string a ++ list_ascii_of_string b)).
  now rewrite IH.
Qed.

Lemma cut_blank ws rest :
  blank ws -> cut (ws +:+ ":" +:+ rest) ":" = Some (ws, rest).
Proof.
  unfold blank. induction ws as [| c ws IH]; intros Hb; [reflexivity |].
  cbn in Hb. apply Forall_cons in Hb as [Hc Hb].
  change (cut (String c (ws +:+ ":" +:+ rest)) ":" = Some (String c ws, rest)).
  cbn [cut]. rewrite (IH Hb). now destruct Hc as [-> | ->].
Qed.

Lemma strip_prefix_app old l : strip_prefix old (old ++ l) = Some l.
Proof.
  induction old as [| c old IH]; [reflexivity |].
  cbn [app strip_prefix]. now rewrite Ascii.eqb_refl.
Qed.

Lemma remove_blank old0 old fuel : forall l,
  Forall (fun c => c = ascii_of_nat 9 \/ c = ascii_of_nat 32) l ->
  old0 <> ascii_of_nat 9 -> old0 <> ascii_of_nat 32 ->
  remove fuel (old0 :: old) l = l.
Proof.
  induction fuel as [| fuel IH]; intros l Hb H9 H32; [reflexivity |].
  destruct Hb as [| c l Hc Hb]; [reflexivity |].
  cbn [remove strip_prefix].
  replace (Ascii.eqb old0 c) with false
    by (symmetry; apply Ascii.eqb_neq; destruct Hc as [-> | ->]; assumption).
  now rewrite IH.
Qed.

Lemma trim_left_blank fuel : forall l,
  Forall (fun c => c = ascii_of_nat 9 \/ c = ascii_of_nat 32) l ->
  (length l <= fuel)%nat -> trim_left fuel space_runes l = [].
Proof.
  induction fuel as [| fuel IH]; intros l Hb Hlen.
  - destruct l; [reflexivity | cbn in Hlen; lia].
  - destruct Hb as [| c l Hc Hb]; [reflexivity |].
    cbn [length] in Hlen.
    assert (Hstrip : strip_one space_runes (c :: l) = Some l)
      by (destruct Hc as [-> | ->]; reflexivity).
    cbn [trim_left]. rewrite Hstrip. apply IH; [exact Hb | lia].
Qed.

Lemma TrimSpace_blank ws : blank ws -> TrimSpace ws = ""%string.
Proof.
  intros Hb. unfold TrimSpace, TrimLeft.
  now rewrite (trim_left_blank _ _ Hb (Nat.le_refl _)).
Qed.

Lemma firmware_key_of_tool_line ws :
  blank ws ->
  TrimSpace (RemoveAll (TrimSpace (RemoveAll ("GPU[0]" +:+ ws) "GPU[0]")) tab) = ""%string.
Proof.
  intros Hb.
  assert (Hremoved : RemoveAll ("GPU[0]" +:+ ws) "GPU[0]" = ws).
  { unfold RemoveAll. rewrite list_ascii_app. cbn [remove].
    rewrite strip_prefix_app.
    change (list_ascii_of_string "GPU[0]")
      with ("G"%char :: list_ascii_of_string "PU[0]").
    rewrite remove_blank by (assumption || discriminate).
    apply string_of_list_ascii_of_string. }
  rewrite Hremoved, (TrimSpace_blank _ Hb). reflexivity.
Qed.

Lemma firmware_line_tool m l rest :
  Contains l "firmware version" = true -> tool_line l rest ->
  firmware_line m l = <[""%string := TrimSpace rest]> m.
Proof.
  intros Hfw (ws & Hb & ->). unfold firmware_line. rewrite Hfw.
  unfold SplitN2.
  assert (Hcut : cut ("GPU[0]" +:+ ws +:+ ":" +:+ rest) ":"
                 = Some (("GPU[0]" +:+ ws)%string, rest)).
  { change (("GPU[0]" +:+ ws +:+ ":" +:+ rest)%string)
      with (String "G" (String "P" (String "U" (String "[" (String "0" (String "]"
              (ws +:+ ":" +:+ rest))))))).
    cbn [cut Ascii.eqb Bool.eqb]. now rewrite (cut_blank ws rest Hb). }
  pose proof (firmware_key_of_tool_line ws Hb) as Hkey. unfold tab in Hkey.
  rewrite Hcut. cbv zeta. now rewrite Hkey.
Qed.

Lemma fold_firmware_filter lines : forall m,
  fold_left firmware_line lines m
  = fold_left firmware_line
      (List.filter (fun l => Contains l "firmware version") lines) m.
Proof.
  induction lines as [| l lines IH]; intros m; [reflexivity |].
  cbn [fold_left List.filter]. destruct (Contains l "firmware version") eqn:Hfw.
  - cbn [fold_left]. apply IH.
  - rewrite <- IH. unfold firmware_line at 2. now rewrite Hfw.
Qed.

Lemma fold_tool_lines lines :
  (forall l, In l lines ->
     Contains l "firmware version" = true /\ exists rest, tool_line l rest) ->
  fold_left firmware_line lines ∅ = ∅ \/
  exists v, fold_left firmware_line lines ∅ = {[""%string := v]}.
Proof.
  induction lines as [| l lines IH] using rev_ind; intros Hall; [now left |].
  right. rewrite fold_left_app. cbn [fold_left].
  destruct (Hall l) as [Hfw [rest Hl]]; [apply List.in_or_app; right; now left |].
  rewrite (firmware_line_tool _ l rest Hfw Hl).
  destruct IH as [-> | [v ->]].
  - intros l' Hin. apply Hall, List.in_or_app. now left.
  - eexists. apply insert_empty.
  - eexists. apply insert_singleton_eq.
Qed.

(** X16. When the firmware lines have the layout of the tool, with
    [GPU[0]], blanks and a colon before the name of the firmware, the key
    of every line is the empty string: the firmware map has a single
    entry, under the empty key, holding the text after the first colon of
    the last firmware line, and no entry at all without such a line. *)
Theorem firmware_lines_collapse (output : string) :
  (forall l, In l (firmware_lines output) -> exists rest, tool_line l rest) ->
  exists fwInfo,
    getGPUFirmwareInfo (Ok output) = Ok fwInfo /\
    (firmware_lines output = [] -> fwInfo = ∅) /\
    (forall front l rest,
       firmware_lines output = front ++ [l] -> tool_line l rest ->
       fwInfo = {[""%string := TrimSpace rest]}).
Proof.
  intros Hall. eexists. split; [reflexivity |].
  rewrite fold_firmware_filter. fold (firmware_lines output).
  assert (Hfw : forall l, In l (firmware_lines output) -> Contains l "firmware version" = true)
    by (intros l Hl; unfold firmware_lines in Hl; now apply List.filter_In in Hl).
  revert Hall Hfw. generalize (firmware_lines output) as lines. intros lines Hall Hfw.
  split; [intros ->; reflexivity |].
  intros front l rest -> Hl. rewrite fold_left_app. cbn [fold_left].
  rewrite (firmware_line_tool _ l rest); [| apply Hfw, List.in_or_app; right; now left | exact Hl].
  destruct (fold_tool_lines front) as [-> | [v ->]];
    [| apply insert_empty | apply insert_singleton_eq].
  intros l' Hin. split; [apply Hfw | apply Hall]; apply List.in_or_app; now left.
Qed.

Lemma firmware_lines_collapse_witness :
  exists fwInfo,
    getGPUFirmwareInfo (Ok firmware_output) = Ok fwInfo /\
    fwInfo = {[""%string := ("CE firmware version: " +:+ tab +:+ "37")%string]}.
Proof.
  destruct (firmware_lines_collapse firmware_output) as (fwInfo & Hfw & _ & Hlast).
  - intros l Hl. vm_compute in Hl. destruct Hl as [<- | [<- | []]].
    + eexists. exists (tab +:+ tab)%string. split; [repeat constructor; now left | reflexivity].
    + eexists. exists (tab +:+ tab)%string. split; [repeat constructor; now left | reflexivity].
  - exists fwInfo. split; [exact Hfw |].
    rewrite (Hlast [("GPU[0]" +:+ tab +:+ tab +:+ ": ASD firmware version: " +:+ tab
                      +:+ "0x210000eb")%string]
               ("GPU[0]" +:+ tab +:+ tab +:+ ": CE firmware version: " +:+ tab +:+ "37")%string
               (" CE firmware version: " +:+ tab +:+ "37")%string).
    + vm_compute. reflexivity.
    + vm_compute. reflexivity.
    + exists (tab +:+ tab)%string. split; [repeat constructor; now left | reflexivity].
Defined.

(** ** The diagnostic tests *)

Lemma append_if_In x cond message issues :
  In x (append_if cond message issues) -> x = message \/ In x issues.
Proof.
  unfold append_if. destruct cond; [| now right].
  intros [H | [<- | []]]%List.in_app_or; [now right | now left].
Qed.

Lemma critical_patterns_In x outputLower patterns : forall issues,
  In x (fold_left
          (fun issues ep =>
             if Contains outputLower (pattern ep) then
               let shouldExclude :=
                 existsb
                   (fun exclude => negb (String.eqb exclude "") && Contains outputLower exclude)
                   (excludes ep) in
               append_if (negb shouldExclude) (message ep) issues
             else issues)
          patterns issues) ->
  In x issues \/ In x (List.map message patterns).
Proof.
  induction patterns as [| ep patterns IH]; intros issues; cbn [fold_left List.map];
    [now left |].
  intros [H | H]%IH; [| right; now right].
  destruct (Contains outputLower (pattern ep)); [| now left].
  apply append_if_In in H as [-> | H]; [right; now left | now left].
Qed.

Ltac among := repeat (first [left; reflexivity | right]).

Lemma analyzeOutput_reported ToLower MatchString command output x :
  In x (analyzeOutput ToLower MatchString command output) -> In x reported_issues.
Proof.
  unfold analyzeOutput, reported_issues. cbv zeta.
  intros [H | H]%critical_patterns_In; apply List.in_or_app; [left | now right].
  destruct (String.eqb_spec command "rocminfo") as [-> | _];
    [| destruct (String.eqb_spec command "rocm-smi") as [-> | _];
       [| destruct (String.eqb_spec command "hipconfig") as [-> | _]; [| destruct H]]];
    repeat match type of H with
           | In _ (append_if _ _ _) => apply append_if_In in H as [-> | H]; [among |]
           end;
    try (destruct H).
  change (Contains "hipconfig" "--version") with false in H.
  change (Contains "hipconfig" "--platform") with false in H.
  cbv iota in H.
  apply append_if_In in H as [-> | []]. among.
Qed.

(** X19. [analyzeOutput] is given the bare command, without its
    arguments, so in the case of [hipconfig] neither [--version] nor
    [--platform] is found in it: the two regular expressions are never
    consulted, and the issues of an invalid HIP version or platform are
    never reported, whatever the output. *)
Theorem analyzeOutput_never_checks_hip_output
    (ToLower : string -> string) (MatchString : string -> string -> bool)
    (command output : string) :
  (forall MatchString',
     analyzeOutput ToLower MatchString' command output
     = analyzeOutput ToLower MatchString command output) /\
  ~ In "Invalid HIP version output - no version number found"%string
       (analyzeOutput ToLower MatchString command output) /\
  ~ In "Invalid HIP platform output - no platform detected"%string
       (analyzeOutput ToLower MatchString command output).
Proof.
  split; [| split].
  - intros MatchString'. unfold analyzeOutput.
    destruct (String.eqb_spec command "rocminfo") as [-> | _]; [reflexivity |].
    destruct (String.eqb_spec command "rocm-smi") as [-> | _]; [reflexivity |].
    destruct (String.eqb_spec command "hipconfig") as [-> | _]; reflexivity.
  - intros H%analyzeOutput_reported. vm_compute in H. intuition discriminate.
  - intros H%analyzeOutput_reported. vm_compute in H. intuition discriminate.
Qed.

Lemma runSingleTest_Success ToLower MatchString rt name command args description run :
  ROCmTestResult.Success
    (runSingleTest ToLower MatchString rt name command args description run)
  = match failure run with Some _ => false | None => true end.
Proof.
  unfold runSingleTest. destruct (failure run) as [text |]; [| reflexivity].
  destruct (deadline run); [reflexivity |]. now destruct (Contains text "no such file").
Qed.

Lemma runSingleTest_Issues ToLower MatchString rt name command args description run :
  failure run = None ->
  ROCmTestResult.Issues
    (runSingleTest ToLower MatchString rt name command args description run)
  = analyzeOutput ToLower MatchString command (combined run).
Proof. unfold runSingleTest. now intros ->. Qed.

(** X17. A test succeeds exactly when its command ran without error.
    The output of a command that failed is kept but never analysed: the
    result carries the text of the error and exactly one issue, and it is
    the same whatever [analyzeOutput] would have found. *)
Theorem runSingleTest_failure_is_not_analysed
    (ToLower : string -> string) (MatchString : string -> string -> bool)
    (rt : ROCmTester) (name command : string) (args : list string) (description : string)
    (run : Execution) :
  let result := runSingleTest ToLower MatchString rt name command args description run in
  (ROCmTestResult.Success result = true <-> failure run = None) /\
  ROCmTestResult.Output result = combined run /\
  (forall text, failure run = Some text ->
     ROCmTestResult.ErrorOutput result = text /\
     length (ROCmTestResult.Issues result) = 1%nat /\
     forall ToLower' MatchString',
       runSingleTest ToLower' MatchString' rt name command args description run = result).
Proof.
  cbv zeta. split; [| split].
  - rewrite runSingleTest_Success. destruct (failure run); split; congruence.
  - unfold runSingleTest. destruct (failure run) as [text |]; [| reflexivity].
    destruct (deadline run); [reflexivity |]. now destruct (Contains text "no such file").
  - intros text Hfail. unfold runSingleTest. rewrite Hfail.
    destruct (deadline run); [now repeat split |].
    destruct (Contains text "no such file"); now repeat split.
Qed.

Lemma runSingleTest_failure_is_not_analysed_witness :
  let result :=
    runSingleTest (fun s => s) (fun _ _ => false) NewROCmTester "ROCm Info" "rocminfo" []
      "Basic ROCm system information" missing_run in
  failure missing_run = Some "exec: rocminfo: no such file or directory"%string /\
  ROCmTestResult.Issues result
  = ["Command 'rocminfo' not found - ROCm may not be installed"%string] /\
  length (ROCmTestResult.Issues result) = 1%nat.
Proof.
  cbv zeta. split; [reflexivity |]. split; [reflexivity |].
  destruct (runSingleTest_failure_is_not_analysed (fun s => s) (fun _ _ => false)
              NewROCmTester "ROCm Info" "rocminfo" [] "Basic ROCm system information"
              missing_run) as (_ & _ & Hfailed).
  exact (proj1 (proj2 (Hfailed _ eq_refl))).
Defined.

Lemma RunTests_loop ToLower MatchString rt execute ts : forall results success,
  fold_left
    (fun '(results, success) test =>
       let result :=
         runSingleTest ToLower MatchString rt (name test) (command test) (args test)
           (description test) (execute test) in
       (results ++ [result], if ROCmTestResult.Success result then success else false))
    ts (results, success)
  = (results
     ++ List.map
          (fun test =>
             runSingleTest ToLower MatchString rt (name test) (command test) (args test)
               (description test) (execute test)) ts,
     success && forallb (fun test => match failure (execute test) with
                                     | Some _ => false
                                     | None => true
                                     end) ts).
Proof.
  induction ts as [| test ts IH]; intros results success; cbn [fold_left List.map forallb].
  - now rewrite app_nil_r, andb_true_r.
  - rewrite IH, <- app_assoc, runSingleTest_Success. cbn [app].
    now destruct (failure (execute test)), success.
Qed.

Lemma count_result_cases passed failed warnings result :
  count_result (passed, failed, warnings) result
  = if ROCmTestResult.Success result then
      (passed + 1, failed,
       match ROCmTestResult.Issues result with [] => warnings | _ => warnings + 1 end)
    else (passed, failed + 1, warnings).
Proof. unfold count_result. now destruct (ROCmTestResult.Issues result). Qed.

Lemma tally_from results : forall passed failed warnings,
  exists passed' failed' warnings',
    fold_left count_result results (passed, failed, warnings)
    = (passed', failed', warnings') /\
    warnings <= warnings' /\
    (warnings < warnings' <->
     exists result, In result results /\ ROCmTestResult.Success result = true /\
                    ROCmTestResult.Issues result <> []) /\
    ((forall result, In result results -> ROCmTestResult.Success result = true) ->
     passed' = passed + Z.of_nat (length results) /\ failed' = failed).
Proof.
  induction results as [| r results IH]; intros passed failed warnings; cbn [fold_left].
  - exists passed, failed, warnings.
    split; [reflexivity |]. split; [lia |]. split; [| cbn [length]; lia].
    split; [lia | intros (result & [] & _)].
  - rewrite count_result_cases. destruct (ROCmTestResult.Success r) eqn:Hs.
    + destruct (ROCmTestResult.Issues r) as [| issue issues] eqn:Hi.
      * destruct (IH (passed + 1) failed warnings) as (p & f & w & -> & Hle & Hw & Hall).
        exists p, f, w. repeat split; try assumption.
        -- intros (result & Hin & Hr)%Hw. exists result. split; [now right | exact Hr].
        -- intros (result & [<- | Hin] & Hrs & Hri); [congruence |].
           apply Hw. now exists result.
        -- destruct Hall as [-> _]; [intros result Hin; apply H; now right |].
           cbn [length]. lia.
        -- destruct Hall as [_ ->]; [intros result Hin; apply H; now right |]. reflexivity.
      * destruct (IH (passed + 1) failed (warnings + 1)) as (p & f & w & -> & Hle & Hw & Hall).
        exists p, f, w. repeat split; try lia.
        -- intros _. exists r. split; [now left |]. split; [exact Hs | congruence].
        -- destruct Hall as [-> _]; [intros result Hin; apply H; now right |].
           cbn [length]. lia.
        -- destruct Hall as [_ ->]; [intros result Hin; apply H; now right |]. reflexivity.
    + destruct (IH passed (failed + 1) warnings) as (p & f & w & -> & Hle & Hw & Hall).
      exists p, f, w. repeat split; try assumption.
      * intros (result & Hin & Hr)%Hw. exists result. split; [now right | exact Hr].
      * intros (result & [<- | Hin] & Hrs & Hri); [congruence |].
        apply Hw. now exists result.
      * specialize (H r (or_introl eq_refl)). congruence.
      * specialize (H r (or_introl eq_refl)). congruence.
Qed.

Lemma forallb_false {A} (f : A -> bool) l :
  forallb f l = false -> exists x, In x l /\ f x = false.
Proof.
  induction l as [| a l IH]; cbn [forallb]; [discriminate |].
  destruct (f a) eqn:Ha.
  - intros (x & Hin & Hx)%IH. exists x. split; [now right | exact Hx].
  - intros _. exists a. split; [now left | exact Ha].
Qed.

Lemma generateSummary_headline suite passed failed warnings :
  tally (ROCmTestSuite.TestResults suite) = (passed, failed, warnings) ->
  String.prefix "❌ ROCm tests failed - " (generateSummary suite)
  = negb (ROCmTestSuite.OverallSuccess suite) /\
  String.prefix "✅ All ROCm tests passed - " (generateSummary suite)
  = ROCmTestSuite.OverallSuccess suite && negb (0 <? warnings).
Proof.
  intros Htally. unfold generateSummary. rewrite Htally.
  destruct (ROCmTestSuite.OverallSuccess suite), (0 <? warnings); split; reflexivity.
Qed.

(** X18. The suite of [RunTests] has one result for each of the eleven
    tests and succeeds exactly when every command ran without error. Its
    summary begins with the headline of failure exactly when some command
    failed, and with the headline of full success exactly when every
    command ran and no output raised an issue; the issue that every
    failed test carries does not count as a warning. With everything
    clean the summary is the text given. *)
Theorem RunTests_summary_headline
    (ToLower : string -> string) (MatchString : string -> string -> bool)
    (rt : ROCmTester) (execute : Test -> Execution) (now : Time) (duration : Z) :
  let suite := RunTests ToLower MatchString rt execute now duration in
  let clean test :=
    failure (execute test) = None /\
    analyzeOutput ToLower MatchString (command test) (combined (execute test)) = [] in
  length (ROCmTestSuite.TestResults suite) = 11%nat /\
  (ROCmTestSuite.OverallSuccess suite = true <->
   forall test, In test tests -> failure (execute test) = None) /\
  (String.prefix "❌ ROCm tests failed - " (ROCmTestSuite.Summary suite) = true <->
   exists test, In test tests /\ failure (execute test) <> None) /\
  (String.prefix "✅ All ROCm tests passed - " (ROCmTestSuite.Summary suite) = true <->
   forall test, In test tests -> clean test) /\
  ((forall test, In test tests -> clean test) ->
   ROCmTestSuite.Summary suite
   = ("✅ All ROCm tests passed - Tests: 11 total, 11 passed, 0 failed (completed in "
      +:+ Strconv.Itoa duration +:+ "ms)")%string).
Proof.
  cbv zeta. unfold RunTests. rewrite RunTests_loop. cbn [app andb].
  set (run := fun test => runSingleTest ToLower MatchString rt (name test) (command test)
                            (args test) (description test) (execute test)).
  set (ran := fun test => match failure (execute test) with Some _ => false | None => true end).
  cbn [ROCmTestSuite.TestResults ROCmTestSuite.OverallSuccess ROCmTestSuite.Summary].
  set (suite := {| ROCmTestSuite.OverallSuccess := forallb ran tests;
                   ROCmTestSuite.TestResults := List.map run tests;
                   ROCmTestSuite.Summary := "";
                   ROCmTestSuite.Timestamp := now;
                   ROCmTestSuite.Duration := duration |}).
  assert (Hran : forallb ran tests = true <->
                 forall test, In test tests -> failure (execute test) = None).
  { rewrite forallb_forall. unfold ran.
    split; intros H test Hin; specialize (H test Hin); now destruct (failure (execute test)). }
  destruct (tally_from (List.map run tests) 0 0 0)
    as (passed & failed & warnings & Htally & Hle & Hwarn & Hall).
  change (tally (List.map run tests) = (passed, failed, warnings)) in Htally.
  destruct (generateSummary_headline suite passed failed warnings Htally) as [Hfail Hpass].
  cbn [ROCmTestSuite.OverallSuccess suite] in Hfail, Hpass.
  assert (Hclean : forallb ran tests && negb (0 <? warnings) = true <->
                   forall test, In test tests ->
                     failure (execute test) = None /\
                     analyzeOutput ToLower MatchString (command test) (combined (execute test))
                     = []).
  { rewrite andb_true_iff, Hran, negb_true_iff, Z.ltb_ge. split.
    - intros [Hok Hw] test Hin. split; [now apply Hok |].
      destruct (analyzeOutput _ _ _ _) as [| issue issues] eqn:Hissues; [reflexivity |].
      exfalso. assert (0 < warnings); [| lia].
      apply Hwarn. exists (run test). split; [now apply List.in_map |].
      unfold run. rewrite runSingleTest_Success, runSingleTest_Issues, (Hok test Hin), Hissues
        by now apply Hok.
      split; [reflexivity | discriminate].
    - intros H. split; [intros test Hin; now apply H |].
      apply Z.nlt_ge. intros (result & (test & <- & Hin)%List.in_map_iff & _ & Hissues)%Hwarn.
      apply Hissues. unfold run. rewrite runSingleTest_Issues; now apply H. }
  split; [now rewrite length_map |].
  split; [exact Hran |].
  split; [| split].
  - rewrite Hfail, negb_true_iff. split.
    + intros (test & Hin & Htest)%forallb_false.
      exists test. split; [exact Hin |]. unfold ran in Htest.
      now destruct (failure (execute test)).
    + intros (test & Hin & Htest). apply not_true_iff_false. intros Hok.
      exact (Htest (proj1 Hran Hok test Hin)).
  - now rewrite Hpass.
  - intros H. pose proof (proj2 Hclean H) as [Hok Hw]%andb_true_iff.
    apply negb_true_iff in Hw.
    destruct Hall as [-> ->].
    { intros result (test & <- & Hin)%List.in_map_iff. unfold run.
      rewrite runSingleTest_Success. now rewrite (proj1 (H test Hin)). }
    unfold generateSummary, suite.
    cbn [ROCmTestSuite.TestResults ROCmTestSuite.OverallSuccess ROCmTestSuite.Duration].
    rewrite Htally, Hok, Hw, length_map. reflexivity.
Qed.

Lemma RunTests_summary_headline_witness :
  ROCmTestSuite.Summary
    (RunTests (fun output => output) (fun _ _ => true) NewROCmTester (fun _ => healthy_run)
       0 250)
  = "✅ All ROCm tests passed - Tests: 11 total, 11 passed, 0 failed (completed in 250ms)"%string.
Proof.
  apply (RunTests_summary_headline (fun output => output) (fun _ _ => true) NewROCmTester
           (fun _ => healthy_run) 0 250).
  intros test Hin.
  repeat (destruct Hin as [<- | Hin]; [split; reflexivity |]). destruct Hin.
Defined.

(** ** Export as CSV and the labels of the Prometheus export *)

Lemma write_row_failed Write rows : forall records err,
  fold_left (write_row Write) rows (records, Some err) = (records, Some err).
Proof. induction rows as [| r rows IH]; intros records err; [reflexivity | apply IH]. Qed.

Lemma ExportCSV_loops RFC3339 fixed Write history : forall state,
  fold_left
    (fun state data =>
       let timestamp := RFC3339 (Timestamp data) in
       fold_left (fun state gpu => write_row Write state (row fixed timestamp data gpu))
         (GPUs data) state)
    history state
  = fold_left (write_row Write)
      (flat_map (fun data => List.map (row fixed (RFC3339 (Timestamp data)) data) (GPUs data))
         history)
      state.
Proof.
  induction history as [| data history IH]; intros state; cbn [fold_left flat_map];
    [reflexivity |].
  rewrite IH, fold_left_app. f_equal.
  generalize (GPUs data) as gpus. intros gpus. revert state.
  induction gpus as [| gpu gpus IHg]; intros state; [reflexivity | apply IHg].
Qed.

(** The writes of a list of rows stop at the first that fails: either
    all are written, each accepted in its turn, or the rows before the
    first refused one are written and the error of that one is
    returned. *)
Lemma write_rows Write rows : forall records,
  (fold_left (write_row Write) rows (records, None) = (records ++ rows, None) /\
   forall before record after, rows = before ++ record :: after ->
     Write (records ++ before) record = None) \/
  (exists before record after err,
     rows = before ++ record :: after /\
     Write (records ++ before) record = Some err /\
     (forall before' record' after', before = before' ++ record' :: after' ->
        Write (records ++ before') record' = None) /\
     fold_left (write_row Write) rows (records, None)
     = (records ++ before, Some (Wrap "failed to write CSV row" err))).
Proof.
  induction rows as [| r rows IH]; intros records.
  - left. split; [now rewrite app_nil_r |].
    intros [| x before] record after; discriminate.
  - cbn [fold_left write_row]. destruct (Write records r) as [err |] eqn:Hw.
    + right. exists [], r, rows, err. rewrite app_nil_r.
      split; [reflexivity |]. split; [exact Hw |].
      split; [intros [| x b] r' a'; discriminate | apply write_row_failed].
    + destruct (IH (records ++ [r]))
        as [[Hall Hok] | (before & record & after & err & -> & Hw' & Hpre & Hrun)].
      * left. split; [now rewrite Hall, <- app_assoc |].
        intros [| x before] record after [= <- ->].
        -- now rewrite app_nil_r.
        -- specialize (Hok before record after eq_refl).
           now rewrite <- app_assoc in Hok.
      * right. exists (r :: before), record, after, err.
        rewrite <- app_assoc in Hw', Hrun.
        split; [reflexivity |]. split; [exact Hw' |]. split; [| exact Hrun].
        intros [| x before'] record' after' [= <- Hrest].
        -- now rewrite app_nil_r.
        -- specialize (Hpre before' record' after' Hrest).
           now rewrite <- app_assoc in Hpre.
Qed.

(** X20. [ExportCSV] writes nothing and fails on an empty history.
    Otherwise it hands to the CSV writer the header and then, sample
    after sample, one row for each device of the sample, with the time
    stamp and the CPU usage of that sample, and stops at the first
    record that the writer refuses: what is written is then the records
    before that one, and the error is the error of the writer, wrapped
    as a failure of the header or of a row. It returns no error exactly
    when the history is not empty and the writer accepts every record in
    its turn; the records written are then all of them, one more than
    the history has device readings, each of the eleven fields of the
    header. *)
Theorem ExportCSV_one_row_per_device
    (RFC3339 : Time -> string) (fixed : nat -> float64 -> string)
    (Write : list (list string) -> list string -> option error) (c : Collector) :
  let all := csv_records RFC3339 fixed (history c) in
  let export := ExportCSV RFC3339 fixed Write c in
  (history c = [] -> export = ([], Some (External "no data to export"))) /\
  (history c <> [] ->
     (snd export = None <->
      forall before record after, all = before ++ record :: after ->
        Write before record = None) /\
     (snd export = None ->
        fst export = all /\
        length (fst export)
        = S (list_sum (List.map (fun data => length (GPUs data)) (history c))) /\
        Forall (fun record => length record = length header) (fst export)) /\
     (forall e, snd export = Some e ->
        exists record after err,
          all = fst export ++ record :: after /\
          Write (fst export) record = Some err /\
          (forall before' record' after', fst export = before' ++ record' :: after' ->
             Write before' record' = None) /\
          e = Wrap (match fst export with
                    | [] => "failed to write CSV header"
                    | _ => "failed to write CSV row"
                    end) err)).
Proof.
  cbv zeta. unfold ExportCSV, GetHistory, csv_records. split.
  - intros ->. reflexivity.
  - intros Hne.
    destruct (Nat.eqb_spec (length (history c)) 0) as [Hz | _];
      [destruct (history c); [congruence | discriminate] |].
    set (rows := flat_map
                   (fun data => List.map (row fixed (RFC3339 (Timestamp data)) data) (GPUs data))
                   (history c)).
    assert (Hlen : length rows
                   = list_sum (List.map (fun data => length (GPUs data)) (history c))).
    { subst rows. generalize (history c) as samples. intros samples.
      induction samples as [| d samples IH]; [reflexivity |].
      cbn [flat_map List.map list_sum]. now rewrite length_app, length_map, IH. }
    assert (Hwidth : Forall (fun record => length record = length header) rows).
    { subst rows. generalize (history c) as samples. intros samples.
      induction samples as [| d samples IH]; [constructor |].
      cbn [flat_map]. apply Forall_app. split; [| exact IH].
      apply List.Forall_forall. intros record (gpu & <- & _)%List.in_map_iff. reflexivity. }
    destruct (Write [] header) as [err |] eqn:Hheader.
    + cbn [fst snd]. split; [| split].
      * split; [discriminate |]. intros Hok.
        specialize (Hok [] header rows eq_refl). congruence.
      * discriminate.
      * intros e [= <-]. exists header, rows, err. repeat split; try assumption.
        intros [| x before'] record' after'; discriminate.
    + rewrite ExportCSV_loops. fold rows.
      destruct (write_rows Write rows [header])
        as [[-> Hok] | (before & record & after & err & Hrows & Hw & Hpre & ->)];
        cbn [fst snd].
      * split; [| split].
        -- split; [| reflexivity]. intros _ [| x before] record after [= <- Hrest].
           ++ exact Hheader.
           ++ exact (Hok before record after Hrest).
        -- intros _. split; [reflexivity |]. split.
           ++ cbn [app length]. now rewrite Hlen.
           ++ constructor; [reflexivity | exact Hwidth].
        -- discriminate.
      * split; [| split].
        -- split; [discriminate |]. intros Hok.
           specialize (Hok (header :: before) record after). rewrite Hrows in Hok.
           specialize (Hok eq_refl). cbn [app] in Hw. congruence.
        -- discriminate.
        -- intros e [= <-]. exists record, after, err. cbn [app].
           split; [now rewrite Hrows |]. split; [exact Hw |]. split; [| reflexivity].
           intros [| x before'] record' after' [= <- Hrest]; [exact Hheader |].
           exact (Hpre before' record' after' Hrest).
Qed.

Lemma ExportCSV_one_row_per_device_witness :
  let c := collector_with [sample_at 1; sample_at 2] in
  let export := ExportCSV Strconv.Itoa (fun _ _ => "0"%string) short_writer c in
  history c <> [] /\
  length (fst export) = 2%nat /\
  snd export = Some (Wrap "failed to write CSV row" (External "short write")) /\
  exists record after,
    csv_records Strconv.Itoa (fun _ _ => "0"%string) (history c)
    = fst export ++ record :: after.
Proof.
  cbv zeta. split; [discriminate |]. split; [reflexivity |]. split; [reflexivity |].
  destruct (ExportCSV_one_row_per_device Strconv.Itoa (fun _ _ => "0"%string) short_writer
              (collector_with [sample_at 1; sample_at 2])) as [_ Hexport].
  destruct Hexport as (_ & _ & Hfailed); [discriminate |].
  destruct (Hfailed (Wrap "failed to write CSV row" (External "short write")) eq_refl)
    as (record & after & err & Hall & _).
  exists record, after. exact Hall.
Defined.

(** X21. [GetGPUStaticInfo] describes one device at most, so the
    Prometheus export labels only the device of index 0 with a product
    name, a vendor, a serial number and a VRAM vendor: the labels of every
    other device are empty, and so are those of device 0 when the
    firmware command fails. No device index from 0 on makes the lookup
    panic. *)
Theorem static_labels_only_for_device_zero (w : Commands) (id : Z) :
  (1 <= id ->
   static_labels (static_info w) id = Some (""%string, ""%string, ""%string, ""%string)) /\
  ((exists e, showfwinfo w = Err e) ->
   static_labels (static_info w) 0 = Some (""%string, ""%string, ""%string, ""%string)) /\
  (forall output, showfwinfo w = Ok output ->
     static_labels (static_info w) 0
     = Some (fst (getGPUProductName (showproductname w)), "AMD"%string,
             fst (getGPUSerialNumber (showserial w)),
             fst (getGPUVRAMVendor (showmemvendor w)))) /\
  (0 <= id -> static_labels (static_info w) id <> None).
Proof.
  unfold static_info, GetGPUStaticInfo, getGPUFirmwareInfo.
  destruct (showfwinfo w) as [output | e] eqn:Hfw.
  - cbv zeta. unfold static_labels. cbn [length].
    repeat split.
    + intros Hid. destruct (Z.ltb_spec id (Z.of_nat 1)); [lia | reflexivity].
    + intros [e He]. discriminate.
    + intros out _. cbn. unfold or_unknown.
      repeat match goal with
             | |- context [snd (?f ?r)] =>
                 replace (snd (f r)) with (@None error)
                   by (unfold f; destruct r; reflexivity)
             end.
      reflexivity.
    + intros Hid. destruct (Z.ltb_spec id (Z.of_nat 1)); [| discriminate].
      destruct (Z.ltb_spec id 0); [lia |].
      replace id with 0 by lia. discriminate.
  - unfold static_labels. cbn [length]. repeat split.
    + intros Hid. destruct (Z.ltb_spec id (Z.of_nat 0)); [lia | reflexivity].
    + intros output Hout. discriminate.
    + intros Hid. destruct (Z.ltb_spec id (Z.of_nat 0)); [lia | discriminate].
Qed.

Lemma static_labels_only_for_device_zero_witness :
  static_labels (static_info only_firmware) 1
  = Some (""%string, ""%string, ""%string, ""%string) /\
  static_labels (static_info all_fail) 0
  = Some (""%string, ""%string, ""%string, ""%string).
Proof.
  split.
  - apply (static_labels_only_for_device_zero only_firmware 1). lia.
  - apply (static_labels_only_for_device_zero all_fail 0). eexists. reflexivity.
Defined.
